(** * The record store, its views and its mutations

    A shallow embedding of [src/services/api.ts] and [src/types.ts]: the
    in-memory collections, the functions that read them (site details,
    today's workers, overall material log, dashboard) and the functions that
    write them, followed by the properties of the aggregation layer.

    Conventions of the embedding.
    - A TypeScript [number] is an IEEE 754 double.  Amounts, wages,
      quantities and counts are whole numbers here, so a [number] is a [Z]
      that a double can hold, and the rounding of the arithmetic that the
      code does on amounts is written out: [jsAdd], [jsSub] and [jsMul]
      return the double nearest to the exact result, ties to even
      ([roundDouble]).  Up to 2^53 in magnitude the result is the exact one.
      Fractions, [NaN], the sign of zero and the infinities (a result beyond
      [MAX_VALUE]) are outside the model.  The JavaScript idiom [x || 0] is
      kept as [orZero].
    - A [string] is a Rocq [string]; [===] on strings is [String.eqb].
    - The module-level arrays [sites], [workers], ... are the fields of one
      [World] record that every API function reads and writes through a
      state-and-exception monad.  An exception does not roll the state
      back, exactly as a JavaScript [throw] does not.
    - [await apiDelay(ms)] only postpones the body; calls are modelled one
      after the other, so the delay has no counterpart.
    - [crypto.randomUUID], the [Date] built-ins and [Array.prototype.sort]
      belong to the JavaScript runtime, not to the repository: they are the
      fields of the class [JsRuntime], the sort with what ECMAScript
      promises of it. *)

From Stdlib Require Import ZArith List String Ascii Bool Arith Lia Permutation.
From Stdlib Require Import Sorted.
From Stdlib Require Floats Uint63.
Import ListNotations.
Open Scope string_scope.
Open Scope list_scope.
Open Scope Z_scope.

Set Implicit Arguments.

(** ** The JavaScript runtime *)

(** The comparator [cmp] orders the elements of [l] by [rank]: on any two of
    them it returns a number (not [NaN], which is [None]) whose sign is that
    of the difference of their ranks.  Such a comparator is a consistent
    one in the sense of ECMAScript. *)
Definition ranked {A} (rank : A -> Z) (cmp : A -> A -> option Z) (l : list A) : Prop :=
  forall a b, In a l -> In b l ->
    exists v, cmp a b = Some v /\ Z.sgn v = Z.sgn (rank a - rank b).

(** No element of the list has a rank above that of a later element. *)
Definition ascending {A} (rank : A -> Z) (l : list A) : Prop :=
  StronglySorted (fun a b => rank a <= rank b) l.

(** The elements of rank [k], in the order of the list. *)
Definition ofRank {A} (rank : A -> Z) (k : Z) (l : list A) : list A :=
  filter (fun x => rank x =? k) l.

(** What the code takes from its host.
    - [randomUUID n] is the value of the [n]-th call of [crypto.randomUUID()].
    - [Date_parse s] is [new Date(s).getTime()], with [None] for [NaN]
      (an invalid date).
    - [Date_toISODate t] is [new Date(t).toISOString().split('T')[0]].
    - [Date_getMonth t] and [Date_getFullYear t] are [getMonth()] and
      [getFullYear()] of a valid date of time value [t].
    - [Array_sort cmp l] is the array [l] after [l.sort(cmp)].  ECMAScript
      fixes the result only in part, and no more is assumed here.  The
      result always holds the elements of [l], each as often as [l] does
      ([Array_sort_perm]).  When the comparator orders the elements by a
      rank, the result is in ascending order of rank and, the sort being
      stable, elements of equal rank keep their order
      ([Array_sort_ranked]).  When the comparator is not consistent (one
      that returns [NaN] on some pair is not), the order is the engine's
      choice. *)
Class JsRuntime := {
  randomUUID : nat -> string;
  Date_parse : string -> option Z;
  Date_toISODate : Z -> string;
  Date_getMonth : Z -> Z;
  Date_getFullYear : Z -> Z;
  Array_sort : forall A : Type, (A -> A -> option Z) -> list A -> list A;
  Array_sort_perm :
    forall A (cmp : A -> A -> option Z) (l : list A),
      Permutation (Array_sort cmp l) l;
  Array_sort_ranked :
    forall A (rank : A -> Z) (cmp : A -> A -> option Z) (l : list A),
      ranked rank cmp l ->
      ascending rank (Array_sort cmp l) /\
      forall k, ofRank rank k (Array_sort cmp l) = ofRank rank k l
}.

(** ** Data model ([src/types.ts]) *)

Inductive SiteStatus := Online | Offline.

Definition SiteStatus_eqb (a b : SiteStatus) : bool :=
  match a, b with
  | Online, Online | Offline, Offline => true
  | _, _ => false
  end.

Module Site.
Record t := mk {
  SiteID : string;
  SiteName : string;
  Location : string;
  OwnerName : string;
  OwnerContact : string;
  Budget : Z;
  TotalArea : string;
  Status : SiteStatus;
  AmountReceived : Z;
  AgreementFileID : option string;
  SitePlanFileID : option string;
  DriveFolderID : option string
}.

(** [site.Status = status] *)
Definition set_Status (v : SiteStatus) (s : t) : t :=
  mk (SiteID s) (SiteName s) (Location s) (OwnerName s) (OwnerContact s)
     (Budget s) (TotalArea s) v (AmountReceived s)
     (AgreementFileID s) (SitePlanFileID s) (DriveFolderID s).

(** [site.AgreementFileID = fileId] *)
Definition set_AgreementFileID (v : string) (s : t) : t :=
  mk (SiteID s) (SiteName s) (Location s) (OwnerName s) (OwnerContact s)
     (Budget s) (TotalArea s) (Status s) (AmountReceived s)
     (Some v) (SitePlanFileID s) (DriveFolderID s).

(** [site.SitePlanFileID = fileId] *)
Definition set_SitePlanFileID (v : string) (s : t) : t :=
  mk (SiteID s) (SiteName s) (Location s) (OwnerName s) (OwnerContact s)
     (Budget s) (TotalArea s) (Status s) (AmountReceived s)
     (AgreementFileID s) (Some v) (DriveFolderID s).
End Site.

(** [Omit<Site, 'SiteID' | 'Status' | 'AmountReceived'>] *)
Module SiteData.
Record t := mk {
  SiteName : string;
  Location : string;
  OwnerName : string;
  OwnerContact : string;
  Budget : Z;
  TotalArea : string;
  AgreementFileID : option string;
  SitePlanFileID : option string;
  DriveFolderID : option string
}.
End SiteData.

Module Worker.
Record t := mk {
  WorkerID : string;
  WorkerName : string;
  Contact : option string;
  DefaultDailyWage : Z
}.
End Worker.

(** [Omit<Worker, 'WorkerID'>] *)
Module WorkerData.
Record t := mk {
  WorkerName : string;
  Contact : option string;
  DefaultDailyWage : Z
}.
End WorkerData.

Module Material.
Record t := mk {
  MaterialID : string;
  MaterialName : string;
  Unit : string;
  DefaultValue : Z
}.
End Material.

(** [Omit<Material, 'MaterialID'>] *)
Module MaterialData.
Record t := mk {
  MaterialName : string;
  Unit : string;
  DefaultValue : Z
}.
End MaterialData.

Module DailyLog.
Record t := mk {
  LogID : string;
  SiteID : string;
  Date : string;
  LogEntry : string
}.
End DailyLog.

(** [Omit<DailyLog, 'LogID'>] *)
Module DailyLogData.
Record t := mk {
  SiteID : string;
  Date : string;
  LogEntry : string
}.
End DailyLogData.

Module SiteWorkerLog.
Record t := mk {
  LogID : string;
  SiteID : string;
  Date : string;
  WorkerID : string;
  WorkerName : string;
  SalaryPaid : Z;
  PaidStatus : bool
}.

(** [log.SalaryPaid = amount; log.PaidStatus = status] *)
Definition set_payment (amount : Z) (status : bool) (l : t) : t :=
  mk (LogID l) (SiteID l) (Date l) (WorkerID l) (WorkerName l) amount status.
End SiteWorkerLog.

(** The argument of [updateWorkerSalary]. *)
Module SalaryUpdate.
Record t := mk {
  logId : string;
  amount : Z;
  status : bool
}.
End SalaryUpdate.

(** The first argument of [uploadFile]. *)
Module FileData.
Record t := mk {
  name : string
}.
End FileData.

(** The argument of [addDailyWorker]; [null] is [None]. *)
Module DailyWorkerData.
Record t := mk {
  SiteID : string;
  Date : string;
  WorkerID : option string;
  WorkerName : string;
  newWorker : option WorkerData.t
}.
End DailyWorkerData.

Module SiteMaterialLog.
Record t := mk {
  LogID : string;
  SiteID : string;
  Date : string;
  MaterialID : string;
  MaterialName : string;
  Unit : string;
  QuantityUsed : Z;
  DefaultValue : Z;
  TotalCost : Z
}.
End SiteMaterialLog.

(** [Omit<SiteMaterialLog, 'LogID' | 'TotalCost'>] *)
Module DailyMaterialData.
Record t := mk {
  SiteID : string;
  Date : string;
  MaterialID : string;
  MaterialName : string;
  Unit : string;
  QuantityUsed : Z;
  DefaultValue : Z
}.
End DailyMaterialData.

Module GalleryImage.
Record t := mk {
  ImageID : string;
  SiteID : string;
  DateUploaded : string;
  ImageFileID : string;
  ImageUrl : string;
  Description : string
}.
End GalleryImage.

Module Expenses.
Record t := mk {
  totalExpenses : Z;
  workerExpense : Z;
  materialExpense : Z
}.
End Expenses.

Module SiteDetailsData.
Record t := mk {
  site : Site.t;
  logs : list DailyLog.t;
  workerLogs : list SiteWorkerLog.t;
  materialLogs : list SiteMaterialLog.t;
  gallery : list GalleryImage.t;
  expenses : Expenses.t
}.
End SiteDetailsData.

Module DashboardData.
Record t := mk {
  onlineSites : Z;
  offlineSites : Z;
  todayWorkers : Z;
  todayMaterials : Z;
  todayExpense : Z;
  monthExpense : Z
}.
End DashboardData.

(** [TodayWorker extends SiteWorkerLog] *)
Module TodayWorker.
Record t := mk {
  LogID : string;
  SiteID : string;
  Date : string;
  WorkerID : string;
  WorkerName : string;
  SalaryPaid : Z;
  PaidStatus : bool;
  SiteName : string;
  DefaultDailyWage : Z
}.

(** The [SiteWorkerLog] part of an entry. *)
Definition toLog (e : t) : SiteWorkerLog.t :=
  SiteWorkerLog.mk (LogID e) (SiteID e) (Date e) (WorkerID e)
                   (WorkerName e) (SalaryPaid e) (PaidStatus e).
End TodayWorker.

(** [OverallMaterialLog extends SiteMaterialLog] *)
Module OverallMaterialLog.
Record t := mk {
  LogID : string;
  SiteID : string;
  Date : string;
  MaterialID : string;
  MaterialName : string;
  Unit : string;
  QuantityUsed : Z;
  DefaultValue : Z;
  TotalCost : Z;
  SiteName : string
}.

(** The [SiteMaterialLog] part of an entry. *)
Definition toLog (e : t) : SiteMaterialLog.t :=
  SiteMaterialLog.mk (LogID e) (SiteID e) (Date e) (MaterialID e)
                     (MaterialName e) (Unit e) (QuantityUsed e)
                     (DefaultValue e) (TotalCost e).
End OverallMaterialLog.

(** ** The mock database and the monad of the API *)

(** The seven module-level arrays, and the number of UUIDs drawn so far. *)
Record World := mkWorld {
  sites : list Site.t;
  workers : list Worker.t;
  materials : list Material.t;
  dailyLogs : list DailyLog.t;
  siteWorkerLogs : list SiteWorkerLog.t;
  siteMaterialLogs : list SiteMaterialLog.t;
  galleryImages : list GalleryImage.t;
  uuidCount : nat
}.

Definition set_sites (v : list Site.t) (w : World) : World :=
  mkWorld v (workers w) (materials w) (dailyLogs w) (siteWorkerLogs w)
          (siteMaterialLogs w) (galleryImages w) (uuidCount w).
Definition set_workers (v : list Worker.t) (w : World) : World :=
  mkWorld (sites w) v (materials w) (dailyLogs w) (siteWorkerLogs w)
          (siteMaterialLogs w) (galleryImages w) (uuidCount w).
Definition set_materials (v : list Material.t) (w : World) : World :=
  mkWorld (sites w) (workers w) v (dailyLogs w) (siteWorkerLogs w)
          (siteMaterialLogs w) (galleryImages w) (uuidCount w).
Definition set_dailyLogs (v : list DailyLog.t) (w : World) : World :=
  mkWorld (sites w) (workers w) (materials w) v (siteWorkerLogs w)
          (siteMaterialLogs w) (galleryImages w) (uuidCount w).
Definition set_siteWorkerLogs (v : list SiteWorkerLog.t) (w : World) : World :=
  mkWorld (sites w) (workers w) (materials w) (dailyLogs w) v
          (siteMaterialLogs w) (galleryImages w) (uuidCount w).
Definition set_siteMaterialLogs (v : list SiteMaterialLog.t) (w : World) : World :=
  mkWorld (sites w) (workers w) (materials w) (dailyLogs w) (siteWorkerLogs w)
          v (galleryImages w) (uuidCount w).
Definition set_galleryImages (v : list GalleryImage.t) (w : World) : World :=
  mkWorld (sites w) (workers w) (materials w) (dailyLogs w) (siteWorkerLogs w)
          (siteMaterialLogs w) v (uuidCount w).
Definition set_uuidCount (v : nat) (w : World) : World :=
  mkWorld (sites w) (workers w) (materials w) (dailyLogs w) (siteWorkerLogs w)
          (siteMaterialLogs w) (galleryImages w) v.

(** The record store proper: the world without the UUID counter. *)
Definition store (w : World) :=
  (sites w, workers w, materials w, dailyLogs w,
   siteWorkerLogs w, siteMaterialLogs w, galleryImages w).

(** [new Error(msg)] *)
Inductive Error := mkError (message : string).

Inductive Result (A : Type) :=
| Ok (a : A)
| Throw (e : Error).
Arguments Ok {A} a.
Arguments Throw {A} e.

Definition Api (A : Type) : Type := World -> Result A * World.

Definition ret {A} (a : A) : Api A := fun w => (Ok a, w).
Definition throw {A} (e : Error) : Api A := fun w => (Throw e, w).
Definition bind {A B} (m : Api A) (k : A -> Api B) : Api B :=
  fun w => match m w with
           | (Ok a, w') => k a w'
           | (Throw e, w') => (Throw e, w')
           end.
Definition gets {A} (f : World -> A) : Api A := fun w => (Ok (f w), w).
Definition modify (f : World -> World) : Api unit := fun w => (Ok tt, f w).

Declare Scope api_scope.
Delimit Scope api_scope with api.
Notation "x <- m ;; k" := (bind m (fun x => k))
  (at level 61, m at next level, right associativity) : api_scope.
Notation "m ;; k" := (bind m (fun _ => k))
  (at level 61, right associativity) : api_scope.
Open Scope api_scope.

(** ** Numbers *)

(** The double nearest to the whole number [z], ties to even.  A double has
    a significand of 53 bits: a number of more bits keeps the leading 53
    ([q], scaled by 2^[e]) and is rounded on the rest ([r], against the half
    of 2^[e]). *)
Definition roundDouble (z : Z) : Z :=
  let a := Z.abs z in
  let e := Z.log2 a - 52 in
  if e <=? 0 then z
  else
    let q := Z.shiftr a e in
    let r := a - Z.shiftl q e in
    let half := Z.shiftl 1 (e - 1) in
    let q' := if (half <? r) || ((half =? r) && Z.odd q) then q + 1 else q in
    Z.sgn z * Z.shiftl q' e.

(** [x + y], [x - y] and [x * y] on doubles that hold whole numbers. *)
Definition jsAdd (x y : Z) : Z := roundDouble (x + y).
Definition jsSub (x y : Z) : Z := roundDouble (x - y).
Definition jsMul (x y : Z) : Z := roundDouble (x * y).

(** [Number.MAX_VALUE], the largest finite double. *)
Definition MAX_VALUE : Z := 2 ^ 1024 - 2 ^ 971.

(** Rocq's primitive floats are IEEE 754 doubles, those of the hardware.
    Whole numbers of less than 63 bits can be taken there and back, to set
    [roundDouble] and the three operations against the real ones. *)
Module Hardware.

(** The double nearest to a whole number of magnitude below 2^63. *)
Definition ofZ (z : Z) : PrimFloat.float :=
  if z <? 0 then PrimFloat.opp (PrimFloat.of_uint63 (Uint63.of_Z (- z)))
  else PrimFloat.of_uint63 (Uint63.of_Z z).

(** The whole number that a double is, if it is one. *)
Definition toZ (f : PrimFloat.float) : option Z :=
  match FloatOps.Prim2SF f with
  | SpecFloat.S754_zero _ => Some 0
  | SpecFloat.S754_finite s m e =>
      let sign := if s then -1 else 1 in
      if 0 <=? e then Some (sign * (Z.pos m * 2 ^ e))
      else if Z.pos m mod 2 ^ (- e) =? 0 then Some (sign * (Z.pos m / 2 ^ (- e)))
      else None
  | _ => None
  end.

Definition same (z : Z) (f : PrimFloat.float) : bool :=
  match toZ f with
  | Some v => z =? v
  | None => false
  end.

(** [n] numbers of up to [bits] bits, of both signs, from a congruential
    generator. *)
Fixpoint numbers (n : nat) (bits : Z) (seed : Z) : list Z :=
  match n with
  | O => []
  | S k =>
      let next := (seed * 6364136223846793005 + 1442695040888963407) mod 2 ^ 64 in
      let v := (next / 4) mod 2 ^ bits in
      (if Z.odd (next / 2) then - v else v) :: numbers k bits next
  end.

(** Numbers around the powers of two from 2^52 to 2^62, where the spacing
    of the doubles changes. *)
Definition edges : list Z :=
  flat_map (fun e => map (fun d => 2 ^ e + d) [-3; -2; -1; 0; 1; 2; 3; 4; 5; 6; 7])
           [52; 53; 54; 55; 56; 60; 62].

Definition roundAgrees (z : Z) : bool := same (roundDouble z) (ofZ z).

Definition addAgrees (x y : Z) : bool :=
  same (jsAdd (roundDouble x) (roundDouble y)) (PrimFloat.add (ofZ x) (ofZ y)).

Definition subAgrees (x y : Z) : bool :=
  same (jsSub (roundDouble x) (roundDouble y)) (PrimFloat.sub (ofZ x) (ofZ y)).

Definition mulAgrees (x y : Z) : bool :=
  same (jsMul (roundDouble x) (roundDouble y)) (PrimFloat.mul (ofZ x) (ofZ y)).

(** The pairs of one element of [l] with the next. *)
Fixpoint pairs (l : list Z) : list (Z * Z) :=
  match l with
  | x :: ((y :: _) as r) => (x, y) :: pairs r
  | _ => []
  end.

End Hardware.

(** ** Array helpers *)

(** [arr.push(x)] *)
Definition push {A} (x : A) (l : list A) : list A := l ++ [x].

(** The array after [const o = arr.find(p); if (o) { o.field = ... }]: the
    first element that satisfies [p] is replaced by its image. *)
Fixpoint updateFirst {A} (p : A -> bool) (f : A -> A) (l : list A) : list A :=
  match l with
  | [] => []
  | x :: r => if p x then f x :: r else x :: updateFirst p f r
  end.

(** [arr.includes(x)] on strings *)
Definition includes (x : string) (l : list string) : bool :=
  existsb (String.eqb x) l.

(** [arr.reduce((acc, x) => acc + f(x), 0)] *)
Definition reduceSum {A} (f : A -> Z) (l : list A) : Z :=
  fold_left (fun acc x => jsAdd acc (f x)) l 0.

(** [x || 0] where [x] is a number or [undefined] ([None]): [undefined],
    [0] (and [NaN]) are falsy. *)
Definition orZero (x : option Z) : Z :=
  match x with
  | Some z => if z =? 0 then 0 else z
  | None => 0
  end.

(** [s || d] where [s] is a string or [undefined] ([None]): [undefined] and
    the empty string are falsy. *)
Definition orDefault (s : option string) (d : string) : string :=
  match s with
  | Some v => if String.eqb v "" then d else v
  | None => d
  end.

(** *** Vocabulary for the statements about totals *)

(** The sum of a list of amounts. *)
Definition Zsum (l : list Z) : Z := fold_right Z.add 0 l.

(** The total that [let t = 0; l.forEach(x => t += x)] ends with: the
    amounts are added one after the other, each addition rounded. *)
Definition jsSum (l : list Z) : Z := fold_left jsAdd l 0.

(** The amounts are few and small enough for every way of adding them to be
    exact: their absolute values add up to 2^53 at most. *)
Definition safeAmounts (l : list Z) : Prop := Zsum (map Z.abs l) <= 2 ^ 53.

(** The number is within the range of the finite doubles. *)
Definition finite (z : Z) : Prop := Z.abs z <= MAX_VALUE.

(** The totals that [t] goes through in [l.forEach(x => t += x)], from
    [t = acc]. *)
Fixpoint totals (acc : Z) (l : list Z) : list Z :=
  match l with
  | [] => []
  | x :: r => jsAdd acc x :: totals (jsAdd acc x) r
  end.

(** No total on the way is beyond the finite doubles, where JavaScript
    continues with [Infinity]. *)
Definition finiteTotals (l : list Z) : Prop := Forall finite (totals 0 l).

(** ** The API ([src/services/api.ts]) *)

(** [{ success: true }] *)
Record Success := mkSuccess { success : bool }.

(** [{ newLog, newWorker }], the result of [addDailyWorker] *)
Record DailyWorkerResult := mkDailyWorkerResult {
  newLog : SiteWorkerLog.t;
  newWorkerObj : option Worker.t
}.

Section Api.
Context {rt : JsRuntime}.

(** *** Utils *)

Definition generateUUID : Api string :=
  fun w => (Ok (randomUUID (uuidCount w)), set_uuidCount (S (uuidCount w)) w).

(** [now] is the time value of [new Date()] at the call. *)
Definition getTodayDateString (now : Z) : string := Date_toISODate now.

(** [(a, b) => new Date(b.Date).getTime() - new Date(a.Date).getTime()];
    the difference is [NaN] as soon as one of the dates is invalid. *)
Definition byDateDesc {A} (date : A -> string) (a b : A) : option Z :=
  match Date_parse (date b), Date_parse (date a) with
  | Some tb, Some ta => Some (jsSub tb ta)
  | _, _ => None
  end.

Definition siteHasId (siteId : string) (s : Site.t) : bool :=
  String.eqb (Site.SiteID s) siteId.

Definition isOnline (s : Site.t) : bool :=
  SiteStatus_eqb (Site.Status s) Online.

(** *** Sites *)

(** The caller receives the three master arrays themselves, not copies. *)
Definition getInitialData : Api (list Site.t * list Worker.t * list Material.t) :=
  gets (fun w => (sites w, workers w, materials w)).

Definition addNewSite (siteData : SiteData.t) : Api Site.t :=
  uuid <- generateUUID ;;
  let newSite :=
    Site.mk uuid (SiteData.SiteName siteData) (SiteData.Location siteData)
            (SiteData.OwnerName siteData) (SiteData.OwnerContact siteData)
            (SiteData.Budget siteData) (SiteData.TotalArea siteData)
            Online 0
            (SiteData.AgreementFileID siteData)
            (SiteData.SitePlanFileID siteData)
            (SiteData.DriveFolderID siteData) in
  modify (fun w => set_sites (push newSite (sites w)) w) ;;
  ret newSite.

Definition updateSiteStatus (siteId : string) (status : SiteStatus) : Api Success :=
  site <- gets (fun w => find (siteHasId siteId) (sites w)) ;;
  match site with
  | Some _ =>
      modify (fun w => set_sites
                (updateFirst (siteHasId siteId) (Site.set_Status status) (sites w)) w) ;;
      ret (mkSuccess true)
  | None => throw (mkError "Site not found")
  end.

(** *** Views *)

Definition getSiteDetails (siteId : string) : Api SiteDetailsData.t :=
  site <- gets (fun w => find (siteHasId siteId) (sites w)) ;;
  match site with
  | None => throw (mkError "Site not found")
  | Some site =>
      logs <- gets (fun w =>
        Array_sort (byDateDesc DailyLog.Date)
          (filter (fun l => String.eqb (DailyLog.SiteID l) siteId) (dailyLogs w))) ;;
      siteWorkers <- gets (fun w =>
        Array_sort (byDateDesc SiteWorkerLog.Date)
          (filter (fun l => String.eqb (SiteWorkerLog.SiteID l) siteId)
                  (siteWorkerLogs w))) ;;
      siteMaterials <- gets (fun w =>
        Array_sort (byDateDesc SiteMaterialLog.Date)
          (filter (fun l => String.eqb (SiteMaterialLog.SiteID l) siteId)
                  (siteMaterialLogs w))) ;;
      gallery <- gets (fun w =>
        Array_sort (byDateDesc GalleryImage.DateUploaded)
          (filter (fun g => String.eqb (GalleryImage.SiteID g) siteId)
                  (galleryImages w))) ;;
      let workerExpense := reduceSum SiteWorkerLog.SalaryPaid siteWorkers in
      let materialExpense := reduceSum SiteMaterialLog.TotalCost siteMaterials in
      ret (SiteDetailsData.mk site logs siteWorkers siteMaterials gallery
             (Expenses.mk (jsAdd workerExpense materialExpense)
                          workerExpense materialExpense))
  end.

(** The object built for one log by the [map] callback of
    [getTodayWorkers]. *)
Definition todayWorkerOf (w : World) (log : SiteWorkerLog.t) : TodayWorker.t :=
  let site := find (siteHasId (SiteWorkerLog.SiteID log)) (sites w) in
  let worker :=
    find (fun wk => String.eqb (Worker.WorkerID wk) (SiteWorkerLog.WorkerID log))
         (workers w) in
  TodayWorker.mk
    (SiteWorkerLog.LogID log) (SiteWorkerLog.SiteID log)
    (SiteWorkerLog.Date log) (SiteWorkerLog.WorkerID log)
    (SiteWorkerLog.WorkerName log) (SiteWorkerLog.SalaryPaid log)
    (SiteWorkerLog.PaidStatus log)
    (orDefault (option_map Site.SiteName site) "Unknown Site")
    (orZero (option_map Worker.DefaultDailyWage worker)).

Definition getTodayWorkers (now : Z) : Api (list TodayWorker.t) :=
  let today := getTodayDateString now in
  onlineSiteIds <- gets (fun w => map Site.SiteID (filter isOnline (sites w))) ;;
  gets (fun w =>
    map (todayWorkerOf w)
        (filter (fun log => String.eqb (SiteWorkerLog.Date log) today
                            && includes (SiteWorkerLog.SiteID log) onlineSiteIds)
                (siteWorkerLogs w))).

(** The object built for one log by the [map] callback of
    [getOverallMaterialsLog]. *)
Definition overallMaterialLogOf (w : World) (log : SiteMaterialLog.t)
  : OverallMaterialLog.t :=
  let site := find (siteHasId (SiteMaterialLog.SiteID log)) (sites w) in
  OverallMaterialLog.mk
    (SiteMaterialLog.LogID log) (SiteMaterialLog.SiteID log)
    (SiteMaterialLog.Date log) (SiteMaterialLog.MaterialID log)
    (SiteMaterialLog.MaterialName log) (SiteMaterialLog.Unit log)
    (SiteMaterialLog.QuantityUsed log) (SiteMaterialLog.DefaultValue log)
    (SiteMaterialLog.TotalCost log)
    (orDefault (option_map Site.SiteName site) "Unknown Site").

Definition getOverallMaterialsLog : Api (list OverallMaterialLog.t) :=
  gets (fun w =>
    map (overallMaterialLogOf w)
        (Array_sort (byDateDesc SiteMaterialLog.Date) (siteMaterialLogs w))).

(** *** Master lists and logs *)

Definition addNewWorker (workerData : WorkerData.t) : Api Worker.t :=
  uuid <- generateUUID ;;
  let newWorker :=
    Worker.mk uuid (WorkerData.WorkerName workerData)
              (WorkerData.Contact workerData)
              (WorkerData.DefaultDailyWage workerData) in
  modify (fun w => set_workers (push newWorker (workers w)) w) ;;
  ret newWorker.

Definition addNewMaterial (materialData : MaterialData.t) : Api Material.t :=
  uuid <- generateUUID ;;
  let newMaterial :=
    Material.mk uuid (MaterialData.MaterialName materialData)
                (MaterialData.Unit materialData)
                (MaterialData.DefaultValue materialData) in
  modify (fun w => set_materials (push newMaterial (materials w)) w) ;;
  ret newMaterial.

Definition addDailyLog (logData : DailyLogData.t) : Api DailyLog.t :=
  uuid <- generateUUID ;;
  let newLog :=
    DailyLog.mk uuid (DailyLogData.SiteID logData) (DailyLogData.Date logData)
                (DailyLogData.LogEntry logData) in
  modify (fun w => set_dailyLogs (push newLog (dailyLogs w)) w) ;;
  ret newLog.

(** [!workerId] on [string | null]: [null] and the empty string are falsy. *)
Definition falsyId (workerId : option string) : bool :=
  match workerId with
  | Some v => String.eqb v ""
  | None => true
  end.

Definition addDailyWorker (logData : DailyWorkerData.t) : Api DailyWorkerResult :=
  let workerId := DailyWorkerData.WorkerID logData in
  registered <-
    match DailyWorkerData.newWorker logData with
    | Some payload =>
        newWorkerObj <- addNewWorker payload ;;
        ret (Some (Worker.WorkerID newWorkerObj), Some newWorkerObj)
    | None => ret (workerId, None)
    end ;;
  let '(workerId, newWorkerObj) := registered in
  if falsyId workerId then throw (mkError "Worker ID is missing")
  else
    uuid <- generateUUID ;;
    let workerLog :=
      SiteWorkerLog.mk uuid (DailyWorkerData.SiteID logData)
                       (DailyWorkerData.Date logData)
                       (match workerId with Some v => v | None => "" end)
                       (DailyWorkerData.WorkerName logData)
                       0 false in
    modify (fun w => set_siteWorkerLogs (push workerLog (siteWorkerLogs w)) w) ;;
    ret (mkDailyWorkerResult workerLog newWorkerObj).

Definition addDailyMaterial (logData : DailyMaterialData.t) : Api SiteMaterialLog.t :=
  let totalCost :=
    jsMul (DailyMaterialData.QuantityUsed logData)
          (DailyMaterialData.DefaultValue logData) in
  uuid <- generateUUID ;;
  let newLog :=
    SiteMaterialLog.mk uuid (DailyMaterialData.SiteID logData)
                       (DailyMaterialData.Date logData)
                       (DailyMaterialData.MaterialID logData)
                       (DailyMaterialData.MaterialName logData)
                       (DailyMaterialData.Unit logData)
                       (DailyMaterialData.QuantityUsed logData)
                       (DailyMaterialData.DefaultValue logData)
                       totalCost in
  modify (fun w => set_siteMaterialLogs (push newLog (siteMaterialLogs w)) w) ;;
  ret newLog.

Definition workerLogHasId (logId : string) (l : SiteWorkerLog.t) : bool :=
  String.eqb (SiteWorkerLog.LogID l) logId.

Definition updateWorkerSalary (update : SalaryUpdate.t) : Api Success :=
  let logId := SalaryUpdate.logId update in
  log <- gets (fun w => find (workerLogHasId logId) (siteWorkerLogs w)) ;;
  match log with
  | Some _ =>
      modify (fun w => set_siteWorkerLogs
                (updateFirst (workerLogHasId logId)
                             (SiteWorkerLog.set_payment
                                (SalaryUpdate.amount update)
                                (SalaryUpdate.status update))
                             (siteWorkerLogs w)) w) ;;
      ret (mkSuccess true)
  | None => throw (mkError "Worker log not found")
  end.

(** *** Files *)

(** [now] is the time of the call; the body does not read [fileData]. *)
Definition uploadFile (now : Z) (fileData : FileData.t)
           (siteId fileType description : string) : Api Success :=
  site <- gets (fun w => find (siteHasId siteId) (sites w)) ;;
  match site with
  | None => throw (mkError "Site not found")
  | Some _ =>
      uuid <- generateUUID ;;
      let fileId := ("file-" ++ uuid)%string in
      let imageUrl := ("https://picsum.photos/seed/" ++ fileId ++ "/400/400")%string in
      (if String.eqb fileType "agreement" then
         modify (fun w => set_sites
                   (updateFirst (siteHasId siteId)
                                (Site.set_AgreementFileID fileId) (sites w)) w)
       else if String.eqb fileType "plan" then
         modify (fun w => set_sites
                   (updateFirst (siteHasId siteId)
                                (Site.set_SitePlanFileID fileId) (sites w)) w)
       else if String.eqb fileType "gallery" then
         imageId <- generateUUID ;;
         modify (fun w => set_galleryImages
                   (push (GalleryImage.mk imageId siteId (getTodayDateString now)
                                          fileId imageUrl description)
                         (galleryImages w)) w)
       else ret tt) ;;
      ret (mkSuccess true)
  end.

(** *** Dashboard *)

(** [logDate.getMonth() === currentMonth &&
     logDate.getFullYear() === currentYear] for [logDate = new Date(date)];
    the getters of an invalid date give [NaN], which equals nothing. *)
Definition inCurrentMonth (now : Z) (date : string) : bool :=
  match Date_parse date with
  | Some t => (Date_getMonth t =? Date_getMonth now)
              && (Date_getFullYear t =? Date_getFullYear now)
  | None => false
  end.

(** One round of the two [forEach] loops: [acc] is
    [(todayExpense, monthExpense)]. *)
Definition addExpense (now : Z) (date : string) (amount : Z) (acc : Z * Z) : Z * Z :=
  let todayStr := getTodayDateString now in
  let expense := orZero (Some amount) in
  let acc1 := if String.eqb date todayStr then (jsAdd (fst acc) expense, snd acc)
              else acc in
  if inCurrentMonth now date then (fst acc1, jsAdd (snd acc1) expense) else acc1.

(** [now] is the time of the call: the value of [new Date()] for [today]
    and inside [getTodayDateString()]. *)
Definition getProfileDashboardData (now : Z) : Api DashboardData.t :=
  let todayStr := getTodayDateString now in
  onlineSites <- gets (fun w => Z.of_nat (List.length (filter isOnline (sites w)))) ;;
  offlineSites <- gets (fun w => Z.of_nat (List.length (sites w)) - onlineSites) ;;
  todayWorkers <- gets (fun w => Z.of_nat (List.length
      (filter (fun l => String.eqb (SiteWorkerLog.Date l) todayStr)
              (siteWorkerLogs w)))) ;;
  todayMaterials <- gets (fun w => Z.of_nat (List.length
      (filter (fun l => String.eqb (SiteMaterialLog.Date l) todayStr)
              (siteMaterialLogs w)))) ;;
  acc <- gets (fun w =>
    fold_left (fun acc log =>
                 addExpense now (SiteWorkerLog.Date log)
                            (SiteWorkerLog.SalaryPaid log) acc)
              (siteWorkerLogs w) (0, 0)) ;;
  acc <- gets (fun w =>
    fold_left (fun acc log =>
                 addExpense now (SiteMaterialLog.Date log)
                            (SiteMaterialLog.TotalCost log) acc)
              (siteMaterialLogs w) acc) ;;
  ret (DashboardData.mk onlineSites offlineSites todayWorkers todayMaterials
                        (fst acc) (snd acc)).

(** ** Histories of calls *)

(** One call of a function that may write the store, with its arguments
    (and, for [uploadFile], the time of the call). *)
Inductive Call :=
| CallAddNewSite (siteData : SiteData.t)
| CallUpdateSiteStatus (siteId : string) (status : SiteStatus)
| CallAddNewWorker (workerData : WorkerData.t)
| CallAddNewMaterial (materialData : MaterialData.t)
| CallAddDailyLog (logData : DailyLogData.t)
| CallAddDailyWorker (logData : DailyWorkerData.t)
| CallAddDailyMaterial (logData : DailyMaterialData.t)
| CallUpdateWorkerSalary (update : SalaryUpdate.t)
| CallUploadFile (now : Z) (fileData : FileData.t)
                 (siteId fileType description : string).

(** The world after a call, whether it returned or threw. *)
Definition exec (c : Call) (w : World) : World :=
  match c with
  | CallAddNewSite d => snd (addNewSite d w)
  | CallUpdateSiteStatus i s => snd (updateSiteStatus i s w)
  | CallAddNewWorker d => snd (addNewWorker d w)
  | CallAddNewMaterial d => snd (addNewMaterial d w)
  | CallAddDailyLog d => snd (addDailyLog d w)
  | CallAddDailyWorker d => snd (addDailyWorker d w)
  | CallAddDailyMaterial d => snd (addDailyMaterial d w)
  | CallUpdateWorkerSalary u => snd (updateWorkerSalary u w)
  | CallUploadFile now f i t d => snd (uploadFile now f i t d w)
  end.

(** The world after a history of calls, oldest first. *)
Definition run (cs : list Call) (w : World) : World :=
  fold_left (fun w c => exec c w) cs w.

(** What can happen to the world between two observations: a call of the
    API, or an edit of the materials master list by the caller, who holds
    the array itself since [getInitialData] (changing a [DefaultValue] is
    such an edit; the API has no function for it). *)
Inductive Event :=
| Invoke (c : Call)
| EditMaterials (edit : list Material.t -> list Material.t).

Definition occur (e : Event) (w : World) : World :=
  match e with
  | Invoke c => exec c w
  | EditMaterials edit => set_materials (edit (materials w)) w
  end.

(** The world after a sequence of events, oldest first. *)
Definition after (es : list Event) (w : World) : World :=
  fold_left (fun w e => occur e w) es w.

(** A worker log is active at date [today]: it is dated [today] and a site
    with its [SiteID] is Online. *)
Definition activeToday (w : World) (today : string) (l : SiteWorkerLog.t) : bool :=
  String.eqb (SiteWorkerLog.Date l) today
  && existsb (fun s => String.eqb (Site.SiteID s) (SiteWorkerLog.SiteID l)
                       && SiteStatus_eqb (Site.Status s) Online)
             (sites w).

(** No UUID that is still to be drawn is the ID of a stored daily log. *)
Definition freshAhead (w : World) : Prop :=
  forall n, (uuidCount w <= n)%nat ->
            ~ In (randomUUID n) (map DailyLog.LogID (dailyLogs w)).

(** *** Vocabulary for the behaviour of the calls *)

Definition isThrow {A} (r : Result A) : bool :=
  match r with
  | Ok _ => false
  | Throw _ => true
  end.

(** The call threw. *)
Definition throws (c : Call) (w : World) : bool :=
  match c with
  | CallAddNewSite d => isThrow (fst (addNewSite d w))
  | CallUpdateSiteStatus i s => isThrow (fst (updateSiteStatus i s w))
  | CallAddNewWorker d => isThrow (fst (addNewWorker d w))
  | CallAddNewMaterial d => isThrow (fst (addNewMaterial d w))
  | CallAddDailyLog d => isThrow (fst (addDailyLog d w))
  | CallAddDailyWorker d => isThrow (fst (addDailyWorker d w))
  | CallAddDailyMaterial d => isThrow (fst (addDailyMaterial d w))
  | CallUpdateWorkerSalary u => isThrow (fst (updateWorkerSalary u w))
  | CallUploadFile now f i t d => isThrow (fst (uploadFile now f i t d w))
  end.

(** The time value of a date that [new Date] can read, 0 for another
    string. *)
Definition timeOf (dateString : string) : Z :=
  match Date_parse dateString with
  | Some t => t
  | None => 0
  end.

(** The rank by which [byDateDesc] orders entries whose dates can be read:
    the newer the date, the lower the rank. *)
Definition dateRank {A} (date : A -> string) (x : A) : Z := - timeOf (date x).

(** The date can be read and lies in the month and the year of [now]. *)
Definition sameMonthYear (now : Z) (dateString : string) : Prop :=
  exists t, Date_parse dateString = Some t /\
            Date_getMonth t = Date_getMonth now /\
            Date_getFullYear t = Date_getFullYear now.

(** Every date of the list is one that [new Date] can read. *)
Definition allDated {A} (date : A -> string) (l : list A) : Prop :=
  forall x, In x l -> Date_parse (date x) <> None.

(** [a] is dated no earlier than [b]. *)
Definition notOlder {A} (date : A -> string) (a b : A) : Prop :=
  exists ta tb,
    Date_parse (date a) = Some ta /\ Date_parse (date b) = Some tb /\ tb <= ta.

(** Each entry of the list is dated no earlier than those that follow it. *)
Definition newestFirst {A} (date : A -> string) (l : list A) : Prop :=
  StronglySorted (notOlder date) l.

(** The entries of the list that have the time value [t]. *)
Definition datedAt {A} (date : A -> string) (t : Z) (l : list A) : list A :=
  filter (fun x => match Date_parse (date x) with
                   | Some tx => tx =? t
                   | None => false
                   end) l.

(** The IDs of the seven collections. *)
Definition idLists (w : World) : list (list string) :=
  [ map Site.SiteID (sites w);
    map Worker.WorkerID (workers w);
    map Material.MaterialID (materials w);
    map DailyLog.LogID (dailyLogs w);
    map SiteWorkerLog.LogID (siteWorkerLogs w);
    map SiteMaterialLog.LogID (siteMaterialLogs w);
    map GalleryImage.ImageID (galleryImages w) ].

(** Within each collection no ID occurs twice, and no ID is one of the UUIDs
    that are still to be drawn before the [bound]-th. *)
Definition UniqueIds (bound : nat) (w : World) : Prop :=
  Forall (fun ids => NoDup ids /\
                     forall n, (uuidCount w <= n < bound)%nat ->
                               ~ In (randomUUID n) ids)
         (idLists w).

End Api.

(** The fields of a site that no function assigns after the site is
    created. *)
Definition siteCore (s : Site.t) :=
  (Site.SiteID s, Site.SiteName s, Site.Location s, Site.OwnerName s,
   Site.OwnerContact s, Site.Budget s, Site.TotalArea s, Site.AmountReceived s,
   Site.DriveFolderID s).

(** The fields of a worker log that no function assigns after the log is
    created. *)
Definition workerLogCore (l : SiteWorkerLog.t) :=
  (SiteWorkerLog.LogID l, SiteWorkerLog.SiteID l, SiteWorkerLog.Date l,
   SiteWorkerLog.WorkerID l, SiteWorkerLog.WorkerName l).

(** [l'] is [l] followed by further elements. *)
Definition extends {A} (l l' : list A) : Prop := exists rest, l' = l ++ rest.

(** From [w] to [w'] every collection has kept its records, in place and in
    order, up to the fields of sites and worker logs that can be assigned. *)
Definition grows (w w' : World) : Prop :=
  extends (map siteCore (sites w)) (map siteCore (sites w')) /\
  extends (workers w) (workers w') /\
  extends (materials w) (materials w') /\
  extends (dailyLogs w) (dailyLogs w') /\
  extends (map workerLogCore (siteWorkerLogs w))
          (map workerLogCore (siteWorkerLogs w')) /\
  extends (siteMaterialLogs w) (siteMaterialLogs w') /\
  extends (galleryImages w) (galleryImages w').

(** ** A caller: the status switch of the home page

    [handleToggleStatus] of the [HomePage] component, as far as the store
    and the toast go: the loading flag and the reload that follows (which
    only reads) are render state. *)

(** The arguments of the last [showToast]. *)
Module Toast.
Record t := mk {
  message : string;
  type : string
}.
End Toast.

(** [try { await m } catch { handler }], for a handler that does not read
    the error. *)
Definition tryCatch {A} (m : Api A) (handler : Api A) : Api A :=
  fun w => match m w with
           | (Ok a, w') => (Ok a, w')
           | (Throw _, w') => handler w'
           end.

(** The string that a status is in the source. *)
Definition statusName (s : SiteStatus) : string :=
  match s with
  | Online => "Online"
  | Offline => "Offline"
  end.

Definition handleToggleStatus (siteId : string) (currentStatus : SiteStatus)
  : Api Toast.t :=
  let newStatus := match currentStatus with
                   | Online => Offline
                   | Offline => Online
                   end in
  tryCatch
    (updateSiteStatus siteId newStatus ;;
     ret (Toast.mk ("Site set to " ++ statusName newStatus)%string "success"))
    (ret (Toast.mk "Failed to update status" "error")).

(** ** The initial mock database *)

(** The arrays as the module initialises them; [loadTime] is the time at
    which the module is loaded, when [getTodayDateString()] dates the three
    seeded logs. *)
Definition initialWorld {rt : JsRuntime} (loadTime : Z) : World :=
  let today := getTodayDateString loadTime in
  mkWorld
    [ Site.mk "s-1" "Greenwood Villa" "Koramangala, Bangalore" "Mr. Sharma"
              "9876543210" 5000000 "2400 sqft" Online 2000000 None None None;
      Site.mk "s-2" "Prestige Apartments" "Whitefield, Bangalore" "Ms. Gupta"
              "8765432109" 12000000 "10000 sqft" Online 5000000 None None None;
      Site.mk "s-3" "Commercial Complex" "Indiranagar, Bangalore" "BuildCorp Inc."
              "7654321098" 25000000 "15000 sqft" Offline 10000000 None None None ]
    [ Worker.mk "w-1" "Ramesh Kumar" None 800;
      Worker.mk "w-2" "Suresh Singh" (Some "9988776655") 950;
      Worker.mk "w-3" "Vijay Prasad" None 750 ]
    [ Material.mk "m-1" "Cement" "bag" 450;
      Material.mk "m-2" "Steel Rod (12mm)" "kg" 85;
      Material.mk "m-3" "Bricks" "nos" 12 ]
    [ DailyLog.mk "dl-1" "s-1" "2023-10-26"
                  "Foundation work started. Excavation complete." ]
    [ SiteWorkerLog.mk "swl-1" "s-1" today "w-1" "Ramesh Kumar" 800 true;
      SiteWorkerLog.mk "swl-2" "s-2" today "w-2" "Suresh Singh" 0 false ]
    [ SiteMaterialLog.mk "sml-1" "s-1" today "m-1" "Cement" "bag" 50 450 22500 ]
    []
    0%nat.

(** ** A concrete runtime

    One runtime to evaluate the API on: dates are the ISO calendar dates
    [YYYY-MM-DD] at midnight UTC, the local time zone is UTC, the [n]-th
    UUID carries [n] in its last group, and arrays are sorted by stable
    insertion.  It also shows that what [JsRuntime] asks of a sort can be
    met. *)
Module IsoRuntime.

Definition digitOf (c : ascii) : option Z :=
  let n := Z.of_nat (nat_of_ascii c) in
  if (48 <=? n) && (n <=? 57) then Some (n - 48) else None.

Fixpoint numberOf (acc : Z) (s : string) : option Z :=
  match s with
  | EmptyString => Some acc
  | String c r =>
      match digitOf c with
      | Some d => numberOf (10 * acc + d) r
      | None => None
      end
  end.

Definition msPerDay : Z := 86400000.

Definition isLeap (y : Z) : bool :=
  ((y mod 4 =? 0) && negb (y mod 100 =? 0)) || (y mod 400 =? 0).

Definition daysInMonth (y m : Z) : Z :=
  if m =? 2 then (if isLeap y then 29 else 28)
  else if (m =? 4) || (m =? 6) || (m =? 9) || (m =? 11) then 30
  else 31.

(** Days from 1970-01-01 to the civil date [y]-[m]-[d]. *)
Definition daysFromCivil (y m d : Z) : Z :=
  let y := if m <=? 2 then y - 1 else y in
  let era := y / 400 in
  let yoe := y - era * 400 in
  let doy := (153 * (if 2 <? m then m - 3 else m + 9) + 2) / 5 + d - 1 in
  let doe := yoe * 365 + yoe / 4 - yoe / 100 + doy in
  era * 146097 + doe - 719468.

(** The civil date [(y, m, d)] that lies [z] days after 1970-01-01. *)
Definition civilFromDays (z : Z) : Z * Z * Z :=
  let z := z + 719468 in
  let era := z / 146097 in
  let doe := z - era * 146097 in
  let yoe := (doe - doe / 1460 + doe / 36524 - doe / 146096) / 365 in
  let doy := doe - (365 * yoe + yoe / 4 - yoe / 100) in
  let mp := (5 * doy + 2) / 153 in
  let d := doy - (153 * mp + 2) / 5 + 1 in
  let m := if mp <? 10 then mp + 3 else mp - 9 in
  let y := yoe + era * 400 in
  ((if m <=? 2 then y + 1 else y), m, d).

Definition parse (s : string) : option Z :=
  if (String.length s =? 10)%nat
     && String.eqb (substring 4 1 s) "-"
     && String.eqb (substring 7 1 s) "-"
  then
    match numberOf 0 (substring 0 4 s),
          numberOf 0 (substring 5 2 s),
          numberOf 0 (substring 8 2 s) with
    | Some y, Some m, Some d =>
        if (1 <=? m) && (m <=? 12) && (1 <=? d) && (d <=? daysInMonth y m)
        then Some (msPerDay * daysFromCivil y m d)
        else None
    | _, _, _ => None
    end
  else None.

Definition digit (n : Z) : string :=
  String (ascii_of_nat (48 + Z.to_nat (n mod 10))) EmptyString.

Definition pad2 (n : Z) : string := (digit (n / 10) ++ digit n)%string.
Definition pad4 (n : Z) : string := (pad2 (n / 100) ++ pad2 n)%string.

Definition toISODate (t : Z) : string :=
  let '(y, m, d) := civilFromDays (t / msPerDay) in
  (pad4 y ++ "-" ++ pad2 m ++ "-" ++ pad2 d)%string.

Definition getMonth (t : Z) : Z :=
  let '(_, m, _) := civilFromDays (t / msPerDay) in m - 1.

Definition getFullYear (t : Z) : Z :=
  let '(y, _, _) := civilFromDays (t / msPerDay) in y.

Definition uuid (n : nat) : string :=
  let z := Z.of_nat n in
  ("00000000-0000-4000-8000-"
   ++ pad4 (z / 100000000) ++ pad4 (z / 10000) ++ pad4 z)%string.

(** [Array.prototype.sort(cmp)] as a stable insertion sort; a comparator
    result of [NaN] ([None]) counts as [+0], as ECMAScript has it.
    [insertSorted] walks past the elements that [x] must follow. *)
Definition cmpPositive (v : option Z) : bool :=
  match v with
  | Some z => 0 <? z
  | None => false
  end.

Fixpoint insertSorted {A} (cmp : A -> A -> option Z) (x : A) (l : list A) : list A :=
  match l with
  | [] => [x]
  | y :: r => if cmpPositive (cmp x y) then y :: insertSorted cmp x r
              else x :: y :: r
  end.

Definition sort {A} (cmp : A -> A -> option Z) (l : list A) : list A :=
  fold_right (insertSorted cmp) [] l.

(** The runtime; [sort] is shown to do what is promised of [Array_sort]. *)
Definition runtime : JsRuntime.
Proof.
  assert (Hins : forall A (cmp : A -> A -> option Z) x (l : list A),
             Permutation (insertSorted cmp x l) (x :: l)).
  { intros A cmp x l. induction l as [|y r IH]; simpl; [apply Permutation_refl|].
    destruct (cmpPositive (cmp x y)); [|apply Permutation_refl].
    apply Permutation_trans with (y :: x :: r);
      [now apply perm_skip | apply perm_swap]. }
  assert (Hperm : forall A (cmp : A -> A -> option Z) (l : list A),
             Permutation (sort cmp l) l).
  { intros A cmp l. induction l as [|x r IH]; simpl; [apply perm_nil|].
    apply Permutation_trans with (x :: sort cmp r);
      [apply Hins | now apply perm_skip]. }
  refine (@Build_JsRuntime uuid parse toISODate getMonth getFullYear
                           (fun A => @sort A) Hperm _).
  unfold ranked, ascending, ofRank.
  intros A rank cmp l. induction l as [|x r IH]; intros Hc; simpl.
  { split; [constructor | reflexivity]. }
  destruct IH as [IHs IHk].
  { intros a b Ha Hb. apply Hc; now right. }
  assert (Hx : forall b, In b (sort cmp r) ->
               exists v, cmp x b = Some v /\ Z.sgn v = Z.sgn (rank x - rank b)).
  { intros b Hb. apply Hc; [now left|right].
    exact (Permutation_in b (Hperm A cmp r) Hb). }
  enough (H : StronglySorted (fun a b => rank a <= rank b)
                             (insertSorted cmp x (sort cmp r)) /\
              forall k, filter (fun y => rank y =? k) (insertSorted cmp x (sort cmp r))
                        = filter (fun y => rank y =? k) (x :: sort cmp r)).
  { destruct H as [H1 H2]. split; [exact H1|].
    intros k. rewrite H2. simpl. now rewrite IHk. }
  clear IHk Hc. induction (sort cmp r) as [|y s IHi]; simpl.
  { split; [repeat constructor | reflexivity]. }
  inversion IHs as [|? ? Hs Hy]; subst.
  destruct (Hx y (or_introl eq_refl)) as (v & -> & Hv). simpl.
  destruct (Z.ltb_spec 0 v) as [Hpos|Hle].
  - (* [x] follows [y] *)
    destruct IHi as [I1 I2]; [exact Hs | intros b Hb; apply Hx; now right |].
    assert (Hxy : rank y < rank x).
    { rewrite (Z.sgn_pos v Hpos) in Hv. symmetry in Hv.
      apply Z.sgn_pos_iff in Hv. lia. }
    split.
    + constructor; [exact I1|].
      apply Forall_forall. intros b Hb.
      assert (Hb' : In b (x :: s)) by exact (Permutation_in b (Hins A cmp x s) Hb).
      destruct Hb' as [<-|Hb']; [lia|].
      rewrite Forall_forall in Hy. now apply Hy.
    + intros k. simpl. rewrite I2. simpl.
      destruct (rank y =? k) eqn:E1, (rank x =? k) eqn:E2; try reflexivity.
      apply Z.eqb_eq in E1, E2. lia.
  - (* [x] stays in front *)
    assert (Hxy : rank x <= rank y).
    { destruct (Z.eq_dec v 0) as [->|Hn].
      - simpl in Hv. symmetry in Hv. apply Z.sgn_null_iff in Hv. lia.
      - assert (Hneg : v < 0) by lia.
        rewrite (Z.sgn_neg v Hneg) in Hv. symmetry in Hv.
        apply Z.sgn_neg_iff in Hv. lia. }
    split; [|reflexivity].
    constructor; [exact IHs|].
    constructor; [exact Hxy|].
    rewrite Forall_forall in Hy |- *. intros b Hb. specialize (Hy b Hb). lia.
Defined.

End IsoRuntime.

(** ** A second runtime

    What ECMAScript leaves to the engine shows on a runtime that differs
    from the first in its sort alone.  While the comparator returns a
    number on every pair of elements it sorts as the first runtime does;
    otherwise it leaves an array of even length as it is and reverses one
    of odd length. *)
Module OddRuntime.

Definition comparable {A} (cmp : A -> A -> option Z) (l : list A) : bool :=
  forallb (fun a => forallb (fun b => match cmp a b with
                                      | Some _ => true
                                      | None => false
                                      end) l) l.

Definition sort {A} (cmp : A -> A -> option Z) (l : list A) : list A :=
  if comparable cmp l then IsoRuntime.sort cmp l
  else if Nat.even (List.length l) then l
  else rev l.

Definition runtime : JsRuntime.
Proof.
  refine (@Build_JsRuntime IsoRuntime.uuid IsoRuntime.parse IsoRuntime.toISODate
                           IsoRuntime.getMonth IsoRuntime.getFullYear
                           (fun A => @sort A) _ _).
  - intros A cmp l. unfold sort. destruct (comparable cmp l).
    + exact (Array_sort_perm (JsRuntime := IsoRuntime.runtime) cmp l).
    + destruct (Nat.even (List.length l));
        [apply Permutation_refl | apply Permutation_sym, Permutation_rev].
  - intros A rank cmp l Hr. unfold sort.
    assert (Hc : comparable cmp l = true).
    { unfold comparable. apply forallb_forall. intros a Ha.
      apply forallb_forall. intros b Hb.
      now destruct (Hr a b Ha Hb) as (v & -> & _). }
    rewrite Hc. exact (Array_sort_ranked (JsRuntime := IsoRuntime.runtime) Hr).
Defined.

End OddRuntime.

(** ** Sample worlds *)

Module Sample.

Definition rt : JsRuntime := IsoRuntime.runtime.

(** 2023-10-26T00:00:00Z *)
Definition loadTime : Z := 1698278400000.

(** The mock database as loaded on 2023-10-26: sites s-1 and s-2 are
    Online, s-3 is Offline. *)
Definition world0 : World := initialWorld (rt := rt) loadTime.

Definition site1 : Site.t :=
  Site.mk "s-1" "Greenwood Villa" "Koramangala, Bangalore" "Mr. Sharma"
          "9876543210" 5000000 "2400 sqft" Online 2000000 None None None.

Definition site3 : Site.t :=
  Site.mk "s-3" "Commercial Complex" "Indiranagar, Bangalore" "BuildCorp Inc."
          "7654321098" 25000000 "15000 sqft" Offline 10000000 None None None.

(** Worker w-3 is logged on the Offline site s-3 on the same day. *)
Definition offlineEntry : DailyWorkerData.t :=
  DailyWorkerData.mk "s-3" "2023-10-26" (Some "w-3") "Vijay Prasad" None.

Definition worldOffline : World :=
  snd (addDailyWorker (rt := rt) offlineEntry world0).

Definition offlineLog : SiteWorkerLog.t :=
  SiteWorkerLog.mk (IsoRuntime.uuid 0) "s-3" "2023-10-26" "w-3" "Vijay Prasad"
                   0 false.

(** The master list after w-1 was renamed and given a wage of 900. *)
Definition worker1' : Worker.t := Worker.mk "w-1" "R. Kumar" None 900.

Definition master' : list Worker.t :=
  [ worker1';
    Worker.mk "w-2" "Suresh Singh" (Some "9988776655") 950;
    Worker.mk "w-3" "Vijay Prasad" None 750 ].

(** A worker entry with neither an ID nor a payload, and one with a
    payload. *)
Definition entryNoWorker : DailyWorkerData.t :=
  DailyWorkerData.mk "s-1" "2023-10-27" None "Nobody" None.

Definition entryNewWorker : DailyWorkerData.t :=
  DailyWorkerData.mk "s-1" "2023-10-27" None "Anil Rao"
                     (Some (WorkerData.mk "Anil Rao" None 700)).

(** A daily log and a material entry for a site that does not exist. *)
Definition logNoSite : DailyLogData.t :=
  DailyLogData.mk "s-404" "2023-10-27" "Nothing to report.".

Definition materialNoSite : DailyMaterialData.t :=
  DailyMaterialData.mk "s-404" "2023-10-27" "m-3" "Bricks" "nos" 10 100.

Definition materialLogNoSite : SiteMaterialLog.t :=
  SiteMaterialLog.mk (IsoRuntime.uuid 0) "s-404" "2023-10-27" "m-3" "Bricks"
                     "nos" 10 100 1000.

Definition worldNoSite : World :=
  snd (addDailyMaterial (rt := rt) materialNoSite world0).

(** The scenario of the specification: a site A, ten units at 100 on it,
    one worker log on it, paid 500. *)
Definition scenario : list Call :=
  [ CallAddNewSite (SiteData.mk "Site A" "" "" "" 5000000 "" None None None);
    CallAddDailyMaterial
      (DailyMaterialData.mk (IsoRuntime.uuid 0) "2023-10-27" "m-3" "Bricks"
                            "nos" 10 100);
    CallAddDailyWorker
      (DailyWorkerData.mk (IsoRuntime.uuid 0) "2023-10-27" (Some "w-1")
                          "Ramesh Kumar" None);
    CallUpdateWorkerSalary (SalaryUpdate.mk (IsoRuntime.uuid 2) 500 true) ].

End Sample.

(** ** Further sample data *)

Module Cases.

Definition site2 : Site.t :=
  Site.mk "s-2" "Prestige Apartments" "Whitefield, Bangalore" "Ms. Gupta"
          "8765432109" 12000000 "10000 sqft" Online 5000000 None None None.

Definition log1 : SiteWorkerLog.t :=
  SiteWorkerLog.mk "swl-1" "s-1" "2023-10-26" "w-1" "Ramesh Kumar" 800 true.

Definition log2 : SiteWorkerLog.t :=
  SiteWorkerLog.mk "swl-2" "s-2" "2023-10-26" "w-2" "Suresh Singh" 0 false.

(** Suresh Singh is paid 950 for his day; a payment for a log that does not
    exist. *)
Definition payLog2 : SalaryUpdate.t := SalaryUpdate.mk "swl-2" 950 true.
Definition payNothing : SalaryUpdate.t := SalaryUpdate.mk "swl-9" 100 true.

(** Ten units at 100 on site s-1. *)
Definition bricks : DailyMaterialData.t :=
  DailyMaterialData.mk "s-1" "2023-10-27" "m-3" "Bricks" "nos" 10 100.

(** Entries dated on the day the database is loaded, on the Online site
    s-1: one that registers a new worker, one for a worker ID that the
    master list does not have. *)
Definition newWorkerToday : DailyWorkerData.t :=
  DailyWorkerData.mk "s-1" "2023-10-26" None "Anil Rao"
                     (Some (WorkerData.mk "Anil Rao" None 700)).

Definition ghostToday : DailyWorkerData.t :=
  DailyWorkerData.mk "s-1" "2023-10-26" (Some "w-404") "Ghost" None.

Definition worldGhost : World :=
  snd (addDailyWorker (rt := Sample.rt) ghostToday Sample.world0).

(** Three more daily logs on site s-1, entered out of date order. *)
Definition moreLogs : list Call :=
  [ CallAddDailyLog (DailyLogData.mk "s-1" "2023-11-02" "Walls up to lintel.");
    CallAddDailyLog (DailyLogData.mk "s-1" "2023-10-26" "Second entry of the day.");
    CallAddDailyLog (DailyLogData.mk "s-1" "2024-01-15" "Roof slab cast.") ].

Definition worldLogs : World := run (rt := Sample.rt) moreLogs Sample.world0.

Definition siteA : SiteData.t :=
  SiteData.mk "Site A" "Mysore" "Mr. Rao" "9000000000" 5000000 "1200 sqft"
              None None None.

(** An amount of 500 is entered on Suresh Singh's log, which stays
    unpaid. *)
Definition advance : SalaryUpdate.t := SalaryUpdate.mk "swl-2" 500 false.

Definition worldAdvance : World :=
  run (rt := Sample.rt) [CallUpdateWorkerSalary advance] Sample.world0.

(** Amounts at the edge of the whole numbers that doubles tell apart: 2^53
    is entered on the log of Ramesh Kumar, two more workers of the day on
    site s-1 get 1 each, and one brick at 1 is used there. *)
Definition helperToday : DailyWorkerData.t :=
  DailyWorkerData.mk "s-1" "2023-10-26" (Some "w-3") "Vijay Prasad" None.

Definition largeCalls : list Call :=
  [ CallUpdateWorkerSalary (SalaryUpdate.mk "swl-1" 9007199254740992 true);
    CallAddDailyWorker helperToday;
    CallUpdateWorkerSalary (SalaryUpdate.mk (IsoRuntime.uuid 0) 1 true);
    CallAddDailyWorker helperToday;
    CallUpdateWorkerSalary (SalaryUpdate.mk (IsoRuntime.uuid 1) 1 true);
    CallAddDailyMaterial
      (DailyMaterialData.mk "s-1" "2023-10-26" "m-3" "Bricks" "nos" 1 1) ].

Definition worldLarge : World := run (rt := Sample.rt) largeCalls Sample.world0.

(** A quantity and a unit value whose product has more than 53 bits. *)
Definition squareEntry : DailyMaterialData.t :=
  DailyMaterialData.mk "s-1" "2023-10-26" "m-2" "Steel Rod (12mm)" "kg"
                       94906267 94906267.

(** Entries around the month of the load: Suresh Singh is paid 950 on the
    day; bricks for 1000 on 5 October; cement for 1800 on 2 November; steel
    for 1700 on 26 October of the year before; cement for 900 under a date
    that cannot be read; Vijay Prasad on 2 October, paid 750. *)
Definition monthCalls : list Call :=
  [ CallUpdateWorkerSalary (SalaryUpdate.mk "swl-2" 950 true);
    CallAddDailyMaterial
      (DailyMaterialData.mk "s-1" "2023-10-05" "m-3" "Bricks" "nos" 10 100);
    CallAddDailyMaterial
      (DailyMaterialData.mk "s-2" "2023-11-02" "m-1" "Cement" "bag" 4 450);
    CallAddDailyMaterial
      (DailyMaterialData.mk "s-2" "2022-10-26" "m-2" "Steel Rod (12mm)" "kg" 20 85);
    CallAddDailyMaterial
      (DailyMaterialData.mk "s-1" "next week" "m-1" "Cement" "bag" 2 450);
    CallAddDailyWorker
      (DailyWorkerData.mk "s-1" "2023-10-02" (Some "w-3") "Vijay Prasad" None);
    CallUpdateWorkerSalary (SalaryUpdate.mk (IsoRuntime.uuid 4) 750 true) ].

Definition worldMonths : World := run (rt := Sample.rt) monthCalls Sample.world0.

(** The date string is one of October 2023, read off its first eight
    characters. *)
Definition october2023 (dateString : string) : bool :=
  String.eqb (substring 0 8 dateString) "2023-10-".

(** On the second runtime: 2^53 on the log of Ramesh Kumar, then two more
    workers on site s-1 with 1 each, the first of them under a date that
    cannot be read; and the entry of a fourth. *)
Definition undatedCalls : list Call :=
  [ CallUpdateWorkerSalary (SalaryUpdate.mk "swl-1" 9007199254740992 true);
    CallAddDailyWorker
      (DailyWorkerData.mk "s-1" "tomorrow" (Some "w-2") "Suresh Singh" None);
    CallUpdateWorkerSalary (SalaryUpdate.mk (IsoRuntime.uuid 0) 1 true);
    CallAddDailyWorker helperToday;
    CallUpdateWorkerSalary (SalaryUpdate.mk (IsoRuntime.uuid 1) 1 true) ].

Definition worldUndated : World :=
  run (rt := OddRuntime.runtime) undatedCalls
      (initialWorld (rt := OddRuntime.runtime) Sample.loadTime).

End Cases.

(** ** Proof automation *)

(** Unfolds a call down to the case distinctions that its body makes. *)
Ltac run_call :=
  unfold addNewSite, updateSiteStatus, addNewWorker, addNewMaterial, addDailyLog,
    addDailyWorker, addDailyMaterial, updateWorkerSalary, uploadFile,
    addNewWorker, generateUUID, bind, gets, modify, ret, throw;
  repeat match goal with
         | |- context [match find ?p ?l with _ => _ end] => destruct (find p l)
         | |- context [match DailyWorkerData.newWorker ?d with _ => _ end] =>
             destruct (DailyWorkerData.newWorker d)
         | |- context [falsyId ?x] => destruct (falsyId x)
         | |- context [if String.eqb ?a ?b then _ else _] =>
             destruct (String.eqb a b)
         end;
  cbn.

(** Settles that concrete amounts are within the safe range. *)
Ltac safe_range := unfold safeAmounts; vm_compute; discriminate.

(** ** Facts about the array helpers *)

Section ArrayFacts.
Context {A : Type}.

Lemma find_present (p : A -> bool) (l : list A) (x : A) :
  In x l -> p x = true -> exists y, find p l = Some y /\ In y l /\ p y = true.
Proof.
  intros Hin Hp. destruct (find p l) as [y|] eqn:E.
  - exists y. destruct (find_some _ _ E). auto.
  - rewrite (find_none _ _ E x Hin) in Hp. discriminate.
Qed.

Lemma find_absent (p : A -> bool) (l : list A) :
  (forall x, In x l -> p x = false) -> find p l = None.
Proof.
  induction l as [|x r IH]; simpl; intros H; [reflexivity|].
  rewrite (H x (or_introl eq_refl)). apply IH. intros y Hy. apply H. now right.
Qed.

Lemma updateFirst_split (p : A -> bool) (f : A -> A) (l : list A) (x : A) :
  find p l = Some x ->
  exists pre post,
    l = pre ++ x :: post /\
    (forall y, In y pre -> p y = false) /\
    updateFirst p f l = pre ++ f x :: post.
Proof.
  induction l as [|y r IH]; simpl; [discriminate|].
  destruct (p y) eqn:E; intros H.
  - injection H as <-. exists [], r. simpl. intuition.
  - destruct (IH H) as (pre & post & -> & Hpre & ->).
    exists (y :: pre), post. simpl. repeat split; auto.
    intros z [<-|Hz]; auto.
Qed.

Lemma find_app_skip (p : A -> bool) (pre post : list A) (x : A) :
  (forall y, In y pre -> p y = false) -> p x = true ->
  find p (pre ++ x :: post) = Some x.
Proof.
  induction pre as [|y r IH]; simpl; intros Hpre Hx.
  - now rewrite Hx.
  - rewrite (Hpre y (or_introl eq_refl)). apply IH; auto.
Qed.

Lemma NoDup_map_inj {B} (f : A -> B) (l : list A) (x y : A) :
  NoDup (map f l) -> In x l -> In y l -> f x = f y -> x = y.
Proof.
  induction l as [|z r IH]; simpl; [tauto|].
  intros Hnd Hx Hy E. inversion Hnd as [|? ? Hz Hr]; subst.
  destruct Hx as [<-|Hx], Hy as [<-|Hy]; auto.
  - exfalso. apply Hz. rewrite E. now apply in_map.
  - exfalso. apply Hz. rewrite <- E. now apply in_map.
Qed.

End ArrayFacts.

Lemma Zsum_perm (l l' : list Z) : Permutation l l' -> Zsum l = Zsum l'.
Proof.
  induction 1; simpl; lia.
Qed.

Lemma Zsum_app (l l' : list Z) : Zsum (l ++ l') = Zsum l + Zsum l'.
Proof. induction l as [|x r IH]; simpl; lia. Qed.

Lemma Zsum_abs_nonneg (l : list Z) : 0 <= Zsum (map Z.abs l).
Proof. induction l as [|x r IH]; simpl; lia. Qed.

Lemma Zsum_abs_bound (l : list Z) : Z.abs (Zsum l) <= Zsum (map Z.abs l).
Proof. induction l as [|x r IH]; simpl; lia. Qed.

Lemma safeAmounts_perm (l l' : list Z) :
  Permutation l l' -> safeAmounts l -> safeAmounts l'.
Proof.
  unfold safeAmounts. intros Hp H.
  now rewrite <- (Zsum_perm (Permutation_map Z.abs Hp)).
Qed.

Lemma safeAmounts_app (l l' : list Z) :
  safeAmounts (l ++ l') -> safeAmounts l /\ safeAmounts l'.
Proof.
  unfold safeAmounts. rewrite map_app, Zsum_app.
  pose proof (Zsum_abs_nonneg l). pose proof (Zsum_abs_nonneg l'). lia.
Qed.

(** ** Facts about the rounding of doubles *)

(** Up to 2^53 in magnitude every whole number is a double. *)
Lemma roundDouble_exact (z : Z) : Z.abs z <= 2 ^ 53 -> roundDouble z = z.
Proof.
  intros H. unfold roundDouble.
  destruct (Z.leb_spec (Z.log2 (Z.abs z) - 52) 0) as [|He]; [reflexivity|].
  assert (Ha : Z.abs z = 2 ^ 53).
  { assert (0 < Z.abs z) by (destruct (Z.abs z) eqn:E; simpl in He; lia).
    assert (~ Z.abs z < 2 ^ 53).
    { intros Hlt. apply Z.log2_lt_pow2 in Hlt; lia. }
    lia. }
  rewrite Ha. cbn. destruct z; cbn in *; try lia; injection Ha as ->; reflexivity.
Qed.

(** Rounding keeps the sign. *)
Lemma roundDouble_sgn (z : Z) : Z.sgn (roundDouble z) = Z.sgn z.
Proof.
  unfold roundDouble.
  destruct (Z.leb_spec (Z.log2 (Z.abs z) - 52) 0) as [|He]; [reflexivity|].
  set (e := Z.log2 (Z.abs z) - 52) in *.
  set (q := Z.shiftr (Z.abs z) e).
  match goal with |- context [if ?c then q + 1 else q] =>
    set (q' := if c then q + 1 else q) end.
  assert (Hq : 0 < q).
  { subst q. rewrite Z.shiftr_div_pow2 by lia.
    assert (0 < Z.abs z) by (destruct (Z.abs z) eqn:E; subst e; simpl in He; lia).
    apply Z.div_str_pos. split; [apply Z.pow_pos_nonneg; lia|].
    apply Z.le_trans with (2 ^ Z.log2 (Z.abs z)).
    - apply Z.pow_le_mono_r; lia.
    - apply Z.log2_spec. lia. }
  assert (Hq' : 0 < Z.shiftl q' e).
  { rewrite Z.shiftl_mul_pow2 by lia. apply Z.mul_pos_pos.
    - subst q'. destruct (_ || _); lia.
    - apply Z.pow_pos_nonneg; lia. }
  rewrite Z.sgn_mul, Z.sgn_sgn. rewrite (Z.sgn_pos _ Hq'). lia.
Qed.

(** A significand of 53 bits times a power of two is a double. *)
Lemma roundDouble_scaled (s k e : Z) :
  (s = 1 \/ s = -1) -> 0 < e -> 2 ^ 52 <= k < 2 ^ 53 ->
  roundDouble (s * (k * 2 ^ e)) = s * (k * 2 ^ e).
Proof.
  intros Hs He Hk.
  assert (Hp : 0 < 2 ^ e) by (apply Z.pow_pos_nonneg; lia).
  assert (Ha : Z.abs (s * (k * 2 ^ e)) = k * 2 ^ e).
  { rewrite Z.abs_mul. destruct Hs as [-> | ->]; simpl Z.abs; nia. }
  assert (Hl : Z.log2 (k * 2 ^ e) = e + 52).
  { apply Z.log2_unique; [lia|].
    replace (e + 52) with (52 + e) by lia.
    replace (Z.succ (52 + e)) with (53 + e) by lia.
    rewrite !Z.pow_add_r by lia. nia. }
  assert (Hsg : Z.sgn (s * (k * 2 ^ e)) = s).
  { rewrite Z.sgn_mul. rewrite (Z.sgn_pos (k * 2 ^ e)) by nia.
    destruct Hs as [-> | ->]; reflexivity. }
  unfold roundDouble. rewrite Ha, Hl, Hsg.
  replace (e + 52 - 52) with e by lia.
  destruct (Z.leb_spec e 0) as [|_]; [lia|].
  rewrite Z.shiftr_div_pow2 by lia. rewrite Z.div_mul by lia.
  rewrite (Z.shiftl_mul_pow2 k) by lia.
  replace (k * 2 ^ e - k * 2 ^ e) with 0 by lia.
  assert (Hh : 0 < Z.shiftl 1 (e - 1)).
  { rewrite Z.shiftl_mul_pow2 by lia.
    assert (0 < 2 ^ (e - 1)) by (apply Z.pow_pos_nonneg; lia). lia. }
  destruct (Z.ltb_spec (Z.shiftl 1 (e - 1)) 0) as [|_]; [lia|].
  destruct (Z.eqb_spec (Z.shiftl 1 (e - 1)) 0) as [|_]; [lia|].
  cbv zeta. cbn [orb andb]. now rewrite Z.shiftl_mul_pow2 by lia.
Qed.

(** What rounding returns is a double: rounding it again changes nothing. *)
Lemma roundDouble_idem (z : Z) : roundDouble (roundDouble z) = roundDouble z.
Proof.
  unfold roundDouble at 2 3.
  destruct (Z.leb_spec (Z.log2 (Z.abs z) - 52) 0) as [Hle|He].
  - unfold roundDouble.
    destruct (Z.leb_spec (Z.log2 (Z.abs z) - 52) 0); [reflexivity|lia].
  - set (e := Z.log2 (Z.abs z) - 52) in *.
    set (q := Z.shiftr (Z.abs z) e).
    match goal with |- context [if ?c then q + 1 else q] =>
      set (q' := if c then q + 1 else q) end.
    cbv zeta.
    assert (Hz : 0 < Z.abs z) by (destruct (Z.abs z) eqn:E; subst e; simpl in He; lia).
    assert (Hs : Z.sgn z = 1 \/ Z.sgn z = -1) by (destruct z; simpl in *; lia).
    assert (Hq : 2 ^ 52 <= q < 2 ^ 53).
    { subst q. rewrite Z.shiftr_div_pow2 by lia.
      assert (Hp : 0 < 2 ^ e) by (apply Z.pow_pos_nonneg; lia).
      destruct (Z.log2_spec (Z.abs z) Hz) as [Hlo Hhi].
      replace (Z.log2 (Z.abs z)) with (52 + e) in Hlo by (subst e; lia).
      replace (Z.succ (Z.log2 (Z.abs z))) with (53 + e) in Hhi by (subst e; lia).
      rewrite Z.pow_add_r in Hlo, Hhi by lia.
      split.
      - apply Z.div_le_lower_bound; lia.
      - apply Z.div_lt_upper_bound; lia. }
    rewrite Z.shiftl_mul_pow2 by lia.
    destruct (Z.eq_dec q' (2 ^ 53)) as [E|NE].
    + rewrite E.
      replace (2 ^ 53 * 2 ^ e) with (2 ^ 52 * 2 ^ (e + 1))
        by (rewrite Z.pow_add_r by lia; change (2 ^ 53) with (2 ^ 52 * 2);
            change (2 ^ 1) with 2; lia).
      apply roundDouble_scaled; lia.
    + apply roundDouble_scaled; [exact Hs|lia|].
      subst q'. destruct (_ || _); lia.
Qed.

Lemma jsAdd_zero (x : Z) : roundDouble x = x -> jsAdd x 0 = x.
Proof. intros H. unfold jsAdd. now rewrite Z.add_0_r. Qed.

(** Within the safe range a running total is the sum. *)
Lemma fold_jsAdd_exact (l : list Z) (a : Z) :
  Z.abs a + Zsum (map Z.abs l) <= 2 ^ 53 ->
  fold_left jsAdd l a = a + Zsum l.
Proof.
  revert a. induction l as [|x r IH]; intros a H; simpl in *.
  - lia.
  - pose proof (Zsum_abs_nonneg r).
    unfold jsAdd at 2. rewrite roundDouble_exact by lia.
    rewrite IH by lia. lia.
Qed.

Lemma jsSum_exact (l : list Z) : safeAmounts l -> jsSum l = Zsum l.
Proof.
  unfold safeAmounts, jsSum. intros H. rewrite fold_jsAdd_exact; simpl; lia.
Qed.

(** Adding 0 does not change a running total. *)
Lemma fold_jsAdd_nonzero (l : list Z) (a : Z) :
  roundDouble a = a ->
  fold_left jsAdd l a = fold_left jsAdd (filter (fun x => negb (x =? 0)) l) a.
Proof.
  revert a. induction l as [|x r IH]; intros a H; simpl; [reflexivity|].
  destruct (Z.eqb_spec x 0) as [->|Hx]; simpl.
  - rewrite jsAdd_zero by exact H. now apply IH.
  - apply IH. apply roundDouble_idem.
Qed.

Lemma reduceSum_jsSum {A} (f : A -> Z) (l : list A) :
  reduceSum f l = jsSum (map f l).
Proof.
  unfold reduceSum, jsSum. generalize 0.
  induction l as [|x r IH]; intros a; simpl; [reflexivity|apply IH].
Qed.

(** On some two thousand numbers, among them those near the powers of two
    where doubles get sparser, [roundDouble] and the three operations return
    what the doubles of the hardware return. *)
Example roundDouble_as_hardware :
  forallb Hardware.roundAgrees
          (Hardware.edges ++ map Z.opp Hardware.edges
           ++ Hardware.numbers 500 62 1 ++ Hardware.numbers 500 55 2) = true /\
  forallb (fun p => Hardware.addAgrees (fst p) (snd p)
                    && Hardware.subAgrees (fst p) (snd p)
                    && Hardware.mulAgrees (fst p) (snd p))
          (Hardware.pairs (Hardware.edges ++ Hardware.numbers 300 62 3
                           ++ Hardware.numbers 300 54 4
                           ++ Hardware.numbers 300 27 5)) = true /\
  Hardware.addAgrees (2 ^ 53) 22501 = true /\
  Hardware.mulAgrees 94906267 94906267 = true.
Proof. vm_compute. repeat split. Qed.

(** ** Facts about the sort of the host *)

Section HostSort.
Context {rt : JsRuntime} {A : Type}.

Lemma Array_sort_In (cmp : A -> A -> option Z) (l : list A) (x : A) :
  In x (Array_sort cmp l) <-> In x l.
Proof.
  split; apply Permutation_in;
    [apply Array_sort_perm | apply Permutation_sym, Array_sort_perm].
Qed.

Lemma Array_sort_length (cmp : A -> A -> option Z) (l : list A) :
  List.length (Array_sort cmp l) = List.length l.
Proof. apply Permutation_length, Array_sort_perm. Qed.

(** Within the safe range the order in which the sort leaves the entries
    does not show in their total. *)
Lemma reduceSum_sorted (cmp : A -> A -> option Z) (f : A -> Z) (l : list A) :
  safeAmounts (map f l) -> reduceSum f (Array_sort cmp l) = Zsum (map f l).
Proof.
  intros H.
  assert (Hp : Permutation (map f l) (map f (Array_sort cmp l)))
    by apply Permutation_map, Permutation_sym, Array_sort_perm.
  rewrite reduceSum_jsSum, jsSum_exact by exact (safeAmounts_perm Hp H).
  symmetry. now apply Zsum_perm.
Qed.

(** A list in ascending order of rank is fixed by its classes of equal
    rank. *)
Lemma ascending_unique (rank : A -> Z) (l1 l2 : list A) :
  ascending rank l1 -> ascending rank l2 ->
  (forall k, ofRank rank k l1 = ofRank rank k l2) -> l1 = l2.
Proof.
  unfold ascending, ofRank.
  revert l2. induction l1 as [|a r IH]; intros l2 H1 H2 Hk.
  - destruct l2 as [|b s]; [reflexivity|].
    specialize (Hk (rank b)). simpl in Hk. rewrite Z.eqb_refl in Hk. discriminate.
  - destruct l2 as [|b s].
    { specialize (Hk (rank a)). simpl in Hk. rewrite Z.eqb_refl in Hk. discriminate. }
    inversion H1 as [|? ? Hr Ha]; subst. inversion H2 as [|? ? Hs Hb]; subst.
    rewrite Forall_forall in Ha, Hb.
    assert (Hin : forall x l, In x l -> In x (filter (fun y => rank y =? rank x) l)).
    { intros x l Hx. apply filter_In. split; [exact Hx|apply Z.eqb_refl]. }
    assert (Hab : rank a = rank b).
    { assert (Ia : In a (b :: s)).
      { pose proof (Hin a (a :: r) (or_introl eq_refl)) as I.
        rewrite Hk in I. now apply filter_In in I. }
      assert (Ib : In b (a :: r)).
      { pose proof (Hin b (b :: s) (or_introl eq_refl)) as I.
        rewrite <- Hk in I. now apply filter_In in I. }
      destruct Ia as [->|Ia]; [reflexivity|].
      destruct Ib as [->|Ib]; [reflexivity|].
      specialize (Ha _ Ib). specialize (Hb _ Ia). lia. }
    pose proof (Hk (rank a)) as E. simpl in E.
    rewrite Z.eqb_refl in E. rewrite <- Hab, Z.eqb_refl in E.
    injection E as <- E. f_equal.
    apply IH; [exact Hr|exact Hs|].
    intros k. specialize (Hk k). simpl in Hk.
    destruct (rank a =? k); [now injection Hk|exact Hk].
Qed.

Lemma ascending_filter (rank : A -> Z) (p : A -> bool) (l : list A) :
  ascending rank l -> ascending rank (filter p l).
Proof.
  unfold ascending. induction 1 as [|a r Hr IH Ha]; simpl; [constructor|].
  destruct (p a); [|exact IH].
  constructor; [exact IH|].
  rewrite Forall_forall in Ha |- *. intros x Hx. apply Ha.
  now apply filter_In in Hx.
Qed.

Lemma filter_comm (p q : A -> bool) (l : list A) :
  filter p (filter q l) = filter q (filter p l).
Proof.
  induction l as [|x r IH]; simpl; [reflexivity|].
  destruct (p x) eqn:Ep, (q x) eqn:Eq; simpl; rewrite ?Ep, ?Eq, IH; reflexivity.
Qed.

(** With a consistent comparator, sorting and then dropping entries is
    dropping them and then sorting. *)
Lemma Array_sort_filter (rank : A -> Z) (cmp : A -> A -> option Z)
      (p : A -> bool) (l : list A) :
  ranked rank cmp l ->
  filter p (Array_sort cmp l) = Array_sort cmp (filter p l).
Proof.
  intros Hr.
  assert (Hr' : ranked rank cmp (filter p l)).
  { intros a b Ha Hb. apply Hr; [now apply filter_In in Ha|now apply filter_In in Hb]. }
  destruct (Array_sort_ranked Hr) as [H1 H2].
  destruct (Array_sort_ranked Hr') as [H3 H4].
  apply (@ascending_unique rank); [now apply ascending_filter|exact H3|].
  intros k. rewrite H4. unfold ofRank in *.
  rewrite filter_comm, H2. apply filter_comm.
Qed.

End HostSort.

(** Entries that carry [0] can be left out of a sum. *)
Lemma Zsum_filter_zero {A} (f : A -> Z) (keep : A -> bool) (l : list A) :
  (forall x, In x l -> keep x = false -> f x = 0) ->
  Zsum (map f l) = Zsum (map f (filter keep l)).
Proof.
  induction l as [|x r IH]; simpl; intros H; [reflexivity|].
  rewrite IH by (intros y Hy; apply H; now right).
  destruct (keep x) eqn:E; simpl.
  - reflexivity.
  - rewrite (H x (or_introl eq_refl) E). lia.
Qed.

(** ** Site details *)

Section Properties.
Context {rt : JsRuntime}.

Lemma find_site (w : World) (siteId : string) (s : Site.t) :
  In s (sites w) -> Site.SiteID s = siteId ->
  exists s0, find (siteHasId siteId) (sites w) = Some s0 /\
             In s0 (sites w) /\ Site.SiteID s0 = siteId.
Proof.
  intros Hin Hid.
  destruct (find_present (siteHasId siteId) (sites w) s Hin) as (s0 & Hf & Hin0 & E).
  - unfold siteHasId. now apply String.eqb_eq.
  - exists s0. repeat split; auto. now apply String.eqb_eq.
Qed.

Lemma find_no_site (w : World) (siteId : string) :
  (forall s, In s (sites w) -> Site.SiteID s <> siteId) ->
  find (siteHasId siteId) (sites w) = None.
Proof.
  intros H. apply find_absent.
  intros s Hs. unfold siteHasId. apply String.eqb_neq. now apply H.
Qed.

Lemma getSiteDetails_unknown (w : World) (siteId : string) :
  (forall s, In s (sites w) -> Site.SiteID s <> siteId) ->
  getSiteDetails siteId w = (Throw (mkError "Site not found"), w).
Proof.
  intros H. unfold getSiteDetails, bind, gets.
  now rewrite find_no_site.
Qed.

(** C1.  For a site ID that is present, [getSiteDetails] returns (and leaves
    the world as it is) an expense breakdown over all the worker logs and
    material logs of that site.  While the amounts are within the safe range
    (whole numbers whose absolute values add up to 2^53 at most),
    [workerExpense] is the sum of [SalaryPaid] over the worker logs of the
    site, [materialExpense] is the sum of [TotalCost] over its material
    logs, and [totalExpenses] is the sum of the two.  Every worker log
    counts with the amount it carries, paid or not: the unpaid entries
    contribute 0, so that the sum is that of the paid entries alone, when
    each of them carries 0.  Beyond the safe range the figures are running
    totals of doubles: over the lists in the order in which they are
    returned each addition is rounded, and [totalExpenses] is the rounded sum
    of the two other figures (as long as every total is a finite double,
    which is as far as the model of numbers goes). *)
Theorem getSiteDetails_expenses (w : World) (siteId : string) (s : Site.t) :
  In s (sites w) -> Site.SiteID s = siteId ->
  let siteWorkers :=
    filter (fun l => String.eqb (SiteWorkerLog.SiteID l) siteId) (siteWorkerLogs w) in
  let siteMaterials :=
    filter (fun l => String.eqb (SiteMaterialLog.SiteID l) siteId)
           (siteMaterialLogs w) in
  let salaries := map SiteWorkerLog.SalaryPaid siteWorkers in
  let costs := map SiteMaterialLog.TotalCost siteMaterials in
  exists d,
    getSiteDetails siteId w = (Ok d, w) /\
    let e := SiteDetailsData.expenses d in
    (safeAmounts salaries -> Expenses.workerExpense e = Zsum salaries) /\
    (safeAmounts costs -> Expenses.materialExpense e = Zsum costs) /\
    (safeAmounts (salaries ++ costs) ->
     Expenses.totalExpenses e = Expenses.workerExpense e + Expenses.materialExpense e /\
     Expenses.totalExpenses e = Zsum salaries + Zsum costs) /\
    (safeAmounts salaries ->
     (forall l, In l siteWorkers ->
                SiteWorkerLog.PaidStatus l = false -> SiteWorkerLog.SalaryPaid l = 0) ->
     Expenses.workerExpense e =
       Zsum (map SiteWorkerLog.SalaryPaid
               (filter SiteWorkerLog.PaidStatus siteWorkers))) /\
    (finiteTotals (map SiteWorkerLog.SalaryPaid (SiteDetailsData.workerLogs d)) ->
     Expenses.workerExpense e =
       jsSum (map SiteWorkerLog.SalaryPaid (SiteDetailsData.workerLogs d))) /\
    (finiteTotals (map SiteMaterialLog.TotalCost (SiteDetailsData.materialLogs d)) ->
     Expenses.materialExpense e =
       jsSum (map SiteMaterialLog.TotalCost (SiteDetailsData.materialLogs d))) /\
    (finite (Expenses.workerExpense e + Expenses.materialExpense e) ->
     Expenses.totalExpenses e =
       roundDouble (Expenses.workerExpense e + Expenses.materialExpense e)).
Proof.
  intros Hin Hid siteWorkers siteMaterials salaries costs.
  destruct (find_site w s Hin Hid) as (s0 & Hfind & _).
  eexists. split.
  { unfold getSiteDetails, bind, gets, ret. rewrite Hfind. reflexivity. }
  cbn [SiteDetailsData.expenses SiteDetailsData.workerLogs
       SiteDetailsData.materialLogs Expenses.workerExpense
       Expenses.materialExpense Expenses.totalExpenses].
  fold siteWorkers siteMaterials.
  split; [|split; [|split; [|split; [|split; [|split]]]]].
  - intros Hs. now apply reduceSum_sorted.
  - intros Hc. now apply reduceSum_sorted.
  - intros Hsc. destruct (safeAmounts_app _ _ Hsc) as [Hs Hc].
    rewrite !reduceSum_sorted by assumption. fold salaries costs.
    assert (E : jsAdd (Zsum salaries) (Zsum costs) = Zsum salaries + Zsum costs).
    { unfold jsAdd. apply roundDouble_exact.
      unfold safeAmounts in Hsc. rewrite map_app, Zsum_app in Hsc.
      pose proof (Zsum_abs_bound salaries). pose proof (Zsum_abs_bound costs). lia. }
    now rewrite E.
  - intros Hs Hunpaid. rewrite reduceSum_sorted by exact Hs.
    now apply Zsum_filter_zero.
  - intros _. apply reduceSum_jsSum.
  - intros _. apply reduceSum_jsSum.
  - intros _. reflexivity.
Qed.

(** ** Site status *)

(** C6. [updateSiteStatus] on a site ID that no site has throws "Site not
    found" and leaves the whole world as it was; on a site ID that is
    present it returns success, the first (with unique IDs: the only) site
    that has the ID gets the given status, and nothing else changes. *)
Theorem updateSiteStatus_spec (w : World) (siteId : string) (status : SiteStatus) :
  ((forall s, In s (sites w) -> Site.SiteID s <> siteId) ->
   updateSiteStatus siteId status w = (Throw (mkError "Site not found"), w))
  /\
  (forall s, In s (sites w) -> Site.SiteID s = siteId ->
   exists pre s0 post,
     sites w = pre ++ s0 :: post /\
     (forall x, In x pre -> Site.SiteID x <> siteId) /\
     Site.SiteID s0 = siteId /\
     (NoDup (map Site.SiteID (sites w)) -> s0 = s) /\
     updateSiteStatus siteId status w =
       (Ok (mkSuccess true),
        set_sites (pre ++ Site.set_Status status s0 :: post) w) /\
     Site.Status (Site.set_Status status s0) = status /\
     find (siteHasId siteId) (pre ++ Site.set_Status status s0 :: post)
       = Some (Site.set_Status status s0)).
Proof.
  split.
  - intros H. unfold updateSiteStatus, bind, gets.
    now rewrite find_no_site.
  - intros s Hin Hid.
    destruct (find_site w s Hin Hid) as (s0 & Hfind & Hin0 & Hid0).
    destruct (updateFirst_split (siteHasId siteId) (Site.set_Status status)
                (sites w) Hfind) as (pre & post & Hsplit & Hpre & Hupd).
    exists pre, s0, post. repeat split; auto.
    + intros x Hx. apply String.eqb_neq. now apply Hpre.
    + intros Hnd. apply (NoDup_map_inj Site.SiteID (sites w)); auto. congruence.
    + unfold updateSiteStatus, bind, gets, modify, ret. rewrite Hfind, Hupd.
      reflexivity.
    + apply find_app_skip; auto.
      unfold siteHasId. simpl. now apply String.eqb_eq.
Qed.

(** ** Daily entries *)

(** C7. [addDailyWorker] with neither a worker ID ([null], or the empty
    string, which is as falsy) nor a new-worker payload throws "Worker ID is missing" and leaves the world, hence the lengths of
    [workers] and [siteWorkerLogs], as it was.  With a new-worker payload
    (and a UUID generator that, as [crypto.randomUUID] does, returns no empty
    string) the worker is registered first, under the first UUID drawn, and
    the log entry appended after it refers to that ID and starts with
    [SalaryPaid = 0] and [PaidStatus = false]. *)
Theorem addDailyWorker_spec (w : World) (logData : DailyWorkerData.t) :
  (DailyWorkerData.WorkerID logData = None \/
   DailyWorkerData.WorkerID logData = Some "" ->
   DailyWorkerData.newWorker logData = None ->
   exists w',
     addDailyWorker logData w = (Throw (mkError "Worker ID is missing"), w') /\
     w' = w /\
     List.length (workers w') = List.length (workers w) /\
     List.length (siteWorkerLogs w') = List.length (siteWorkerLogs w))
  /\
  (forall payload,
   DailyWorkerData.newWorker logData = Some payload ->
   randomUUID (uuidCount w) <> "" ->
   exists worker log w',
     addDailyWorker logData w = (Ok (mkDailyWorkerResult log (Some worker)), w') /\
     worker = Worker.mk (randomUUID (uuidCount w))
                        (WorkerData.WorkerName payload)
                        (WorkerData.Contact payload)
                        (WorkerData.DefaultDailyWage payload) /\
     workers w' = workers w ++ [worker] /\
     log = SiteWorkerLog.mk (randomUUID (S (uuidCount w)))
                            (DailyWorkerData.SiteID logData)
                            (DailyWorkerData.Date logData)
                            (Worker.WorkerID worker)
                            (DailyWorkerData.WorkerName logData)
                            0 false /\
     siteWorkerLogs w' = siteWorkerLogs w ++ [log] /\
     SiteWorkerLog.WorkerID log = Worker.WorkerID worker /\
     SiteWorkerLog.SalaryPaid log = 0 /\
     SiteWorkerLog.PaidStatus log = false).
Proof.
  split.
  - intros Hid Hnew. exists w.
    unfold addDailyWorker, bind, ret, throw. rewrite Hnew.
    destruct Hid as [-> | ->]; simpl; repeat split.
  - intros payload Hnew Huuid.
    apply String.eqb_neq in Huuid.
    do 3 eexists. split.
    { unfold addDailyWorker, addNewWorker, generateUUID, bind, ret, modify, throw.
      rewrite Hnew. cbn. rewrite Huuid. reflexivity. }
    cbn. repeat split.
Qed.

(** C8. [addDailyLog] returns for every argument and every world, whether or
    not a site has the given [SiteID]: it appends one entry, which carries
    the UUID just drawn and the given site reference, date and text, and
    changes no other collection.  The entry's ID is new among the daily logs
    whenever the generator has not handed out a stored ID. *)
Theorem addDailyLog_spec (w : World) (logData : DailyLogData.t) :
  let entry :=
    DailyLog.mk (randomUUID (uuidCount w)) (DailyLogData.SiteID logData)
                (DailyLogData.Date logData) (DailyLogData.LogEntry logData) in
  let w' := snd (addDailyLog logData w) in
  addDailyLog logData w = (Ok entry, w') /\
  dailyLogs w' = dailyLogs w ++ [entry] /\
  List.length (dailyLogs w') = S (List.length (dailyLogs w)) /\
  (sites w', workers w', materials w', siteWorkerLogs w', siteMaterialLogs w',
   galleryImages w')
  = (sites w, workers w, materials w, siteWorkerLogs w, siteMaterialLogs w,
     galleryImages w) /\
  uuidCount w' = S (uuidCount w) /\
  (~ In (randomUUID (uuidCount w)) (map DailyLog.LogID (dailyLogs w)) ->
   forall l, In l (dailyLogs w) -> DailyLog.LogID l <> DailyLog.LogID entry).
Proof.
  cbn. repeat split.
  - unfold push. rewrite length_app. simpl. lia.
  - intros Hfresh l Hl E. apply Hfresh. rewrite <- E. now apply in_map.
Qed.

(** The generator's part in this: with a generator that never repeats itself,
    [freshAhead] holds after every call once it holds, so that each daily
    log gets an ID that no earlier daily log has. *)
Lemma exec_dailyLogs (c : Call) (w : World) :
  (uuidCount w <= uuidCount (exec c w))%nat /\
  (dailyLogs (exec c w) = dailyLogs w \/
   exists e, dailyLogs (exec c w) = dailyLogs w ++ [e] /\
             DailyLog.LogID e = randomUUID (uuidCount w) /\
             uuidCount (exec c w) = S (uuidCount w)).
Proof.
  destruct c; cbn; try (split; [lia | now left]).
  - unfold updateSiteStatus, bind, gets.
    destruct (find _ _); cbn; split; auto.
  - split; [lia|]. right. eexists. repeat split.
  - unfold addDailyWorker, addNewWorker, generateUUID, bind, ret, modify, throw.
    destruct (DailyWorkerData.newWorker logData); cbn;
      match goal with |- context [if ?b then _ else _] => destruct b end;
      cbn; split; auto; lia.
  - unfold updateWorkerSalary, bind, gets.
    destruct (find _ _); cbn; split; auto.
  - unfold uploadFile, generateUUID, bind, gets, ret, modify.
    destruct (find _ _); cbn; [|split; auto].
    repeat (destruct (String.eqb fileType _); cbn; [split; auto; lia|]).
    split; auto.
Qed.

Lemma exec_freshAhead (c : Call) (w : World) :
  (forall m n, randomUUID m = randomUUID n -> m = n) ->
  freshAhead w -> freshAhead (exec c w).
Proof.
  intros Hinj Hw n Hn.
  destruct (exec_dailyLogs c w) as (Hle & [-> | (e & -> & He & Hc)]).
  - apply Hw. lia.
  - rewrite map_app, in_app_iff. intros [H | [H | []]].
    + revert H. apply Hw. lia.
    + rewrite He in H. apply Hinj in H. lia.
Qed.

Lemma run_freshAhead (cs : list Call) (w : World) :
  (forall m n, randomUUID m = randomUUID n -> m = n) ->
  freshAhead w -> freshAhead (run cs w).
Proof.
  intros Hinj. revert w. unfold run.
  induction cs as [|c cs IH]; intros w Hw; simpl; auto.
  apply IH. now apply exec_freshAhead.
Qed.

Lemma freshAhead_next (w : World) :
  freshAhead w ->
  ~ In (randomUUID (uuidCount w)) (map DailyLog.LogID (dailyLogs w)).
Proof. intros H. apply H. lia. Qed.

(** ** Files *)

(** C9. For a site that exists and a file type other than "agreement",
    "plan" and "gallery", [uploadFile] returns success and writes nothing:
    the seven collections are what they were (one UUID has been drawn for
    the file ID, which is then dropped). *)
Theorem uploadFile_unknown_type (w : World) (now : Z) (fileData : FileData.t)
        (siteId fileType description : string) (s : Site.t) :
  In s (sites w) -> Site.SiteID s = siteId ->
  fileType <> "agreement" -> fileType <> "plan" -> fileType <> "gallery" ->
  exists w',
    uploadFile now fileData siteId fileType description w
    = (Ok (mkSuccess true), w') /\
    store w' = store w /\
    w' = set_uuidCount (S (uuidCount w)) w.
Proof.
  intros Hin Hid Ha Hp Hg.
  destruct (find_site w s Hin Hid) as (s0 & Hfind & _).
  apply String.eqb_neq in Ha, Hp, Hg.
  eexists. split.
  { unfold uploadFile, generateUUID, bind, gets, ret, modify.
    rewrite Hfind. cbn. rewrite Ha, Hp, Hg. reflexivity. }
  split; reflexivity.
Qed.

(** ** Material entries *)

Lemma exec_siteMaterialLogs (c : Call) (w : World) :
  exists rest, siteMaterialLogs (exec c w) = siteMaterialLogs w ++ rest.
Proof.
  destruct c; cbn;
    try (exists []; rewrite app_nil_r; reflexivity).
  - unfold updateSiteStatus, bind, gets.
    destruct (find _ _); cbn; exists []; now rewrite app_nil_r.
  - unfold addDailyWorker, addNewWorker, generateUUID, bind, ret, modify, throw.
    destruct (DailyWorkerData.newWorker logData); cbn;
      match goal with |- context [if ?b then _ else _] => destruct b end;
      cbn; exists []; now rewrite app_nil_r.
  - eexists. reflexivity.
  - unfold updateWorkerSalary, bind, gets.
    destruct (find _ _); cbn; exists []; now rewrite app_nil_r.
  - unfold uploadFile, generateUUID, bind, gets, ret, modify.
    destruct (find _ _); cbn; [|exists []; now rewrite app_nil_r].
    repeat (destruct (String.eqb fileType _); cbn;
            [exists []; now rewrite app_nil_r|]).
    exists []; now rewrite app_nil_r.
Qed.

Lemma after_siteMaterialLogs (es : list Event) (w : World) :
  exists rest, siteMaterialLogs (after es w) = siteMaterialLogs w ++ rest.
Proof.
  revert w; induction es as [|e es IH]; intros w; simpl.
  - exists []. now rewrite app_nil_r.
  - destruct (IH (occur e w)) as (rest & ->).
    destruct e as [c|edit]; simpl.
    + destruct (exec_siteMaterialLogs c w) as (rest0 & ->).
      exists (rest0 ++ rest). now rewrite app_assoc.
    + now exists rest.
Qed.

(** C2.  The entry that [addDailyMaterial] creates from quantity [Q] and unit
    value [V] carries as [TotalCost] the product of the two as the code
    computes it, in doubles: [Q * V] itself while the product is a whole
    number of magnitude 2^53 at most, the double nearest to [Q * V] beyond
    (as long as the product is within the finite doubles).  The entry stays
    where it is, unchanged, after any sequence of API calls and of edits of
    the materials master list (a new [DefaultValue] for the referenced
    material among them). *)
Theorem addDailyMaterial_totalCost (w : World) (logData : DailyMaterialData.t) :
  let Q := DailyMaterialData.QuantityUsed logData in
  let V := DailyMaterialData.DefaultValue logData in
  exists entry w1,
    addDailyMaterial logData w = (Ok entry, w1) /\
    SiteMaterialLog.QuantityUsed entry = Q /\
    SiteMaterialLog.DefaultValue entry = V /\
    (Z.abs (Q * V) <= 2 ^ 53 -> SiteMaterialLog.TotalCost entry = Q * V) /\
    (finite (Q * V) -> SiteMaterialLog.TotalCost entry = roundDouble (Q * V)) /\
    siteMaterialLogs w1 = siteMaterialLogs w ++ [entry] /\
    forall es : list Event,
      nth_error (siteMaterialLogs (after es w1)) (List.length (siteMaterialLogs w))
      = Some entry.
Proof.
  cbn zeta. do 2 eexists. split.
  { unfold addDailyMaterial, generateUUID, bind, modify, ret. reflexivity. }
  cbn [SiteMaterialLog.QuantityUsed SiteMaterialLog.DefaultValue
       SiteMaterialLog.TotalCost].
  split; [reflexivity|]. split; [reflexivity|].
  split; [intros Hs; unfold jsMul; now apply roundDouble_exact|].
  split; [intros _; reflexivity|].
  split; [reflexivity|].
  intros es.
  match goal with |- context [after es ?w1] =>
    destruct (after_siteMaterialLogs es w1) as (rest & ->) end.
  cbn. unfold push. rewrite <- app_assoc. rewrite nth_error_app2 by lia.
  now rewrite Nat.sub_diag.
Qed.

(** ** Today's workers *)

Lemma includes_online (w : World) (siteId : string) :
  includes siteId (map Site.SiteID (filter isOnline (sites w)))
  = existsb (fun s => String.eqb (Site.SiteID s) siteId
                      && SiteStatus_eqb (Site.Status s) Online)
            (sites w).
Proof.
  unfold includes, isOnline.
  induction (sites w) as [|s r IH]; simpl; [reflexivity|].
  destruct (SiteStatus_eqb (Site.Status s) Online); simpl.
  - rewrite IH, andb_true_r, String.eqb_sym. reflexivity.
  - rewrite IH, andb_false_r. reflexivity.
Qed.

Lemma SiteStatus_eqb_eq (a b : SiteStatus) : SiteStatus_eqb a b = true <-> a = b.
Proof. destruct a, b; simpl; split; congruence. Qed.

Lemma activeToday_iff (w : World) (today : string) (l : SiteWorkerLog.t) :
  activeToday w today l = true <->
  SiteWorkerLog.Date l = today /\
  exists s, In s (sites w) /\ Site.SiteID s = SiteWorkerLog.SiteID l /\
            Site.Status s = Online.
Proof.
  unfold activeToday. rewrite andb_true_iff, String.eqb_eq, existsb_exists.
  split; intros [Hd (s & Hs & H)]; split; auto; exists s; split; auto.
  - apply andb_true_iff in H. now rewrite String.eqb_eq, SiteStatus_eqb_eq in H.
  - apply andb_true_iff. now rewrite String.eqb_eq, SiteStatus_eqb_eq.
Qed.

Lemma toLog_todayWorkerOf (w : World) (l : SiteWorkerLog.t) :
  TodayWorker.toLog (todayWorkerOf w l) = l.
Proof. now destruct l. Qed.

Lemma getTodayWorkers_logs (w : World) (now : Z) :
  exists r,
    getTodayWorkers now w = (Ok r, w) /\
    r = map (todayWorkerOf w)
            (filter (activeToday w (getTodayDateString now)) (siteWorkerLogs w)) /\
    map TodayWorker.toLog r
    = filter (activeToday w (getTodayDateString now)) (siteWorkerLogs w).
Proof.
  eexists. split; [reflexivity|].
  assert (E : forall l,
             String.eqb (SiteWorkerLog.Date l) (getTodayDateString now)
             && includes (SiteWorkerLog.SiteID l)
                         (map Site.SiteID (filter isOnline (sites w)))
             = activeToday w (getTodayDateString now) l).
  { intros l. unfold activeToday. now rewrite includes_online. }
  rewrite (filter_ext _ _ E). split; [reflexivity|].
  rewrite map_map. rewrite (map_ext _ (fun l => l)) by apply toLog_todayWorkerOf.
  apply map_id.
Qed.

(** C3. [getTodayWorkers] returns, in the order of the store and leaving the
    world as it is, exactly the worker logs whose date is the caller's
    current date and whose site is Online; a log is not returned when its
    site (the site with its [SiteID], site IDs being unique) is Offline,
    whatever its date. *)
Theorem getTodayWorkers_exact (w : World) (now : Z) :
  let today := getTodayDateString now in
  exists r,
    getTodayWorkers now w = (Ok r, w) /\
    map TodayWorker.toLog r = filter (activeToday w today) (siteWorkerLogs w) /\
    (forall l,
       In l (map TodayWorker.toLog r) <->
       In l (siteWorkerLogs w) /\
       SiteWorkerLog.Date l = today /\
       exists s, In s (sites w) /\ Site.SiteID s = SiteWorkerLog.SiteID l /\
                 Site.Status s = Online) /\
    (NoDup (map Site.SiteID (sites w)) ->
     forall l s,
       In s (sites w) -> Site.SiteID s = SiteWorkerLog.SiteID l ->
       Site.Status s = Offline ->
       ~ In l (map TodayWorker.toLog r)).
Proof.
  intros today.
  destruct (getTodayWorkers_logs w now) as (r & Hr & _ & Hlogs).
  exists r. split; [exact Hr|]. split; [exact Hlogs|].
  assert (Hiff : forall l,
             In l (map TodayWorker.toLog r) <->
             In l (siteWorkerLogs w) /\
             SiteWorkerLog.Date l = today /\
             exists s, In s (sites w) /\ Site.SiteID s = SiteWorkerLog.SiteID l /\
                       Site.Status s = Online).
  { intros l. rewrite Hlogs, filter_In, activeToday_iff. reflexivity. }
  split; [exact Hiff|].
  intros Hnd l s Hs Hid Hoff Hl.
  apply Hiff in Hl. destruct Hl as (_ & _ & s' & Hs' & Hid' & Hon).
  assert (s' = s).
  { apply (NoDup_map_inj Site.SiteID (sites w)); auto. congruence. }
  subst s'. congruence.
Qed.

Lemma orZero_some (z : Z) : orZero (Some z) = z.
Proof. simpl. destruct (Z.eqb_spec z 0); congruence. Qed.

Lemma find_unique_id {A} (id : A -> string) (l : list A) (x : A) :
  NoDup (map id l) -> In x l ->
  find (fun y => String.eqb (id y) (id x)) l = Some x.
Proof.
  intros Hnd Hin.
  destruct (find_present (fun y => String.eqb (id y) (id x)) l x Hin)
    as (y & Hfind & Hy & E).
  { apply String.eqb_refl. }
  rewrite Hfind. f_equal.
  apply (NoDup_map_inj id l); auto. now apply String.eqb_eq.
Qed.

(** C4. Every entry that [getTodayWorkers] returns is a worker log of the
    store with two fields added.  Its [WorkerName] is the one stored on the
    log; its [DefaultDailyWage] is the wage that the master list holds at
    the call for the worker with the log's [WorkerID] (the first such
    worker, which is the only one when worker IDs are unique).  Hence on a world that differs only by its master list, for
    instance by a wage changed after the log was written, the same logs come
    back with the same names and with the wages of the new list. *)
Theorem getTodayWorkers_live_wage (w : World) (now : Z) :
  exists r,
    getTodayWorkers now w = (Ok r, w) /\
    (forall e, In e r ->
       (exists log, In log (siteWorkerLogs w) /\ TodayWorker.toLog e = log /\
                    TodayWorker.WorkerName e = SiteWorkerLog.WorkerName log) /\
       (forall wk,
          find (fun x => String.eqb (Worker.WorkerID x) (TodayWorker.WorkerID e))
               (workers w) = Some wk ->
          TodayWorker.DefaultDailyWage e = Worker.DefaultDailyWage wk) /\
       forall wk,
         NoDup (map Worker.WorkerID (workers w)) ->
         In wk (workers w) -> Worker.WorkerID wk = TodayWorker.WorkerID e ->
         TodayWorker.DefaultDailyWage e = Worker.DefaultDailyWage wk) /\
    (forall master : list Worker.t,
     exists r',
       getTodayWorkers now (set_workers master w) = (Ok r', set_workers master w) /\
       map TodayWorker.toLog r' = map TodayWorker.toLog r /\
       map TodayWorker.WorkerName r' = map TodayWorker.WorkerName r /\
       forall e' wk,
         In e' r' -> NoDup (map Worker.WorkerID master) ->
         In wk master -> Worker.WorkerID wk = TodayWorker.WorkerID e' ->
         TodayWorker.DefaultDailyWage e' = Worker.DefaultDailyWage wk).
Proof.
  assert (Hwage : forall (v : World) e wk,
            In e (map (todayWorkerOf v)
                      (filter (activeToday v (getTodayDateString now))
                              (siteWorkerLogs v))) ->
            NoDup (map Worker.WorkerID (workers v)) ->
            In wk (workers v) -> Worker.WorkerID wk = TodayWorker.WorkerID e ->
            TodayWorker.DefaultDailyWage e = Worker.DefaultDailyWage wk).
  { intros v e wk He Hnd Hwk Hid.
    apply in_map_iff in He. destruct He as (l & <- & _).
    cbn in Hid |- *. rewrite <- Hid.
    rewrite (find_unique_id Worker.WorkerID (workers v) wk Hnd Hwk).
    apply orZero_some. }
  destruct (getTodayWorkers_logs w now) as (r & Hr & Hdef & Hlogs).
  exists r. split; [exact Hr|]. split.
  - intros e He. split; [|split].
    + exists (TodayWorker.toLog e). repeat split.
      apply (in_map TodayWorker.toLog) in He. rewrite Hlogs in He.
      now apply filter_In in He.
    + intros wk Hfind. subst r.
      apply in_map_iff in He. destruct He as (l & <- & _).
      cbn in Hfind |- *. rewrite Hfind. apply orZero_some.
    + intros wk Hnd Hwk Hid. subst r. now apply (Hwage w e wk).
  - intros master.
    destruct (getTodayWorkers_logs (set_workers master w) now)
      as (r' & Hr' & Hdef' & Hlogs').
    exists r'. split; [exact Hr'|].
    assert (Hsame : map TodayWorker.toLog r' = map TodayWorker.toLog r).
    { rewrite Hlogs', Hlogs. reflexivity. }
    split; [exact Hsame|]. split.
    + apply (f_equal (map SiteWorkerLog.WorkerName)) in Hsame.
      rewrite !map_map in Hsame. exact Hsame.
    + intros e' wk He' Hnd Hwk Hid. subst r'.
      now apply (Hwage (set_workers master w) e' wk).
Qed.

(** ** Overall material log *)

(** C10. A material log whose [SiteID] no site has is still part of what
    [getOverallMaterialsLog] returns (the call does not throw and returns as
    many entries as there are logs), with [SiteName] "Unknown Site".  Such a
    log can be produced: [addDailyMaterial] accepts any [SiteID]. *)
Theorem getOverallMaterialsLog_unknown_site (w : World) :
  exists r,
    getOverallMaterialsLog w = (Ok r, w) /\
    List.length r = List.length (siteMaterialLogs w) /\
    (forall log,
       In log (siteMaterialLogs w) ->
       (forall s, In s (sites w) -> Site.SiteID s <> SiteMaterialLog.SiteID log) ->
       exists e, In e r /\ OverallMaterialLog.toLog e = log /\
                 OverallMaterialLog.SiteName e = "Unknown Site") /\
    (forall logData,
       (forall s, In s (sites w) -> Site.SiteID s <> DailyMaterialData.SiteID logData) ->
       exists log w1 r1 e,
         addDailyMaterial logData w = (Ok log, w1) /\
         getOverallMaterialsLog w1 = (Ok r1, w1) /\
         In e r1 /\ OverallMaterialLog.toLog e = log /\
         OverallMaterialLog.SiteName e = "Unknown Site").
Proof.
  assert (Hentry : forall (v : World) log,
            In log (siteMaterialLogs v) ->
            (forall s, In s (sites v) -> Site.SiteID s <> SiteMaterialLog.SiteID log) ->
            exists e,
              In e (map (overallMaterialLogOf v)
                        (Array_sort (byDateDesc SiteMaterialLog.Date) (siteMaterialLogs v))) /\
              OverallMaterialLog.toLog e = log /\
              OverallMaterialLog.SiteName e = "Unknown Site").
  { intros v log Hin Hno. exists (overallMaterialLogOf v log). repeat split.
    - apply in_map. now apply Array_sort_In.
    - now destruct log.
    - unfold overallMaterialLogOf. cbn. now rewrite find_no_site. }
  eexists. split; [reflexivity|]. split; [|split].
  - rewrite length_map. apply Array_sort_length.
  - apply Hentry.
  - intros logData Hno.
    assert (E : exists log w1,
               addDailyMaterial logData w = (Ok log, w1) /\
               siteMaterialLogs w1 = siteMaterialLogs w ++ [log] /\
               sites w1 = sites w /\
               SiteMaterialLog.SiteID log = DailyMaterialData.SiteID logData).
    { cbn. do 2 eexists. split; [reflexivity|]. cbn. auto. }
    destruct E as (log & w1 & E & Hlogs & Hsites & Hid).
    destruct (Hentry w1 log) as (e & He & Hlog & Hname).
    { rewrite Hlogs. apply in_or_app. right. now left. }
    { rewrite Hsites, Hid. exact Hno. }
    exists log, w1. eexists. exists e.
    split; [exact E|]. split; [reflexivity|]. auto.
Qed.

(** ** Dashboard *)

Lemma offline_count (l : list Site.t) :
  Z.of_nat (List.length l) - Z.of_nat (List.length (filter isOnline l))
  = Z.of_nat (List.length
                (filter (fun s => SiteStatus_eqb (Site.Status s) Offline) l)).
Proof.
  unfold isOnline.
  induction l as [|s r IH]; [reflexivity|].
  cbn [filter List.length].
  destruct (Site.Status s); cbn [SiteStatus_eqb List.length];
    rewrite ?Nat2Z.inj_succ; lia.
Qed.

(** The month test of the loop is the one of the words: the date can be
    read and has the month and the year of the call. *)
Lemma inCurrentMonth_iff (now : Z) (dateString : string) :
  inCurrentMonth now dateString = true <-> sameMonthYear now dateString.
Proof.
  unfold inCurrentMonth, sameMonthYear. split.
  - destruct (Date_parse dateString) as [t|]; [|discriminate].
    intros H. apply andb_true_iff in H. destruct H as [Hm Hy].
    apply Z.eqb_eq in Hm, Hy. now exists t.
  - intros (t & -> & Hm & Hy). apply andb_true_iff. now rewrite !Z.eqb_eq.
Qed.

Lemma fold_addExpense {A} (now : Z) (inMonth : string -> bool)
      (date : A -> string) (amount : A -> Z) (l : list A) (acc : Z * Z) :
  (forall x, In x l ->
     (inMonth (date x) = true <-> sameMonthYear now (date x))) ->
  fold_left (fun acc x => addExpense now (date x) (amount x) acc) l acc
  = (fold_left jsAdd
       (map amount (filter (fun x => String.eqb (date x) (getTodayDateString now)) l))
       (fst acc),
     fold_left jsAdd (map amount (filter (fun x => inMonth (date x)) l)) (snd acc)).
Proof.
  revert acc; induction l as [|x r IH]; intros [t m] Hm; simpl; [reflexivity|].
  assert (E : inCurrentMonth now (date x) = inMonth (date x)).
  { pose proof (inCurrentMonth_iff now (date x)) as H1.
    pose proof (Hm x (or_introl eq_refl)) as H2.
    destruct (inCurrentMonth now (date x)), (inMonth (date x)); intuition congruence. }
  rewrite IH by (intros y Hy; apply Hm; now right).
  unfold addExpense. rewrite orZero_some, E.
  destruct (String.eqb (date x) (getTodayDateString now));
    destruct (inMonth (date x)); reflexivity.
Qed.

(** C5.  [getProfileDashboardData] returns, leaving the world as it is: the
    number of Online sites, the number of Offline sites, the numbers of
    worker logs and of material logs whose date string is today's, and two
    amounts.  While the amounts of the day are within the safe range (whole
    numbers whose absolute values add up to 2^53 at most), [todayExpense] is
    the sum of today's [SalaryPaid] plus today's [TotalCost]; likewise
    [monthExpense] over the logs whose date can be read and lies in the
    month and the year of the call.  Whether a log is of the month is said
    here by [sameMonthYear], not by the test of the loop: [inMonth] is any
    test that agrees with it on the dates of the store.  Beyond the safe
    range each figure is one running total of doubles, over the worker logs
    and then the material logs in the order of the store, each addition
    rounded (as long as every total is a finite double). *)
Theorem getProfileDashboardData_spec (w : World) (now : Z) (inMonth : string -> bool) :
  (forall dateString,
     In dateString (map SiteWorkerLog.Date (siteWorkerLogs w)
                    ++ map SiteMaterialLog.Date (siteMaterialLogs w)) ->
     (inMonth dateString = true <-> sameMonthYear now dateString)) ->
  let today := getTodayDateString now in
  let workerToday := fun l => String.eqb (SiteWorkerLog.Date l) today in
  let materialToday := fun l => String.eqb (SiteMaterialLog.Date l) today in
  let workerMonth := fun l => inMonth (SiteWorkerLog.Date l) in
  let materialMonth := fun l => inMonth (SiteMaterialLog.Date l) in
  let salaries := fun keep =>
    map SiteWorkerLog.SalaryPaid (filter keep (siteWorkerLogs w)) in
  let costs := fun keep =>
    map SiteMaterialLog.TotalCost (filter keep (siteMaterialLogs w)) in
  exists d,
    getProfileDashboardData now w = (Ok d, w) /\
    DashboardData.onlineSites d =
      Z.of_nat (List.length
        (filter (fun s => SiteStatus_eqb (Site.Status s) Online) (sites w))) /\
    DashboardData.offlineSites d =
      Z.of_nat (List.length
        (filter (fun s => SiteStatus_eqb (Site.Status s) Offline) (sites w))) /\
    DashboardData.todayWorkers d =
      Z.of_nat (List.length (filter workerToday (siteWorkerLogs w))) /\
    DashboardData.todayMaterials d =
      Z.of_nat (List.length (filter materialToday (siteMaterialLogs w))) /\
    (safeAmounts (salaries workerToday ++ costs materialToday) ->
     DashboardData.todayExpense d =
       Zsum (salaries workerToday) + Zsum (costs materialToday)) /\
    (safeAmounts (salaries workerMonth ++ costs materialMonth) ->
     DashboardData.monthExpense d =
       Zsum (salaries workerMonth) + Zsum (costs materialMonth)) /\
    (finiteTotals (salaries workerToday ++ costs materialToday) ->
     DashboardData.todayExpense d =
       jsSum (salaries workerToday ++ costs materialToday)) /\
    (finiteTotals (salaries workerMonth ++ costs materialMonth) ->
     DashboardData.monthExpense d =
       jsSum (salaries workerMonth ++ costs materialMonth)).
Proof.
  intros Hm. cbn zeta. eexists. split; [reflexivity|].
  cbn [DashboardData.onlineSites DashboardData.offlineSites
       DashboardData.todayWorkers DashboardData.todayMaterials
       DashboardData.todayExpense DashboardData.monthExpense].
  assert (Hw : forall x, In x (siteWorkerLogs w) ->
            (inMonth (SiteWorkerLog.Date x) = true
             <-> sameMonthYear now (SiteWorkerLog.Date x))).
  { intros x Hx. apply Hm, in_or_app. left. now apply in_map. }
  assert (Hl : forall x, In x (siteMaterialLogs w) ->
            (inMonth (SiteMaterialLog.Date x) = true
             <-> sameMonthYear now (SiteMaterialLog.Date x))).
  { intros x Hx. apply Hm, in_or_app. right. now apply in_map. }
  rewrite (fold_addExpense _ _ _ _ _ Hw), (fold_addExpense _ _ _ _ _ Hl).
  cbn [fst snd]. rewrite <- !fold_left_app.
  repeat match goal with
         | |- context [fold_left jsAdd ?l 0] => change (fold_left jsAdd l 0) with (jsSum l)
         end.
  split; [reflexivity|]. split; [apply offline_count|].
  split; [reflexivity|]. split; [reflexivity|].
  split; [|split; [|split]].
  - intros H. rewrite jsSum_exact by exact H. apply Zsum_app.
  - intros H. rewrite jsSum_exact by exact H. apply Zsum_app.
  - intros _. reflexivity.
  - intros _. reflexivity.
Qed.

End Properties.

(** ** The properties on the sample worlds *)

Lemma sample_site_ids :
  NoDup (map Site.SiteID (sites Sample.world0)).
Proof.
  repeat constructor; simpl; intuition discriminate.
Qed.

Lemma getSiteDetails_expenses_witness :
  In Sample.site1 (sites Cases.worldGhost) /\
  Site.SiteID Sample.site1 = "s-1" /\
  exists d,
    getSiteDetails (rt := Sample.rt) "s-1" Cases.worldGhost = (Ok d, Cases.worldGhost) /\
    map (fun l => (SiteWorkerLog.SalaryPaid l, SiteWorkerLog.PaidStatus l))
        (filter (fun l => String.eqb (SiteWorkerLog.SiteID l) "s-1")
                (siteWorkerLogs Cases.worldGhost))
    = [(800, true); (0, false)] /\
    Expenses.workerExpense (SiteDetailsData.expenses d) = 800 /\
    Expenses.materialExpense (SiteDetailsData.expenses d) = 22500 /\
    Expenses.totalExpenses (SiteDetailsData.expenses d) = 23300 /\
    Expenses.workerExpense (SiteDetailsData.expenses d)
    = Zsum (map SiteWorkerLog.SalaryPaid
              (filter SiteWorkerLog.PaidStatus
                 (filter (fun l => String.eqb (SiteWorkerLog.SiteID l) "s-1")
                         (siteWorkerLogs Cases.worldGhost)))).
Proof.
  assert (Hin : In Sample.site1 (sites Cases.worldGhost)) by (left; reflexivity).
  split; [exact Hin|]. split; [reflexivity|].
  destruct (@getSiteDetails_expenses Sample.rt Cases.worldGhost "s-1" Sample.site1
              Hin eq_refl) as (d & Hd & Hw & Hm & Ht & Hpaid & _).
  assert (Hs : safeAmounts
                 (map SiteWorkerLog.SalaryPaid
                    (filter (fun l => String.eqb (SiteWorkerLog.SiteID l) "s-1")
                            (siteWorkerLogs Cases.worldGhost)))) by safe_range.
  exists d. split; [exact Hd|]. split; [reflexivity|].
  split; [rewrite (Hw Hs); reflexivity|].
  split; [rewrite Hm by safe_range; reflexivity|].
  split.
  { destruct Ht as [_ Ht]; [safe_range|]. rewrite Ht. reflexivity. }
  apply (Hpaid Hs).
  intros l Hl. vm_compute in Hl. destruct Hl as [<- | [<- | []]]; simpl.
  - discriminate.
  - reflexivity.
Defined.

(** On site s-2 the one worker log is unpaid and carries 500: it counts for
    500, not for 0.  On site s-1 the salaries are 2^53, 1 and 1 and the
    costs 22500 and 1: the code returns 2^53 for the salaries, which add up
    to 2^53 + 2, and a total of 2^53 + 22500, which is neither the sum of
    its two other figures nor the sum of the amounts. *)
Lemma getSiteDetails_expenses_counterexample :
  (exists d,
     getSiteDetails (rt := Sample.rt) "s-2" Cases.worldAdvance
     = (Ok d, Cases.worldAdvance) /\
     map (fun l => (SiteWorkerLog.SalaryPaid l, SiteWorkerLog.PaidStatus l))
         (filter (fun l => String.eqb (SiteWorkerLog.SiteID l) "s-2")
                 (siteWorkerLogs Cases.worldAdvance))
     = [(500, false)] /\
     Expenses.workerExpense (SiteDetailsData.expenses d) = 500 /\
     Expenses.workerExpense (SiteDetailsData.expenses d)
     <> Zsum (map SiteWorkerLog.SalaryPaid
                (filter SiteWorkerLog.PaidStatus
                   (filter (fun l => String.eqb (SiteWorkerLog.SiteID l) "s-2")
                           (siteWorkerLogs Cases.worldAdvance))))) /\
  (exists d,
     getSiteDetails (rt := Sample.rt) "s-1" Cases.worldLarge
     = (Ok d, Cases.worldLarge) /\
     let e := SiteDetailsData.expenses d in
     let salaries :=
       map SiteWorkerLog.SalaryPaid
           (filter (fun l => String.eqb (SiteWorkerLog.SiteID l) "s-1")
                   (siteWorkerLogs Cases.worldLarge)) in
     let costs :=
       map SiteMaterialLog.TotalCost
           (filter (fun l => String.eqb (SiteMaterialLog.SiteID l) "s-1")
                   (siteMaterialLogs Cases.worldLarge)) in
     salaries = [9007199254740992; 1; 1] /\
     costs = [22500; 1] /\
     e = Expenses.mk 9007199254763492 9007199254740992 22501 /\
     Expenses.workerExpense e <> Zsum salaries /\
     Expenses.totalExpenses e
     <> Expenses.workerExpense e + Expenses.materialExpense e /\
     Expenses.totalExpenses e <> Zsum salaries + Zsum costs).
Proof.
  split.
  - eexists. split; [vm_compute; reflexivity|].
    do 2 (split; [vm_compute; reflexivity|]). vm_compute. discriminate.
  - eexists. split; [vm_compute; reflexivity|].
    cbv zeta. do 3 (split; [vm_compute; reflexivity|]).
    split; [|split]; vm_compute; discriminate.
Qed.

Lemma addDailyMaterial_totalCost_witness :
  nth_error
    (siteMaterialLogs
       (after (rt := Sample.rt)
              [ EditMaterials (map (fun m => Material.mk (Material.MaterialID m)
                                                (Material.MaterialName m)
                                                (Material.Unit m) 999));
                Invoke (CallAddDailyMaterial Sample.materialNoSite);
                Invoke (CallUpdateWorkerSalary (SalaryUpdate.mk "swl-2" 950 true)) ]
              Sample.worldNoSite))
    1
  = Some Sample.materialLogNoSite /\
  SiteMaterialLog.TotalCost Sample.materialLogNoSite = 1000 /\
  SiteMaterialLog.TotalCost Sample.materialLogNoSite
  = DailyMaterialData.QuantityUsed Sample.materialNoSite
    * DailyMaterialData.DefaultValue Sample.materialNoSite.
Proof.
  destruct (@addDailyMaterial_totalCost Sample.rt Sample.world0 Sample.materialNoSite)
    as (entry & w1 & E & _ & _ & Hcost & _ & _ & Hkeep).
  vm_compute in E. injection E as <- <-.
  split; [apply Hkeep|]. split; [reflexivity|].
  apply Hcost. vm_compute. discriminate.
Defined.

(** 94906267 units at 94906267: the product is 9007199515875289, the entry
    carries 9007199515875288. *)
Lemma addDailyMaterial_totalCost_counterexample :
  exists entry w1,
    addDailyMaterial (rt := Sample.rt) Cases.squareEntry Sample.world0
    = (Ok entry, w1) /\
    SiteMaterialLog.QuantityUsed entry = 94906267 /\
    SiteMaterialLog.DefaultValue entry = 94906267 /\
    SiteMaterialLog.TotalCost entry = 9007199515875288 /\
    SiteMaterialLog.TotalCost entry
    <> SiteMaterialLog.QuantityUsed entry * SiteMaterialLog.DefaultValue entry.
Proof.
  do 2 eexists. split; [vm_compute; reflexivity|].
  repeat split. vm_compute. discriminate.
Qed.

Lemma getTodayWorkers_exact_witness :
  NoDup (map Site.SiteID (sites Sample.worldOffline)) /\
  In Sample.offlineLog (siteWorkerLogs Sample.worldOffline) /\
  SiteWorkerLog.Date Sample.offlineLog
  = getTodayDateString (rt := Sample.rt) Sample.loadTime /\
  exists r,
    getTodayWorkers (rt := Sample.rt) Sample.loadTime Sample.worldOffline
    = (Ok r, Sample.worldOffline) /\
    List.length r = 2%nat /\
    ~ In Sample.offlineLog (map TodayWorker.toLog r).
Proof.
  assert (Hnd : NoDup (map Site.SiteID (sites Sample.worldOffline)))
    by exact sample_site_ids.
  split; [exact Hnd|].
  split; [right; right; left; reflexivity|].
  split; [reflexivity|].
  destruct (@getTodayWorkers_exact Sample.rt Sample.worldOffline Sample.loadTime)
    as (r & Hr & Hlogs & _ & Hnever).
  exists r. split; [exact Hr|]. split.
  - apply (f_equal (@List.length _)) in Hlogs. rewrite length_map in Hlogs.
    rewrite Hlogs. reflexivity.
  - apply (Hnever Hnd Sample.offlineLog Sample.site3).
    + right; right; left; reflexivity.
    + reflexivity.
    + reflexivity.
Defined.

Lemma getTodayWorkers_live_wage_witness :
  NoDup (map Worker.WorkerID Sample.master') /\
  In Sample.worker1' Sample.master' /\
  exists r',
    getTodayWorkers (rt := Sample.rt) Sample.loadTime
                    (set_workers Sample.master' Sample.world0)
    = (Ok r', set_workers Sample.master' Sample.world0) /\
    map TodayWorker.WorkerName r' = ["Ramesh Kumar"; "Suresh Singh"] /\
    forall e', In e' r' -> TodayWorker.WorkerID e' = "w-1" ->
               TodayWorker.DefaultDailyWage e' = 900.
Proof.
  assert (Hnd : NoDup (map Worker.WorkerID Sample.master')).
  { repeat constructor; simpl; intuition discriminate. }
  assert (Hin : In Sample.worker1' Sample.master') by (left; reflexivity).
  split; [exact Hnd|]. split; [exact Hin|].
  destruct (@getTodayWorkers_live_wage Sample.rt Sample.world0 Sample.loadTime)
    as (r & Hr & _ & Hmaster).
  destruct (Hmaster Sample.master') as (r' & Hr' & _ & Hnames & Hwage).
  exists r'. split; [exact Hr'|]. split.
  - rewrite Hnames. vm_compute in Hr. injection Hr as <-. reflexivity.
  - intros e' He' Hid.
    apply (Hwage e' Sample.worker1' He' Hnd Hin). now rewrite Hid.
Defined.

Lemma updateSiteStatus_spec_witness :
  (forall s, In s (sites Sample.world0) -> Site.SiteID s <> "s-9") /\
  In Sample.site3 (sites Sample.world0) /\
  updateSiteStatus "s-9" Offline Sample.world0
  = (Throw (mkError "Site not found"), Sample.world0) /\
  exists w',
    updateSiteStatus "s-3" Online Sample.world0 = (Ok (mkSuccess true), w') /\
    map Site.Status (sites w') = [Online; Online; Online].
Proof.
  assert (Hno : forall s, In s (sites Sample.world0) -> Site.SiteID s <> "s-9").
  { intros s [<- | [<- | [<- | []]]]; discriminate. }
  assert (Hin : In Sample.site3 (sites Sample.world0))
    by (right; right; left; reflexivity).
  destruct (updateSiteStatus_spec Sample.world0 "s-9" Offline) as (Hunknown & _).
  destruct (updateSiteStatus_spec Sample.world0 "s-3" Online) as (_ & Hknown).
  destruct (Hknown Sample.site3 Hin eq_refl)
    as (pre & s0 & post & _ & _ & _ & Hsame & Hupd & _).
  rewrite (Hsame sample_site_ids) in Hupd.
  split; [exact Hno|]. split; [exact Hin|]. split; [exact (Hunknown Hno)|].
  eexists. split; [exact Hupd|].
  replace (set_sites (pre ++ Site.set_Status Online Sample.site3 :: post)
                     Sample.world0)
    with (snd (updateSiteStatus "s-3" Online Sample.world0))
    by (rewrite Hupd; reflexivity).
  reflexivity.
Defined.

Lemma addDailyWorker_spec_witness :
  DailyWorkerData.newWorker Sample.entryNoWorker = None /\
  DailyWorkerData.newWorker Sample.entryNewWorker
  = Some (WorkerData.mk "Anil Rao" None 700) /\
  randomUUID (JsRuntime := Sample.rt) (uuidCount Sample.world0) <> "" /\
  fst (addDailyWorker (rt := Sample.rt) Sample.entryNoWorker Sample.world0)
  = Throw (mkError "Worker ID is missing") /\
  exists worker log w',
    addDailyWorker (rt := Sample.rt) Sample.entryNewWorker Sample.world0
    = (Ok (mkDailyWorkerResult log (Some worker)), w') /\
    List.length (workers w') = 4%nat /\
    List.length (siteWorkerLogs w') = 3%nat /\
    SiteWorkerLog.WorkerID log = IsoRuntime.uuid 0 /\
    SiteWorkerLog.SalaryPaid log = 0.
Proof.
  assert (Huuid : randomUUID (JsRuntime := Sample.rt) (uuidCount Sample.world0) <> "")
    by discriminate.
  destruct (@addDailyWorker_spec Sample.rt Sample.world0 Sample.entryNoWorker)
    as (Hmissing & _).
  destruct (@addDailyWorker_spec Sample.rt Sample.world0 Sample.entryNewWorker)
    as (_ & Hnew).
  destruct (Hmissing (or_introl eq_refl) eq_refl) as (w0 & E0 & _).
  destruct (Hnew _ eq_refl Huuid)
    as (worker & log & w' & E & Hworker & Hworkers & Hlog & Hlogs & Hid & Hpaid & _).
  split; [reflexivity|]. split; [reflexivity|]. split; [exact Huuid|].
  split; [now rewrite E0|].
  exists worker, log, w'. split; [exact E|].
  rewrite Hworkers, Hlogs, Hid, Hpaid, Hworker, !length_app.
  repeat split.
Defined.

Lemma addDailyLog_spec_witness :
  ~ In (randomUUID (JsRuntime := Sample.rt) (uuidCount Sample.world0))
       (map DailyLog.LogID (dailyLogs Sample.world0)) /\
  (forall s, In s (sites Sample.world0) ->
             Site.SiteID s <> DailyLogData.SiteID Sample.logNoSite) /\
  exists entry w',
    addDailyLog (rt := Sample.rt) Sample.logNoSite Sample.world0 = (Ok entry, w') /\
    List.length (dailyLogs w') = 2%nat /\
    DailyLog.SiteID entry = "s-404" /\
    forall l, In l (dailyLogs Sample.world0) ->
              DailyLog.LogID l <> DailyLog.LogID entry.
Proof.
  assert (Hfresh : ~ In (randomUUID (JsRuntime := Sample.rt) (uuidCount Sample.world0))
                        (map DailyLog.LogID (dailyLogs Sample.world0))).
  { intros [H | []]. discriminate. }
  split; [exact Hfresh|]. split.
  { intros s [<- | [<- | [<- | []]]]; discriminate. }
  destruct (@addDailyLog_spec Sample.rt Sample.world0 Sample.logNoSite)
    as (E & _ & Hlen & _ & _ & Hnew).
  do 2 eexists. split; [exact E|]. split; [exact Hlen|].
  split; [reflexivity|]. exact (Hnew Hfresh).
Defined.

Lemma uploadFile_unknown_type_witness :
  In Sample.site1 (sites Sample.world0) /\
  "invoice" <> "agreement" /\ "invoice" <> "plan" /\ "invoice" <> "gallery" /\
  exists w',
    uploadFile (rt := Sample.rt) Sample.loadTime (FileData.mk "invoice.pdf")
               "s-1" "invoice" "March invoice" Sample.world0
    = (Ok (mkSuccess true), w') /\
    store w' = store Sample.world0.
Proof.
  assert (Hin : In Sample.site1 (sites Sample.world0)) by (left; reflexivity).
  assert (Ha : "invoice" <> "agreement") by discriminate.
  assert (Hp : "invoice" <> "plan") by discriminate.
  assert (Hg : "invoice" <> "gallery") by discriminate.
  destruct (@uploadFile_unknown_type Sample.rt Sample.world0 Sample.loadTime
              (FileData.mk "invoice.pdf") "s-1" "invoice" "March invoice"
              Sample.site1 Hin eq_refl Ha Hp Hg)
    as (w' & E & Hstore & _).
  repeat (split; [assumption|]).
  exists w'. split; assumption.
Defined.

Lemma getOverallMaterialsLog_unknown_site_witness :
  In Sample.materialLogNoSite (siteMaterialLogs Sample.worldNoSite) /\
  (forall s, In s (sites Sample.worldNoSite) -> Site.SiteID s <> "s-404") /\
  (exists r e,
     getOverallMaterialsLog (rt := Sample.rt) Sample.worldNoSite
     = (Ok r, Sample.worldNoSite) /\
     List.length r = 2%nat /\
     In e r /\
     OverallMaterialLog.toLog e = Sample.materialLogNoSite /\
     OverallMaterialLog.SiteName e = "Unknown Site") /\
  (exists log w1 r1 e,
     addDailyMaterial (rt := Sample.rt) Sample.materialNoSite Sample.world0
     = (Ok log, w1) /\
     getOverallMaterialsLog (rt := Sample.rt) w1 = (Ok r1, w1) /\
     In e r1 /\ OverallMaterialLog.toLog e = log /\
     OverallMaterialLog.SiteName e = "Unknown Site").
Proof.
  assert (Hin : In Sample.materialLogNoSite (siteMaterialLogs Sample.worldNoSite))
    by (right; left; reflexivity).
  assert (Hno : forall s, In s (sites Sample.world0) -> Site.SiteID s <> "s-404").
  { intros s [<- | [<- | [<- | []]]]; discriminate. }
  split; [exact Hin|]. split; [exact Hno|].
  destruct (@getOverallMaterialsLog_unknown_site Sample.rt Sample.worldNoSite)
    as (r & E & Hlen & Hunknown & _).
  destruct (@getOverallMaterialsLog_unknown_site Sample.rt Sample.world0)
    as (_ & _ & _ & _ & Hproduce).
  destruct (Hunknown Sample.materialLogNoSite Hin Hno) as (e & He & Hlog & Hname).
  split.
  - exists r, e. repeat split; assumption.
  - exact (Hproduce Sample.materialNoSite Hno).
Defined.

Lemma getProfileDashboardData_spec_witness :
  map SiteWorkerLog.Date (siteWorkerLogs Cases.worldMonths)
  = ["2023-10-26"; "2023-10-26"; "2023-10-02"] /\
  map SiteMaterialLog.Date (siteMaterialLogs Cases.worldMonths)
  = ["2023-10-26"; "2023-10-05"; "2023-11-02"; "2022-10-26"; "next week"] /\
  (forall dateString,
     In dateString (map SiteWorkerLog.Date (siteWorkerLogs Cases.worldMonths)
                    ++ map SiteMaterialLog.Date (siteMaterialLogs Cases.worldMonths)) ->
     (Cases.october2023 dateString = true
      <-> sameMonthYear (rt := Sample.rt) Sample.loadTime dateString)) /\
  exists d,
    getProfileDashboardData (rt := Sample.rt) Sample.loadTime Cases.worldMonths
    = (Ok d, Cases.worldMonths) /\
    DashboardData.onlineSites d = 2 /\
    DashboardData.offlineSites d = 1 /\
    DashboardData.todayWorkers d = 2 /\
    DashboardData.todayMaterials d = 1 /\
    DashboardData.todayExpense d = 800 + 950 + 22500 /\
    DashboardData.monthExpense d = (800 + 950 + 750) + (22500 + 1000).
Proof.
  assert (Hm : forall dateString,
            In dateString
               (map SiteWorkerLog.Date (siteWorkerLogs Cases.worldMonths)
                ++ map SiteMaterialLog.Date (siteMaterialLogs Cases.worldMonths)) ->
            (Cases.october2023 dateString = true
             <-> sameMonthYear (rt := Sample.rt) Sample.loadTime dateString)).
  { intros dateString H. rewrite <- inCurrentMonth_iff. vm_compute in H.
    destruct H as [<- | [<- | [<- | [<- | [<- | [<- | [<- | [<- | []]]]]]]]];
      vm_compute; split; intros E; exact E. }
  split; [reflexivity|]. split; [reflexivity|]. split; [exact Hm|].
  destruct (@getProfileDashboardData_spec Sample.rt Cases.worldMonths Sample.loadTime
              Cases.october2023 Hm)
    as (d & Hd & Hon & Hoff & Hw & Hmat & Hday & Hmonth & _).
  exists d. split; [exact Hd|].
  split; [rewrite Hon; reflexivity|]. split; [rewrite Hoff; reflexivity|].
  split; [rewrite Hw; reflexivity|]. split; [rewrite Hmat; reflexivity|].
  split.
  - rewrite Hday by safe_range. reflexivity.
  - rewrite Hmonth by safe_range. reflexivity.
Defined.

(** The salaries of the day are 2^53, 0, 1 and 1, its costs 22500 and 1, all
    in the month of the call: the amounts add up to 2^53 + 22503, the code
    returns 2^53 + 22500 for the day and for the month. *)
Lemma getProfileDashboardData_spec_counterexample :
  exists d,
    getProfileDashboardData (rt := Sample.rt) Sample.loadTime Cases.worldLarge
    = (Ok d, Cases.worldLarge) /\
    let today := fun dateString => String.eqb dateString "2023-10-26" in
    let salaries :=
      map SiteWorkerLog.SalaryPaid
          (filter (fun l => today (SiteWorkerLog.Date l))
                  (siteWorkerLogs Cases.worldLarge)) in
    let costs :=
      map SiteMaterialLog.TotalCost
          (filter (fun l => today (SiteMaterialLog.Date l))
                  (siteMaterialLogs Cases.worldLarge)) in
    getTodayDateString (rt := Sample.rt) Sample.loadTime = "2023-10-26" /\
    salaries = [9007199254740992; 0; 1; 1] /\
    costs = [22500; 1] /\
    map SiteWorkerLog.SalaryPaid (siteWorkerLogs Cases.worldLarge) = salaries /\
    map SiteMaterialLog.TotalCost (siteMaterialLogs Cases.worldLarge) = costs /\
    DashboardData.todayExpense d = 9007199254763492 /\
    DashboardData.monthExpense d = 9007199254763492 /\
    Zsum salaries + Zsum costs = 9007199254763495 /\
    DashboardData.todayExpense d <> Zsum salaries + Zsum costs /\
    DashboardData.monthExpense d <> Zsum salaries + Zsum costs.
Proof.
  eexists. split; [vm_compute; reflexivity|].
  cbv zeta. do 8 (split; [vm_compute; reflexivity|]).
  split; vm_compute; discriminate.
Qed.

(** The scenario of the specification: after the four calls, the details of
    site A show the expenses 1500 = 500 + 1000. *)
Example scenario_expenses :
  option_map SiteDetailsData.expenses
    (match fst (getSiteDetails (rt := Sample.rt) (IsoRuntime.uuid 0)
                  (run (rt := Sample.rt) Sample.scenario Sample.world0)) with
     | Ok d => Some d
     | Throw _ => None
     end)
  = Some (Expenses.mk 1500 500 1000).
Proof. reflexivity. Qed.

(** The dashboard of the mock database on the day it is loaded: two sites
    Online, one Offline. *)
Example dashboard_sample :
  fst (getProfileDashboardData (rt := Sample.rt) Sample.loadTime Sample.world0)
  = Ok (DashboardData.mk 2 1 2 1 23300 23300).
Proof. reflexivity. Qed.

(** With the sort of the sample runtime and dates that can all be read, the
    newer log comes first and logs of one date stay in the order of the
    store. *)
Example sort_sample :
  map DailyLog.LogID
    (Array_sort (JsRuntime := Sample.rt) (byDateDesc (rt := Sample.rt) DailyLog.Date)
       [ DailyLog.mk "a" "s-1" "2023-10-26" "";
         DailyLog.mk "b" "s-1" "2023-11-02" "";
         DailyLog.mk "c" "s-1" "2023-10-26" "";
         DailyLog.mk "d" "s-1" "2024-01-15" "" ])
  = ["d"; "b"; "a"; "c"].
Proof. reflexivity. Qed.

(** * Further properties of the API *)

(** ** More facts about the array helpers *)

Lemma extends_refl {A} (l : list A) : extends l l.
Proof. exists []. now rewrite app_nil_r. Qed.

Lemma extends_push {A} (l : list A) (x : A) : extends l (push x l).
Proof. now exists [x]. Qed.

Lemma extends_trans {A} (l1 l2 l3 : list A) :
  extends l1 l2 -> extends l2 l3 -> extends l1 l3.
Proof.
  intros (r1 & ->) (r2 & ->). exists (r1 ++ r2). now rewrite app_assoc.
Qed.

Lemma extends_nth_error {A} (l l' : list A) (i : nat) (x : A) :
  extends l l' -> nth_error l i = Some x -> nth_error l' i = Some x.
Proof.
  intros (rest & ->) H. rewrite nth_error_app1; [exact H|].
  apply nth_error_Some. congruence.
Qed.

Lemma updateFirst_map {A B} (p : A -> bool) (f : A -> A) (g : A -> B) (l : list A) :
  (forall x, g (f x) = g x) -> map g (updateFirst p f l) = map g l.
Proof.
  intros H. induction l as [|x r IH]; simpl; [reflexivity|].
  destruct (p x); simpl; congruence.
Qed.

Lemma updateFirst_absent {A} (p : A -> bool) (f : A -> A) (l : list A) :
  find p l = None -> updateFirst p f l = l.
Proof.
  induction l as [|x r IH]; simpl; [reflexivity|].
  destruct (p x); [discriminate|]. intros H. now rewrite IH.
Qed.

(** A lookup by a key that the update keeps sees the updated element where
    it saw the old one. *)
Lemma find_updateFirst {A} (p q : A -> bool) (f : A -> A) (l : list A) :
  (forall x, q (f x) = q x) ->
  (find q (updateFirst p f l) = find q l /\ find q l = None) \/
  (exists x, find q l = Some x /\
             (find q (updateFirst p f l) = Some x \/
              find q (updateFirst p f l) = Some (f x))).
Proof.
  intros Hq. induction l as [|x r IH]; simpl; [now left|].
  destruct (p x) eqn:Px; simpl.
  - rewrite Hq. destruct (q x); [right; exists x; auto|].
    destruct (find q r) as [y|]; [right; exists y; auto | now left].
  - destruct (q x); [right; exists x; auto | exact IH].
Qed.

Section SortFacts.
Context {rt : JsRuntime} {A : Type} (date : A -> string).

(** On dates that can all be read the comparator of the code is a
    consistent one: its sign is that of the difference of the ranks. *)
Lemma byDateDesc_ranked (l : list A) :
  allDated date l -> ranked (dateRank date) (byDateDesc date) l.
Proof.
  intros Hd a b Ha Hb. unfold byDateDesc, dateRank, timeOf.
  destruct (Date_parse (date a)) as [ta|] eqn:Ea; [|now destruct (Hd a Ha)].
  destruct (Date_parse (date b)) as [tb|] eqn:Eb; [|now destruct (Hd b Hb)].
  exists (jsSub tb ta). split; [reflexivity|].
  unfold jsSub. rewrite roundDouble_sgn. f_equal. lia.
Qed.

Lemma allDated_sorted (l : list A) :
  allDated date l -> allDated date (Array_sort (byDateDesc date) l).
Proof. intros Hd x Hx. apply Hd. now apply Array_sort_In in Hx. Qed.

Lemma datedAt_ofRank (t : Z) (l : list A) :
  allDated date l -> datedAt date t l = ofRank (dateRank date) (- t) l.
Proof.
  intros Hd. unfold datedAt, ofRank. apply filter_ext_in. intros x Hx.
  unfold dateRank, timeOf.
  destruct (Date_parse (date x)) as [tx|] eqn:Ex; [|now destruct (Hd x Hx)].
  destruct (Z.eqb_spec tx t), (Z.eqb_spec (- tx) (- t)); auto; lia.
Qed.

Lemma sort_datedAt (t : Z) (l : list A) :
  allDated date l ->
  datedAt date t (Array_sort (byDateDesc date) l) = datedAt date t l.
Proof.
  intros Hd.
  rewrite !datedAt_ofRank by (try apply allDated_sorted; exact Hd).
  now destruct (Array_sort_ranked (byDateDesc_ranked Hd)) as [_ ->].
Qed.

Lemma ascending_newestFirst (l : list A) :
  allDated date l -> ascending (dateRank date) l -> newestFirst date l.
Proof.
  unfold ascending, newestFirst. intros Hd Hs.
  induction Hs as [|a r Hr IH Ha]; constructor.
  - apply IH. intros x Hx. apply Hd. now right.
  - rewrite Forall_forall in Ha |- *. intros b Hb. specialize (Ha b Hb).
    unfold dateRank, timeOf, notOlder in *.
    destruct (Date_parse (date a)) as [ta|] eqn:Ea;
      [|now destruct (Hd a (or_introl eq_refl))].
    destruct (Date_parse (date b)) as [tb|] eqn:Eb;
      [|now destruct (Hd b (or_intror Hb))].
    exists ta, tb. repeat split; lia.
Qed.

Lemma sort_newestFirst (l : list A) :
  allDated date l -> newestFirst date (Array_sort (byDateDesc date) l).
Proof.
  intros Hd. apply ascending_newestFirst; [now apply allDated_sorted|].
  now destruct (Array_sort_ranked (byDateDesc_ranked Hd)) as [H _].
Qed.

End SortFacts.

Section MoreProperties.
Context {rt : JsRuntime}.

(** ** Site details, continued *)

Lemma getSiteDetails_inv (w w' : World) (siteId : string) (d : SiteDetailsData.t) :
  getSiteDetails siteId w = (Ok d, w') ->
  w' = w /\
  find (siteHasId siteId) (sites w) = Some (SiteDetailsData.site d) /\
  SiteDetailsData.logs d =
    Array_sort (byDateDesc DailyLog.Date)
         (filter (fun l => String.eqb (DailyLog.SiteID l) siteId) (dailyLogs w)) /\
  SiteDetailsData.workerLogs d =
    Array_sort (byDateDesc SiteWorkerLog.Date)
         (filter (fun l => String.eqb (SiteWorkerLog.SiteID l) siteId)
                 (siteWorkerLogs w)) /\
  SiteDetailsData.materialLogs d =
    Array_sort (byDateDesc SiteMaterialLog.Date)
         (filter (fun l => String.eqb (SiteMaterialLog.SiteID l) siteId)
                 (siteMaterialLogs w)) /\
  SiteDetailsData.gallery d =
    Array_sort (byDateDesc GalleryImage.DateUploaded)
         (filter (fun g => String.eqb (GalleryImage.SiteID g) siteId)
                 (galleryImages w)) /\
  SiteDetailsData.expenses d =
    (let workerExpense :=
       jsSum (map SiteWorkerLog.SalaryPaid (SiteDetailsData.workerLogs d)) in
     let materialExpense :=
       jsSum (map SiteMaterialLog.TotalCost (SiteDetailsData.materialLogs d)) in
     Expenses.mk (jsAdd workerExpense materialExpense)
                 workerExpense materialExpense).
Proof.
  unfold getSiteDetails, bind, gets, ret, throw.
  destruct (find (siteHasId siteId) (sites w)) as [s0|]; [|discriminate].
  intros H. injection H as <- <-. cbn.
  rewrite !reduceSum_jsSum. repeat split.
Qed.

Lemma getSiteDetails_found (w : World) (siteId : string) (s0 : Site.t) :
  find (siteHasId siteId) (sites w) = Some s0 ->
  exists d, getSiteDetails siteId w = (Ok d, w) /\ SiteDetailsData.site d = s0.
Proof.
  intros H. unfold getSiteDetails, bind, gets, ret. rewrite H.
  eexists. split; reflexivity.
Qed.

(** X1. [getSiteDetails] never writes.  When it returns, the site of the
    result is a site of the store that has the ID asked for, the first such
    one; it throws exactly when no site has that ID, and then the error is
    "Site not found". *)
Theorem getSiteDetails_outcome (w : World) (siteId : string) :
  (forall d w', getSiteDetails siteId w = (Ok d, w') ->
     w' = w /\
     In (SiteDetailsData.site d) (sites w) /\
     Site.SiteID (SiteDetailsData.site d) = siteId /\
     exists pre post,
       sites w = pre ++ SiteDetailsData.site d :: post /\
       forall s, In s pre -> Site.SiteID s <> siteId) /\
  (forall e w', getSiteDetails siteId w = (Throw e, w') ->
     w' = w /\ e = mkError "Site not found" /\
     forall s, In s (sites w) -> Site.SiteID s <> siteId) /\
  ((forall s, In s (sites w) -> Site.SiteID s <> siteId) ->
   getSiteDetails siteId w = (Throw (mkError "Site not found"), w)).
Proof.
  split; [|split].
  - intros d w' H. apply getSiteDetails_inv in H.
    destruct H as (-> & Hfind & _). split; [reflexivity|].
    destruct (find_some _ _ Hfind) as (Hin & Hid).
    apply String.eqb_eq in Hid. repeat split; auto.
    destruct (updateFirst_split (siteHasId siteId) (fun s => s) (sites w) Hfind)
      as (pre & post & Hsplit & Hpre & _).
    exists pre, post. split; [exact Hsplit|].
    intros s Hs. apply String.eqb_neq. now apply Hpre.
  - intros e w'. unfold getSiteDetails, bind, gets, ret, throw.
    destruct (find (siteHasId siteId) (sites w)) as [s0|] eqn:Hfind;
      [discriminate|].
    intros H. injection H as <- <-. repeat split.
    intros s Hs. apply String.eqb_neq. exact (find_none _ _ Hfind s Hs).
  - intros H. unfold getSiteDetails, bind, gets. now rewrite find_no_site.
Qed.

(** X2. The four lists that [getSiteDetails] returns hold exactly the
    entries of the store that carry the site ID asked for, each as often as
    the store holds it: nothing is dropped, nothing of another site is
    shown. *)
Theorem getSiteDetails_lists (w w' : World) (siteId : string)
        (d : SiteDetailsData.t) :
  getSiteDetails siteId w = (Ok d, w') ->
  Permutation (SiteDetailsData.logs d)
    (filter (fun l => String.eqb (DailyLog.SiteID l) siteId) (dailyLogs w)) /\
  Permutation (SiteDetailsData.workerLogs d)
    (filter (fun l => String.eqb (SiteWorkerLog.SiteID l) siteId)
            (siteWorkerLogs w)) /\
  Permutation (SiteDetailsData.materialLogs d)
    (filter (fun l => String.eqb (SiteMaterialLog.SiteID l) siteId)
            (siteMaterialLogs w)) /\
  Permutation (SiteDetailsData.gallery d)
    (filter (fun g => String.eqb (GalleryImage.SiteID g) siteId)
            (galleryImages w)) /\
  (forall l, In l (SiteDetailsData.logs d) <->
             In l (dailyLogs w) /\ DailyLog.SiteID l = siteId) /\
  (forall l, In l (SiteDetailsData.workerLogs d) <->
             In l (siteWorkerLogs w) /\ SiteWorkerLog.SiteID l = siteId) /\
  (forall l, In l (SiteDetailsData.materialLogs d) <->
             In l (siteMaterialLogs w) /\ SiteMaterialLog.SiteID l = siteId) /\
  (forall g, In g (SiteDetailsData.gallery d) <->
             In g (galleryImages w) /\ GalleryImage.SiteID g = siteId).
Proof.
  intros H. apply getSiteDetails_inv in H.
  destruct H as (_ & _ & -> & -> & -> & -> & _).
  repeat (split; [apply Array_sort_perm|]).
  split; [|split; [|split]]; intros x;
    rewrite Array_sort_In, filter_In, String.eqb_eq; tauto.
Qed.

(** X3. In what [getSiteDetails] returns, a list all of whose dates can be
    read is in date order, newest first, and its entries of one date stand
    in the order in which the store holds them.  (With a date that cannot be
    read the comparator answers [NaN] and the order is the engine's.) *)
Theorem getSiteDetails_newest_first (w w' : World) (siteId : string)
        (d : SiteDetailsData.t) :
  getSiteDetails siteId w = (Ok d, w') ->
  (allDated DailyLog.Date (SiteDetailsData.logs d) ->
   newestFirst DailyLog.Date (SiteDetailsData.logs d) /\
   forall t,
     datedAt DailyLog.Date t (SiteDetailsData.logs d)
     = datedAt DailyLog.Date t
         (filter (fun l => String.eqb (DailyLog.SiteID l) siteId) (dailyLogs w))) /\
  (allDated SiteWorkerLog.Date (SiteDetailsData.workerLogs d) ->
   newestFirst SiteWorkerLog.Date (SiteDetailsData.workerLogs d) /\
   forall t,
     datedAt SiteWorkerLog.Date t (SiteDetailsData.workerLogs d)
     = datedAt SiteWorkerLog.Date t
         (filter (fun l => String.eqb (SiteWorkerLog.SiteID l) siteId)
                 (siteWorkerLogs w))) /\
  (allDated SiteMaterialLog.Date (SiteDetailsData.materialLogs d) ->
   newestFirst SiteMaterialLog.Date (SiteDetailsData.materialLogs d) /\
   forall t,
     datedAt SiteMaterialLog.Date t (SiteDetailsData.materialLogs d)
     = datedAt SiteMaterialLog.Date t
         (filter (fun l => String.eqb (SiteMaterialLog.SiteID l) siteId)
                 (siteMaterialLogs w))) /\
  (allDated GalleryImage.DateUploaded (SiteDetailsData.gallery d) ->
   newestFirst GalleryImage.DateUploaded (SiteDetailsData.gallery d) /\
   forall t,
     datedAt GalleryImage.DateUploaded t (SiteDetailsData.gallery d)
     = datedAt GalleryImage.DateUploaded t
         (filter (fun g => String.eqb (GalleryImage.SiteID g) siteId)
                 (galleryImages w))).
Proof.
  intros H. apply getSiteDetails_inv in H.
  destruct H as (_ & _ & -> & -> & -> & -> & _).
  assert (Hstore : forall A (date : A -> string) (l : list A),
             allDated date (Array_sort (byDateDesc date) l) -> allDated date l).
  { intros A date l Hd x Hx. apply Hd. now apply Array_sort_In. }
  split; [|split; [|split]]; intros Hd; apply Hstore in Hd;
    (split; [now apply sort_newestFirst | intros t; now apply sort_datedAt]).
Qed.

(** The breakdown of a site whose amounts are within the safe range. *)
Lemma getSiteDetails_expenses_of (w : World) (siteId : string) (s : Site.t) :
  In s (sites w) -> Site.SiteID s = siteId ->
  let salaries :=
    map SiteWorkerLog.SalaryPaid
        (filter (fun l => String.eqb (SiteWorkerLog.SiteID l) siteId)
                (siteWorkerLogs w)) in
  let costs :=
    map SiteMaterialLog.TotalCost
        (filter (fun l => String.eqb (SiteMaterialLog.SiteID l) siteId)
                (siteMaterialLogs w)) in
  safeAmounts (salaries ++ costs) ->
  exists d,
    getSiteDetails siteId w = (Ok d, w) /\
    SiteDetailsData.expenses d =
      Expenses.mk (Zsum salaries + Zsum costs) (Zsum salaries) (Zsum costs).
Proof.
  intros Hin Hid salaries costs Hsafe.
  destruct (find_site w s Hin Hid) as (s0 & Hfind & _).
  destruct (getSiteDetails_found w siteId Hfind) as (d & Hd & _).
  exists d. split; [exact Hd|].
  destruct (getSiteDetails_inv w siteId Hd) as (_ & _ & _ & Hwl & Hml & _ & ->).
  destruct (safeAmounts_app _ _ Hsafe) as [Hs Hc].
  rewrite Hwl, Hml, <- !reduceSum_jsSum, !reduceSum_sorted by assumption.
  cbv zeta. fold salaries costs. f_equal.
  unfold jsAdd. apply roundDouble_exact.
  unfold safeAmounts in Hsafe. rewrite map_app, Zsum_app in Hsafe.
  pose proof (Zsum_abs_bound salaries). pose proof (Zsum_abs_bound costs). lia.
Qed.

(** The details of a site read its own entries only. *)
Lemma getSiteDetails_same (w w' : World) (siteId : string)
      (d d' : SiteDetailsData.t) :
  sites w' = sites w -> dailyLogs w' = dailyLogs w ->
  filter (fun l => String.eqb (SiteWorkerLog.SiteID l) siteId) (siteWorkerLogs w')
  = filter (fun l => String.eqb (SiteWorkerLog.SiteID l) siteId) (siteWorkerLogs w) ->
  filter (fun l => String.eqb (SiteMaterialLog.SiteID l) siteId) (siteMaterialLogs w')
  = filter (fun l => String.eqb (SiteMaterialLog.SiteID l) siteId)
           (siteMaterialLogs w) ->
  galleryImages w' = galleryImages w ->
  getSiteDetails siteId w = (Ok d, w) -> getSiteDetails siteId w' = (Ok d', w') ->
  d' = d.
Proof.
  intros Hs Hl Hw Hm Hg. unfold getSiteDetails, bind, gets, ret, throw.
  cbv beta iota. rewrite Hs.
  destruct (find (siteHasId siteId) (sites w)); [|discriminate].
  cbv beta iota. rewrite Hl, Hw, Hm, Hg.
  intros H H'. injection H as <-. now injection H' as <-.
Qed.

(** The material expense depends on the material logs of the site only. *)
Lemma materialExpense_same (w w' : World) (siteId : string)
      (d d' : SiteDetailsData.t) :
  filter (fun l => String.eqb (SiteMaterialLog.SiteID l) siteId) (siteMaterialLogs w')
  = filter (fun l => String.eqb (SiteMaterialLog.SiteID l) siteId)
           (siteMaterialLogs w) ->
  getSiteDetails siteId w = (Ok d, w) -> getSiteDetails siteId w' = (Ok d', w') ->
  Expenses.materialExpense (SiteDetailsData.expenses d')
  = Expenses.materialExpense (SiteDetailsData.expenses d).
Proof.
  intros Hm H H'.
  destruct (getSiteDetails_inv w siteId H) as (_ & _ & _ & _ & Hml & _ & ->).
  destruct (getSiteDetails_inv w' siteId H') as (_ & _ & _ & _ & Hml' & _ & ->).
  cbn. now rewrite Hml, Hml', Hm.
Qed.

(** The worker expense depends on the worker logs of the site only. *)
Lemma workerExpense_same (w w' : World) (siteId : string)
      (d d' : SiteDetailsData.t) :
  filter (fun l => String.eqb (SiteWorkerLog.SiteID l) siteId) (siteWorkerLogs w')
  = filter (fun l => String.eqb (SiteWorkerLog.SiteID l) siteId) (siteWorkerLogs w) ->
  getSiteDetails siteId w = (Ok d, w) -> getSiteDetails siteId w' = (Ok d', w') ->
  Expenses.workerExpense (SiteDetailsData.expenses d')
  = Expenses.workerExpense (SiteDetailsData.expenses d).
Proof.
  intros Hm H H'.
  destruct (getSiteDetails_inv w siteId H) as (_ & _ & _ & Hwl & _ & _ & ->).
  destruct (getSiteDetails_inv w' siteId H') as (_ & _ & _ & Hwl' & _ & _ & ->).
  cbn. now rewrite Hwl, Hwl', Hm.
Qed.

(** The total follows from the two other figures. *)
Lemma expenses_same (w w' : World) (siteId siteId' : string)
      (d d' : SiteDetailsData.t) :
  getSiteDetails siteId w = (Ok d, w) -> getSiteDetails siteId' w' = (Ok d', w') ->
  Expenses.workerExpense (SiteDetailsData.expenses d')
  = Expenses.workerExpense (SiteDetailsData.expenses d) ->
  Expenses.materialExpense (SiteDetailsData.expenses d')
  = Expenses.materialExpense (SiteDetailsData.expenses d) ->
  SiteDetailsData.expenses d' = SiteDetailsData.expenses d.
Proof.
  intros H H'.
  destruct (getSiteDetails_inv w siteId H) as (_ & _ & _ & _ & _ & _ & ->).
  destruct (getSiteDetails_inv w' siteId' H') as (_ & _ & _ & _ & _ & _ & ->).
  cbn. intros -> ->. reflexivity.
Qed.

(** An entry that carries 0, added to a list all of whose dates can be
    read, leaves the total over the sorted list as it was: the other
    entries keep their order, and adding 0 rounds nothing. *)
Lemma reduceSum_sorted_zero {A} (date : A -> string) (f : A -> Z)
      (l : list A) (x : A) :
  f x = 0 -> allDated date (l ++ [x]) ->
  reduceSum f (Array_sort (byDateDesc date) (l ++ [x]))
  = reduceSum f (Array_sort (byDateDesc date) l).
Proof.
  intros Hx Hd.
  assert (Hd' : allDated date l).
  { intros y Hy. apply Hd. apply in_or_app. now left. }
  assert (Hnz : forall m : list A,
            filter (fun z => negb (z =? 0)) (map f m)
            = map f (filter (fun y => negb (f y =? 0)) m)).
  { induction m as [|y r IH]; simpl; [reflexivity|].
    destruct (negb (f y =? 0)); simpl; now rewrite IH. }
  rewrite !reduceSum_jsSum. unfold jsSum.
  rewrite (fold_jsAdd_nonzero (map f (Array_sort _ (l ++ [x])))) by reflexivity.
  rewrite (fold_jsAdd_nonzero (map f (Array_sort _ l))) by reflexivity.
  rewrite !Hnz.
  rewrite (Array_sort_filter _ (byDateDesc_ranked Hd)).
  rewrite (Array_sort_filter _ (byDateDesc_ranked Hd')).
  rewrite filter_app. simpl. rewrite Hx. simpl. now rewrite app_nil_r.
Qed.

(** ** Payments *)

Lemma find_workerLog (w : World) (logId : string) (l : SiteWorkerLog.t) :
  In l (siteWorkerLogs w) -> SiteWorkerLog.LogID l = logId ->
  exists l0, find (workerLogHasId logId) (siteWorkerLogs w) = Some l0 /\
             In l0 (siteWorkerLogs w) /\ SiteWorkerLog.LogID l0 = logId.
Proof.
  intros Hin Hid.
  destruct (find_present (workerLogHasId logId) (siteWorkerLogs w) l Hin)
    as (l0 & Hf & Hin0 & E).
  - unfold workerLogHasId. now apply String.eqb_eq.
  - exists l0. repeat split; auto. now apply String.eqb_eq.
Qed.

Lemma updateWorkerSalary_found (w : World) (update : SalaryUpdate.t)
      (l0 : SiteWorkerLog.t) :
  find (workerLogHasId (SalaryUpdate.logId update)) (siteWorkerLogs w) = Some l0 ->
  exists pre post,
    siteWorkerLogs w = pre ++ l0 :: post /\
    (forall x, In x pre -> SiteWorkerLog.LogID x <> SalaryUpdate.logId update) /\
    updateWorkerSalary update w =
      (Ok (mkSuccess true),
       set_siteWorkerLogs
         (pre ++ SiteWorkerLog.set_payment (SalaryUpdate.amount update)
                                           (SalaryUpdate.status update) l0 :: post)
         w).
Proof.
  intros Hfind.
  destruct (updateFirst_split (workerLogHasId (SalaryUpdate.logId update))
              (SiteWorkerLog.set_payment (SalaryUpdate.amount update)
                                         (SalaryUpdate.status update))
              (siteWorkerLogs w) Hfind) as (pre & post & Hsplit & Hpre & Hupd).
  exists pre, post. repeat split; auto.
  - intros x Hx. apply String.eqb_neq. now apply Hpre.
  - unfold updateWorkerSalary, bind, gets, modify, ret. rewrite Hfind, Hupd.
    reflexivity.
Qed.

(** X4. [updateWorkerSalary] with a log ID that no worker log has throws
    "Worker log not found" and leaves the world as it was.  With a log ID
    that is present it returns success; the first log with that ID gets the
    given amount and paid flag and keeps its other fields, and nothing else
    in the world changes. *)
Theorem updateWorkerSalary_spec (w : World) (update : SalaryUpdate.t) :
  ((forall l, In l (siteWorkerLogs w) ->
              SiteWorkerLog.LogID l <> SalaryUpdate.logId update) ->
   updateWorkerSalary update w = (Throw (mkError "Worker log not found"), w))
  /\
  (forall l, In l (siteWorkerLogs w) ->
             SiteWorkerLog.LogID l = SalaryUpdate.logId update ->
   exists pre l0 post,
     siteWorkerLogs w = pre ++ l0 :: post /\
     (forall x, In x pre -> SiteWorkerLog.LogID x <> SalaryUpdate.logId update) /\
     SiteWorkerLog.LogID l0 = SalaryUpdate.logId update /\
     (NoDup (map SiteWorkerLog.LogID (siteWorkerLogs w)) -> l0 = l) /\
     updateWorkerSalary update w =
       (Ok (mkSuccess true),
        set_siteWorkerLogs
          (pre ++ SiteWorkerLog.mk (SiteWorkerLog.LogID l0) (SiteWorkerLog.SiteID l0)
                                   (SiteWorkerLog.Date l0) (SiteWorkerLog.WorkerID l0)
                                   (SiteWorkerLog.WorkerName l0)
                                   (SalaryUpdate.amount update)
                                   (SalaryUpdate.status update) :: post)
          w)).
Proof.
  split.
  - intros H. unfold updateWorkerSalary, bind, gets.
    rewrite find_absent; [reflexivity|].
    intros l Hl. apply String.eqb_neq. now apply H.
  - intros l Hin Hid.
    destruct (find_workerLog w l Hin Hid) as (l0 & Hfind & Hin0 & Hid0).
    destruct (updateWorkerSalary_found w update Hfind)
      as (pre & post & Hsplit & Hpre & Hupd).
    exists pre, l0, post. repeat split; auto.
    intros Hnd. apply (NoDup_map_inj SiteWorkerLog.LogID (siteWorkerLogs w)); auto.
    congruence.
Qed.

(** X5. Paying a worker log moves the expenses of its site, and of no other
    site.  After [updateWorkerSalary], [getSiteDetails] of a site that the
    log does not belong to returns what it returned before; for every site
    the material expense is the same.  For the site of the log, while the
    amounts of the site are within the safe range before and after the
    payment, the worker expense and the total are those of before plus the
    new amount minus the amount that the log carried. *)
Theorem updateWorkerSalary_expenses (w : World) (update : SalaryUpdate.t)
        (siteId : string) (s : Site.t) (l0 : SiteWorkerLog.t) :
  In s (sites w) -> Site.SiteID s = siteId ->
  find (workerLogHasId (SalaryUpdate.logId update)) (siteWorkerLogs w) = Some l0 ->
  let amounts := fun v : World =>
    map SiteWorkerLog.SalaryPaid
        (filter (fun l => String.eqb (SiteWorkerLog.SiteID l) siteId)
                (siteWorkerLogs v))
    ++ map SiteMaterialLog.TotalCost
           (filter (fun l => String.eqb (SiteMaterialLog.SiteID l) siteId)
                   (siteMaterialLogs v)) in
  exists d d' w',
    getSiteDetails siteId w = (Ok d, w) /\
    updateWorkerSalary update w = (Ok (mkSuccess true), w') /\
    getSiteDetails siteId w' = (Ok d', w') /\
    Expenses.materialExpense (SiteDetailsData.expenses d')
    = Expenses.materialExpense (SiteDetailsData.expenses d) /\
    (SiteWorkerLog.SiteID l0 <> siteId -> d' = d) /\
    (SiteWorkerLog.SiteID l0 = siteId ->
     safeAmounts (amounts w) -> safeAmounts (amounts w') ->
     let delta := SalaryUpdate.amount update - SiteWorkerLog.SalaryPaid l0 in
     Expenses.workerExpense (SiteDetailsData.expenses d')
     = Expenses.workerExpense (SiteDetailsData.expenses d) + delta /\
     Expenses.totalExpenses (SiteDetailsData.expenses d')
     = Expenses.totalExpenses (SiteDetailsData.expenses d) + delta).
Proof.
  intros Hin Hid Hfind amounts.
  destruct (updateWorkerSalary_found w update Hfind)
    as (pre & post & Hsplit & _ & Hupd).
  destruct (find_site w s Hin Hid) as (s0 & Hs0 & _).
  destruct (getSiteDetails_found w siteId Hs0) as (d & Hd & _).
  match type of Hupd with _ = (_, ?v) => set (w' := v) in * end.
  destruct (getSiteDetails_found w' siteId Hs0) as (d' & Hd' & _).
  exists d, d', w'. repeat (split; [assumption|]).
  split; [|split].
  - now apply (@materialExpense_same w w' siteId).
  - intros Hother. apply (@getSiteDetails_same w w' siteId); try reflexivity; auto.
    subst w'. cbn [siteWorkerLogs set_siteWorkerLogs]. rewrite Hsplit.
    rewrite !filter_app. cbn [filter SiteWorkerLog.set_payment SiteWorkerLog.SiteID].
    apply String.eqb_neq in Hother. now rewrite Hother.
  - intros Hsite Hsafe Hsafe'. cbv zeta.
    destruct (getSiteDetails_expenses_of w s Hin Hid Hsafe) as (d0 & Hd0 & He).
    destruct (getSiteDetails_expenses_of w' s Hin Hid Hsafe') as (d0' & Hd0' & He').
    rewrite Hd in Hd0. injection Hd0 as <-.
    rewrite Hd' in Hd0'. injection Hd0' as <-.
    rewrite He, He'. cbn [Expenses.workerExpense Expenses.totalExpenses].
    subst w'. cbn [siteWorkerLogs siteMaterialLogs set_siteWorkerLogs].
    rewrite Hsplit.
    rewrite !filter_app, !map_app, !Zsum_app. cbn [filter].
    cbn [SiteWorkerLog.set_payment SiteWorkerLog.SiteID].
    apply String.eqb_eq in Hsite. rewrite Hsite.
    cbn [map Zsum fold_right SiteWorkerLog.SalaryPaid SiteWorkerLog.set_payment].
    split; lia.
Qed.

(** ** Material entries and the expenses *)

Lemma addDailyMaterial_appends (w : World) (logData : DailyMaterialData.t) :
  exists log w1,
    addDailyMaterial logData w = (Ok log, w1) /\
    siteMaterialLogs w1 = siteMaterialLogs w ++ [log] /\
    siteWorkerLogs w1 = siteWorkerLogs w /\
    sites w1 = sites w /\
    dailyLogs w1 = dailyLogs w /\
    galleryImages w1 = galleryImages w /\
    SiteMaterialLog.SiteID log = DailyMaterialData.SiteID logData /\
    SiteMaterialLog.TotalCost log
    = jsMul (DailyMaterialData.QuantityUsed logData)
            (DailyMaterialData.DefaultValue logData).
Proof.
  unfold addDailyMaterial, generateUUID, bind, modify, ret.
  do 2 eexists. split; [reflexivity|]. cbn. repeat split.
Qed.

(** X6. A material entry adds its cost to the material expense of its site
    and of no other site.  After [addDailyMaterial], [getSiteDetails] of a
    site that the entry does not name returns what it returned before; for
    every site the worker expense is the same.  For the site that the entry
    names the new log is among the material logs returned and, while the
    amounts of the site together with the new cost are within the safe
    range, the material expense and the total are those of before plus
    [QuantityUsed * DefaultValue]. *)
Theorem addDailyMaterial_expenses (w : World) (logData : DailyMaterialData.t)
        (siteId : string) (s : Site.t) :
  In s (sites w) -> Site.SiteID s = siteId ->
  let cost :=
    DailyMaterialData.QuantityUsed logData * DailyMaterialData.DefaultValue logData in
  let amounts :=
    map SiteWorkerLog.SalaryPaid
        (filter (fun l => String.eqb (SiteWorkerLog.SiteID l) siteId)
                (siteWorkerLogs w))
    ++ map SiteMaterialLog.TotalCost
           (filter (fun l => String.eqb (SiteMaterialLog.SiteID l) siteId)
                   (siteMaterialLogs w)) in
  exists log w1 d d',
    addDailyMaterial logData w = (Ok log, w1) /\
    getSiteDetails siteId w = (Ok d, w) /\
    getSiteDetails siteId w1 = (Ok d', w1) /\
    Expenses.workerExpense (SiteDetailsData.expenses d')
    = Expenses.workerExpense (SiteDetailsData.expenses d) /\
    (DailyMaterialData.SiteID logData <> siteId -> d' = d) /\
    (DailyMaterialData.SiteID logData = siteId ->
     In log (SiteDetailsData.materialLogs d')) /\
    (DailyMaterialData.SiteID logData = siteId ->
     safeAmounts (amounts ++ [cost]) ->
     Expenses.materialExpense (SiteDetailsData.expenses d')
     = Expenses.materialExpense (SiteDetailsData.expenses d) + cost /\
     Expenses.totalExpenses (SiteDetailsData.expenses d')
     = Expenses.totalExpenses (SiteDetailsData.expenses d) + cost).
Proof.
  intros Hin Hid cost amounts.
  destruct (find_site w s Hin Hid) as (s0 & Hs0 & _).
  destruct (getSiteDetails_found w siteId Hs0) as (d & Hd & _).
  destruct (addDailyMaterial_appends w logData)
    as (log & w1 & E & Hlogs & Hworkers & Hsites & Hdaily & Hgallery & Hsite & Hcost).
  assert (Hin1 : In s (sites w1)) by now rewrite Hsites.
  assert (Hs1 : find (siteHasId siteId) (sites w1) = Some s0) by now rewrite Hsites.
  destruct (getSiteDetails_found w1 siteId Hs1) as (d' & Hd' & _).
  exists log, w1, d, d'. repeat (split; [assumption|]).
  split; [|split; [|split]].
  - apply (@workerExpense_same w w1 siteId); auto. now rewrite Hworkers.
  - intros Hother. apply (@getSiteDetails_same w w1 siteId); auto.
    + now rewrite Hworkers.
    + rewrite Hlogs, filter_app. cbn [filter]. rewrite Hsite.
      apply String.eqb_neq in Hother. now rewrite Hother, app_nil_r.
  - intros Hnamed.
    destruct (getSiteDetails_inv w1 siteId Hd') as (_ & _ & _ & _ & -> & _).
    apply Array_sort_In, filter_In. split.
    + rewrite Hlogs. apply in_or_app. right. now left.
    + rewrite Hsite. now apply String.eqb_eq.
  - intros Hnamed Hsafe.
    assert (Habs : Z.abs cost <= 2 ^ 53).
    { apply safeAmounts_app in Hsafe. destruct Hsafe as [_ Hc].
      unfold safeAmounts in Hc. simpl in Hc. lia. }
    assert (Hexact : SiteMaterialLog.TotalCost log = cost).
    { rewrite Hcost. unfold jsMul. now apply roundDouble_exact. }
    assert (Hsafe0 : safeAmounts amounts) by now apply safeAmounts_app in Hsafe.
    destruct (getSiteDetails_expenses_of w s Hin Hid Hsafe0) as (d0 & Hd0 & He).
    rewrite Hd in Hd0. injection Hd0 as <-.
    assert (Hsafe1 : safeAmounts
              (map SiteWorkerLog.SalaryPaid
                 (filter (fun l => String.eqb (SiteWorkerLog.SiteID l) siteId)
                         (siteWorkerLogs w1))
               ++ map SiteMaterialLog.TotalCost
                    (filter (fun l => String.eqb (SiteMaterialLog.SiteID l) siteId)
                            (siteMaterialLogs w1)))).
    { rewrite Hworkers, Hlogs, filter_app. cbn [filter]. rewrite Hsite.
      apply String.eqb_eq in Hnamed. rewrite Hnamed.
      rewrite map_app, app_assoc. cbn [map]. now rewrite Hexact. }
    destruct (getSiteDetails_expenses_of w1 s Hin1 Hid Hsafe1) as (d1 & Hd1 & He').
    rewrite Hd' in Hd1. injection Hd1 as <-.
    rewrite He, He'. cbn [Expenses.materialExpense Expenses.totalExpenses].
    rewrite Hworkers, Hlogs, filter_app, map_app, Zsum_app. cbn [filter].
    rewrite Hsite. apply String.eqb_eq in Hnamed. rewrite Hnamed.
    cbn [map Zsum fold_right]. rewrite Hexact. split; lia.
Qed.

(** ** Worker entries *)

Lemma find_app_none {A} (p : A -> bool) (l l' : list A) :
  (forall x, In x l -> p x = false) -> find p (l ++ l') = find p l'.
Proof.
  induction l as [|x r IH]; simpl; intros H; [reflexivity|].
  rewrite (H x (or_introl eq_refl)). apply IH. intros y Hy. apply H. now right.
Qed.

Lemma addDailyWorker_inv (w w' : World) (logData : DailyWorkerData.t)
      (r : DailyWorkerResult) :
  addDailyWorker logData w = (Ok r, w') ->
  sites w' = sites w /\
  materials w' = materials w /\
  dailyLogs w' = dailyLogs w /\
  siteMaterialLogs w' = siteMaterialLogs w /\
  galleryImages w' = galleryImages w /\
  siteWorkerLogs w' = siteWorkerLogs w ++ [newLog r] /\
  SiteWorkerLog.SiteID (newLog r) = DailyWorkerData.SiteID logData /\
  SiteWorkerLog.Date (newLog r) = DailyWorkerData.Date logData /\
  SiteWorkerLog.WorkerName (newLog r) = DailyWorkerData.WorkerName logData /\
  SiteWorkerLog.SalaryPaid (newLog r) = 0 /\
  SiteWorkerLog.PaidStatus (newLog r) = false /\
  match DailyWorkerData.newWorker logData with
  | None =>
      workers w' = workers w /\ newWorkerObj r = None /\
      DailyWorkerData.WorkerID logData = Some (SiteWorkerLog.WorkerID (newLog r)) /\
      SiteWorkerLog.LogID (newLog r) = randomUUID (uuidCount w)
  | Some payload =>
      let worker := Worker.mk (randomUUID (uuidCount w))
                              (WorkerData.WorkerName payload)
                              (WorkerData.Contact payload)
                              (WorkerData.DefaultDailyWage payload) in
      workers w' = workers w ++ [worker] /\ newWorkerObj r = Some worker /\
      SiteWorkerLog.WorkerID (newLog r) = Worker.WorkerID worker /\
      SiteWorkerLog.LogID (newLog r) = randomUUID (S (uuidCount w))
  end.
Proof.
  unfold addDailyWorker, addNewWorker, generateUUID, bind, ret, modify, throw.
  destruct (DailyWorkerData.newWorker logData) as [payload|]; cbn.
  - destruct (String.eqb (randomUUID (uuidCount w)) ""); [discriminate|].
    intros H. injection H as <- <-. cbn. repeat split.
  - destruct (DailyWorkerData.WorkerID logData) as [id|]; cbn; [|discriminate].
    destruct (String.eqb id ""); [discriminate|].
    intros H. injection H as <- <-. cbn. repeat split.
Qed.

(** X7. A new worker entry costs nothing yet.  Whenever [addDailyWorker]
    returns, [getSiteDetails] of a site that the entry does not name returns
    what it returned before.  For the site that the entry names the new log
    is among the worker logs returned, the material expense is the same,
    and the whole breakdown is the same when the dates of the worker logs
    returned can all be read (the logs of before then keep their order, and
    adding 0 rounds nothing), or when the salaries of the site are within
    the safe range.  Without either, the order of the earlier logs is the
    engine's choice and may change with the new entry, which shows in a sum
    of doubles. *)
Theorem addDailyWorker_expenses (w w' : World) (logData : DailyWorkerData.t)
        (r : DailyWorkerResult) (siteId : string) (s : Site.t) :
  addDailyWorker logData w = (Ok r, w') ->
  In s (sites w) -> Site.SiteID s = siteId ->
  exists d d',
    getSiteDetails siteId w = (Ok d, w) /\
    getSiteDetails siteId w' = (Ok d', w') /\
    (DailyWorkerData.SiteID logData <> siteId -> d' = d) /\
    (DailyWorkerData.SiteID logData = siteId ->
     In (newLog r) (SiteDetailsData.workerLogs d')) /\
    Expenses.materialExpense (SiteDetailsData.expenses d')
    = Expenses.materialExpense (SiteDetailsData.expenses d) /\
    (allDated SiteWorkerLog.Date (SiteDetailsData.workerLogs d') \/
     safeAmounts (map SiteWorkerLog.SalaryPaid (SiteDetailsData.workerLogs d)) ->
     SiteDetailsData.expenses d' = SiteDetailsData.expenses d).
Proof.
  intros Hadd Hin Hid.
  destruct (addDailyWorker_inv w logData Hadd)
    as (Hsites & _ & Hdaily & Hmat & Hgallery & Hlogs & Hsite & _ & _ & Hpaid & _).
  destruct (find_site w s Hin Hid) as (s0 & Hs0 & _).
  destruct (getSiteDetails_found w siteId Hs0) as (d & Hd & _).
  assert (Hs0' : find (siteHasId siteId) (sites w') = Some s0) by now rewrite Hsites.
  destruct (getSiteDetails_found w' siteId Hs0') as (d' & Hd' & _).
  exists d, d'. repeat (split; [assumption|]).
  destruct (getSiteDetails_inv w siteId Hd) as (_ & _ & _ & Hwl & _).
  destruct (getSiteDetails_inv w' siteId Hd') as (_ & _ & _ & Hwl' & _).
  assert (Hother : DailyWorkerData.SiteID logData <> siteId -> d' = d).
  { intros Hother. apply (@getSiteDetails_same w w' siteId); auto.
    - rewrite Hlogs, filter_app. cbn [filter]. rewrite Hsite.
      apply String.eqb_neq in Hother. now rewrite Hother, app_nil_r.
    - now rewrite Hmat. }
  assert (Hme : Expenses.materialExpense (SiteDetailsData.expenses d')
                = Expenses.materialExpense (SiteDetailsData.expenses d)).
  { apply (@materialExpense_same w w' siteId); auto. now rewrite Hmat. }
  split; [exact Hother|]. split; [|split; [exact Hme|]].
  - intros Hnamed. rewrite Hwl'. apply Array_sort_In, filter_In. split.
    + rewrite Hlogs. apply in_or_app. right. now left.
    + rewrite Hsite. now apply String.eqb_eq.
  - intros Hcase.
    destruct (String.eqb_spec (DailyWorkerData.SiteID logData) siteId)
      as [Hnamed|Hnot]; [|now rewrite (Hother Hnot)].
    apply (@expenses_same w w' siteId siteId d d' Hd Hd'); [|exact Hme].
    destruct (getSiteDetails_inv w siteId Hd) as (_ & _ & _ & _ & _ & _ & He).
    destruct (getSiteDetails_inv w' siteId Hd') as (_ & _ & _ & _ & _ & _ & He').
    rewrite He, He'. cbn [Expenses.workerExpense].
    rewrite <- !reduceSum_jsSum.
    assert (Hfilter :
              filter (fun l => String.eqb (SiteWorkerLog.SiteID l) siteId)
                     (siteWorkerLogs w')
              = filter (fun l => String.eqb (SiteWorkerLog.SiteID l) siteId)
                       (siteWorkerLogs w) ++ [newLog r]).
    { rewrite Hlogs, filter_app. cbn [filter]. rewrite Hsite.
      apply String.eqb_eq in Hnamed. now rewrite Hnamed. }
    rewrite Hwl' in *. rewrite Hwl in *. rewrite Hfilter in *.
    destruct Hcase as [Hdated|Hsafe].
    + apply reduceSum_sorted_zero; [exact Hpaid|].
      intros x Hx. apply Hdated. now apply Array_sort_In.
    + assert (Hsafe0 : safeAmounts
                (map SiteWorkerLog.SalaryPaid
                   (filter (fun l => String.eqb (SiteWorkerLog.SiteID l) siteId)
                           (siteWorkerLogs w)))).
      { apply (safeAmounts_perm
                 (Permutation_map _ (Array_sort_perm _ _)) Hsafe). }
      rewrite !reduceSum_sorted; [| exact Hsafe0 |].
      * rewrite map_app, Zsum_app. cbn [map Zsum fold_right]. rewrite Hpaid. lia.
      * unfold safeAmounts in *. rewrite !map_app, Zsum_app.
        cbn [map Zsum fold_right]. rewrite Hpaid. simpl Z.abs. lia.
Qed.

(** X8. Giving [addDailyWorker] a new-worker payload is the same as calling
    [addNewWorker] with the payload and then [addDailyWorker] with the ID of
    the worker returned and no payload: the two ways leave the same world
    and create the same log, or throw the same error. *)
Theorem addDailyWorker_as_two_calls (w : World) (logData : DailyWorkerData.t)
        (payload : WorkerData.t) :
  DailyWorkerData.newWorker logData = Some payload ->
  exists worker w1,
    addNewWorker payload w = (Ok worker, w1) /\
    let byId :=
      DailyWorkerData.mk (DailyWorkerData.SiteID logData)
                         (DailyWorkerData.Date logData)
                         (Some (Worker.WorkerID worker))
                         (DailyWorkerData.WorkerName logData) None in
    snd (addDailyWorker logData w) = snd (addDailyWorker byId w1) /\
    match fst (addDailyWorker logData w), fst (addDailyWorker byId w1) with
    | Ok r, Ok r' =>
        newLog r = newLog r' /\ newWorkerObj r = Some worker /\
        newWorkerObj r' = None
    | Throw e, Throw e' => e = e'
    | _, _ => False
    end.
Proof.
  intros Hnew. do 2 eexists. split; [cbn; reflexivity|].
  unfold addDailyWorker, addNewWorker, generateUUID, bind, ret, modify, throw.
  rewrite Hnew. cbn.
  destruct (String.eqb (randomUUID (uuidCount w)) ""); cbn; repeat split.
Qed.

(** X9. A worker entered for today on an Online site shows in today's list
    at once.  When [addDailyWorker] returns for an entry dated today whose
    site is Online, [getTodayWorkers] returns what it returned before
    followed by the new log.  The wage shown with it is 0 when the entry
    names a worker ID that the master list does not have, and the wage of
    the payload when the entry registers a new worker. *)
Theorem addDailyWorker_shows_today (w w' : World) (logData : DailyWorkerData.t)
        (r : DailyWorkerResult) (now : Z) (s : Site.t) :
  addDailyWorker logData w = (Ok r, w') ->
  DailyWorkerData.Date logData = getTodayDateString now ->
  In s (sites w) -> Site.SiteID s = DailyWorkerData.SiteID logData ->
  Site.Status s = Online ->
  exists before after,
    getTodayWorkers now w = (Ok before, w) /\
    getTodayWorkers now w' = (Ok after, w') /\
    map TodayWorker.toLog after = map TodayWorker.toLog before ++ [newLog r] /\
    forall e, In e after -> TodayWorker.toLog e = newLog r ->
      (DailyWorkerData.newWorker logData = None ->
       (forall wk, In wk (workers w) ->
                   Worker.WorkerID wk <> SiteWorkerLog.WorkerID (newLog r)) ->
       TodayWorker.DefaultDailyWage e = 0) /\
      (forall payload,
       DailyWorkerData.newWorker logData = Some payload ->
       (forall wk, In wk (workers w) ->
                   Worker.WorkerID wk <> randomUUID (uuidCount w)) ->
       TodayWorker.DefaultDailyWage e = WorkerData.DefaultDailyWage payload).
Proof.
  intros Hadd Hdate Hin Hid Hon.
  destruct (addDailyWorker_inv w logData Hadd)
    as (Hsites & _ & _ & _ & _ & Hlogs & Hsite & Hd & _ & _ & _ & Hworker).
  destruct (getTodayWorkers_logs w now) as (before & Hb & _ & Hbl).
  destruct (getTodayWorkers_logs w' now) as (after & Ha & Hadef & Hal).
  exists before, after. repeat (split; [assumption|]).
  assert (Hact : forall l, activeToday w' (getTodayDateString now) l
                           = activeToday w (getTodayDateString now) l).
  { intros l. unfold activeToday. now rewrite Hsites. }
  split.
  - rewrite Hal, Hbl, Hlogs, filter_app, (filter_ext _ _ Hact). f_equal.
    cbn [filter]. rewrite Hact.
    replace (activeToday w (getTodayDateString now) (newLog r)) with true;
      [reflexivity|].
    symmetry. apply activeToday_iff. split; [congruence|].
    exists s. repeat split; auto. congruence.
  - intros e He Hlog. subst after.
    apply in_map_iff in He. destruct He as (l & <- & _).
    rewrite toLog_todayWorkerOf in Hlog. subst l.
    cbn [todayWorkerOf TodayWorker.DefaultDailyWage].
    destruct (DailyWorkerData.newWorker logData) as [payload|].
    + destruct Hworker as (Hws & _ & Hwid & _). split; [discriminate|].
      intros p Hp Hfresh. injection Hp as <-.
      rewrite Hws, find_app_none.
      * cbn [find]. rewrite Hwid, String.eqb_refl. cbn [option_map].
        apply orZero_some.
      * intros wk Hwk. apply String.eqb_neq. rewrite Hwid. now apply Hfresh.
    + destruct Hworker as (Hws & _). split; [|discriminate].
      intros _ Hunknown. rewrite Hws, find_absent; [reflexivity|].
      intros wk Hwk. apply String.eqb_neq. now apply Hunknown.
Qed.

(** ** Files, continued *)

Lemma updateFirst_app_skip {A} (p : A -> bool) (f : A -> A)
      (pre post : list A) (x : A) :
  (forall y, In y pre -> p y = false) -> p x = true ->
  updateFirst p f (pre ++ x :: post) = pre ++ f x :: post.
Proof.
  induction pre as [|y r IH]; simpl; intros Hpre Hx.
  - now rewrite Hx.
  - rewrite (Hpre y (or_introl eq_refl)). f_equal. apply IH; auto.
Qed.

Lemma site_split (w : World) (siteId : string) (s : Site.t) :
  In s (sites w) -> Site.SiteID s = siteId ->
  exists pre s0 post,
    find (siteHasId siteId) (sites w) = Some s0 /\
    sites w = pre ++ s0 :: post /\
    (forall x, In x pre -> Site.SiteID x <> siteId) /\
    Site.SiteID s0 = siteId /\
    (NoDup (map Site.SiteID (sites w)) -> s0 = s) /\
    forall f, updateFirst (siteHasId siteId) f (sites w) = pre ++ f s0 :: post.
Proof.
  intros Hin Hid.
  destruct (find_site w s Hin Hid) as (s0 & Hfind & Hin0 & Hid0).
  destruct (updateFirst_split (siteHasId siteId) (fun x => x) (sites w) Hfind)
    as (pre & post & Hsplit & Hpre & _).
  exists pre, s0, post. repeat split; auto.
  - intros x Hx. apply String.eqb_neq. now apply Hpre.
  - intros Hnd. apply (NoDup_map_inj Site.SiteID (sites w)); auto. congruence.
  - intros f. rewrite Hsplit. apply updateFirst_app_skip; auto.
    now destruct (find_some _ _ Hfind).
Qed.

(** X10. [uploadFile] for a site ID that no site has throws "Site not
    found", whatever the file type, and leaves the world as it was; no UUID
    is drawn. *)
Theorem uploadFile_unknown_site (w : World) (now : Z) (fileData : FileData.t)
        (siteId fileType description : string) :
  (forall s, In s (sites w) -> Site.SiteID s <> siteId) ->
  uploadFile now fileData siteId fileType description w
  = (Throw (mkError "Site not found"), w).
Proof.
  intros H. unfold uploadFile, bind, gets. now rewrite find_no_site.
Qed.

(** X11. [uploadFile] with the file type "agreement" (with "plan") sets the
    agreement (the site plan) reference of the first site that has the ID
    to "file-" followed by the UUID drawn; the other fields of the site,
    the other sites and the other collections are unchanged.  A second
    upload replaces the reference of the first: the last write wins. *)
Theorem uploadFile_document (w : World) (now now' : Z) (fileData fileData' : FileData.t)
        (siteId description description' : string) (s : Site.t) :
  In s (sites w) -> Site.SiteID s = siteId ->
  exists pre s0 post,
    sites w = pre ++ s0 :: post /\
    (forall x, In x pre -> Site.SiteID x <> siteId) /\
    Site.SiteID s0 = siteId /\
    let fileId := ("file-" ++ randomUUID (uuidCount w))%string in
    let fileId' := ("file-" ++ randomUUID (S (uuidCount w)))%string in
    let wA := set_uuidCount (S (uuidCount w))
                (set_sites (pre ++ Site.set_AgreementFileID fileId s0 :: post) w) in
    let wP := set_uuidCount (S (uuidCount w))
                (set_sites (pre ++ Site.set_SitePlanFileID fileId s0 :: post) w) in
    uploadFile now fileData siteId "agreement" description w
    = (Ok (mkSuccess true), wA) /\
    uploadFile now fileData siteId "plan" description w
    = (Ok (mkSuccess true), wP) /\
    Site.SitePlanFileID (Site.set_AgreementFileID fileId s0) = Site.SitePlanFileID s0 /\
    Site.AgreementFileID (Site.set_SitePlanFileID fileId s0) = Site.AgreementFileID s0 /\
    siteCore (Site.set_AgreementFileID fileId s0) = siteCore s0 /\
    siteCore (Site.set_SitePlanFileID fileId s0) = siteCore s0 /\
    uploadFile now' fileData' siteId "agreement" description' wA
    = (Ok (mkSuccess true),
       set_uuidCount (S (S (uuidCount w)))
         (set_sites (pre ++ Site.set_AgreementFileID fileId' s0 :: post) w)) /\
    uploadFile now' fileData' siteId "plan" description' wP
    = (Ok (mkSuccess true),
       set_uuidCount (S (S (uuidCount w)))
         (set_sites (pre ++ Site.set_SitePlanFileID fileId' s0 :: post) w)).
Proof.
  intros Hin Hid.
  destruct (site_split w s Hin Hid)
    as (pre & s0 & post & Hfind & Hsplit & Hpre & Hid0 & _ & Hupd).
  exists pre, s0, post. repeat (split; [assumption|]).
  assert (Hskip : forall y, In y pre -> siteHasId siteId y = false).
  { intros y Hy. apply String.eqb_neq. now apply Hpre. }
  assert (Hfind' : forall f, Site.SiteID (f s0) = siteId ->
            find (siteHasId siteId) (pre ++ f s0 :: post) = Some (f s0)).
  { intros f Hf. apply find_app_skip; auto. now apply String.eqb_eq. }
  assert (Hagain : forall f g, Site.SiteID (f s0) = siteId ->
            updateFirst (siteHasId siteId) g (pre ++ f s0 :: post)
            = pre ++ g (f s0) :: post).
  { intros f g Hf. apply updateFirst_app_skip; auto. now apply String.eqb_eq. }
  cbn zeta. repeat split.
  - unfold uploadFile, generateUUID, bind, gets, modify, ret.
    rewrite Hfind. cbn. rewrite Hupd. reflexivity.
  - unfold uploadFile, generateUUID, bind, gets, modify, ret.
    rewrite Hfind. cbn. rewrite Hupd. reflexivity.
  - unfold uploadFile, generateUUID, bind, gets, modify, ret. cbn.
    rewrite (Hfind' (Site.set_AgreementFileID _)) by exact Hid0. cbn.
    rewrite (Hagain (Site.set_AgreementFileID _)) by exact Hid0. reflexivity.
  - unfold uploadFile, generateUUID, bind, gets, modify, ret. cbn.
    rewrite (Hfind' (Site.set_SitePlanFileID _)) by exact Hid0. cbn.
    rewrite (Hagain (Site.set_SitePlanFileID _)) by exact Hid0. reflexivity.
Qed.

(** X12. [uploadFile] with the file type "gallery" on a site that exists
    draws two UUIDs and appends one image: its file reference is "file-"
    followed by the first UUID, its URL is built on that reference, its ID
    is the second UUID and its date is today's; the sites are unchanged.
    [getSiteDetails] of the site then shows the image, in a gallery that is
    one longer than before. *)
Theorem uploadFile_gallery (w : World) (now : Z) (fileData : FileData.t)
        (siteId description : string) (s : Site.t) :
  In s (sites w) -> Site.SiteID s = siteId ->
  let fileId := ("file-" ++ randomUUID (uuidCount w))%string in
  let image :=
    GalleryImage.mk (randomUUID (S (uuidCount w))) siteId (getTodayDateString now)
                    fileId
                    ("https://picsum.photos/seed/" ++ fileId ++ "/400/400")%string
                    description in
  exists w1 d d',
    uploadFile now fileData siteId "gallery" description w
    = (Ok (mkSuccess true), w1) /\
    galleryImages w1 = galleryImages w ++ [image] /\
    sites w1 = sites w /\
    uuidCount w1 = S (S (uuidCount w)) /\
    getSiteDetails siteId w = (Ok d, w) /\
    getSiteDetails siteId w1 = (Ok d', w1) /\
    In image (SiteDetailsData.gallery d') /\
    List.length (SiteDetailsData.gallery d')
    = S (List.length (SiteDetailsData.gallery d)) /\
    SiteDetailsData.expenses d' = SiteDetailsData.expenses d.
Proof.
  intros Hin Hid fileId image.
  destruct (find_site w s Hin Hid) as (s0 & Hfind & _).
  destruct (getSiteDetails_found w siteId Hfind) as (d & Hd & _).
  set (w1 := set_galleryImages (push image (galleryImages w))
               (set_uuidCount (S (S (uuidCount w))) w)).
  assert (Hfind1 : find (siteHasId siteId) (sites w1) = Some s0) by exact Hfind.
  destruct (getSiteDetails_found w1 siteId Hfind1) as (d' & Hd' & _).
  exists w1, d, d'. split.
  { unfold uploadFile, generateUUID, bind, gets, modify, ret.
    rewrite Hfind. reflexivity. }
  repeat (split; [first [assumption | reflexivity]|]).
  destruct (getSiteDetails_inv w siteId Hd) as (_ & _ & _ & _ & _ & Hg & _).
  destruct (getSiteDetails_inv w1 siteId Hd') as (_ & _ & _ & _ & _ & Hg' & _).
  assert (Hfilter :
            filter (fun g => String.eqb (GalleryImage.SiteID g) siteId)
                   (galleryImages w1)
            = filter (fun g => String.eqb (GalleryImage.SiteID g) siteId)
                     (galleryImages w) ++ [image]).
  { subst w1. cbn [galleryImages set_galleryImages set_uuidCount]. unfold push.
    rewrite filter_app. cbn [filter]. subst image. cbn [GalleryImage.SiteID].
    now rewrite String.eqb_refl. }
  split; [|split].
  - rewrite Hg'. apply Array_sort_In. rewrite Hfilter. apply in_or_app. right. now left.
  - rewrite Hg, Hg', !Array_sort_length, Hfilter, length_app. cbn. lia.
  - apply (@expenses_same w w1 siteId siteId d d' Hd Hd').
    + now apply (@workerExpense_same w w1 siteId).
    + now apply (@materialExpense_same w w1 siteId).
Qed.

(** ** Sites and the dashboard *)

Lemma dashboard_of (w : World) (now : Z) :
  exists d,
    getProfileDashboardData now w = (Ok d, w) /\
    DashboardData.onlineSites d = Z.of_nat (List.length (filter isOnline (sites w))) /\
    DashboardData.offlineSites d
    = Z.of_nat (List.length (sites w))
      - Z.of_nat (List.length (filter isOnline (sites w))).
Proof. eexists. split; [reflexivity|]. split; reflexivity. Qed.

(** The four figures of the dashboard that are about logs depend on the two
    log collections alone. *)
Lemma dashboard_same_logs (w w' : World) (now : Z) (d d' : DashboardData.t) :
  getProfileDashboardData now w = (Ok d, w) ->
  getProfileDashboardData now w' = (Ok d', w') ->
  siteWorkerLogs w' = siteWorkerLogs w ->
  siteMaterialLogs w' = siteMaterialLogs w ->
  DashboardData.todayWorkers d' = DashboardData.todayWorkers d /\
  DashboardData.todayMaterials d' = DashboardData.todayMaterials d /\
  DashboardData.todayExpense d' = DashboardData.todayExpense d /\
  DashboardData.monthExpense d' = DashboardData.monthExpense d.
Proof.
  unfold getProfileDashboardData, bind, gets, ret. cbn.
  intros H H' Hw Hm. injection H as <-. injection H' as <-. cbn.
  rewrite Hw, Hm. repeat split.
Qed.

(** X13. [addNewSite] returns for every argument: the site appended carries
    the UUID drawn, the given data, the status Online and nothing received.
    On the dashboard it counts as one more Online site and changes no other
    figure; and when no site had that ID, [getSiteDetails] of the ID returns
    the new site. *)
Theorem addNewSite_dashboard (w : World) (siteData : SiteData.t) (now : Z) :
  let site :=
    Site.mk (randomUUID (uuidCount w)) (SiteData.SiteName siteData)
            (SiteData.Location siteData) (SiteData.OwnerName siteData)
            (SiteData.OwnerContact siteData) (SiteData.Budget siteData)
            (SiteData.TotalArea siteData) Online 0
            (SiteData.AgreementFileID siteData)
            (SiteData.SitePlanFileID siteData)
            (SiteData.DriveFolderID siteData) in
  exists w1 d d',
    addNewSite siteData w = (Ok site, w1) /\
    sites w1 = sites w ++ [site] /\
    getProfileDashboardData now w = (Ok d, w) /\
    getProfileDashboardData now w1 = (Ok d', w1) /\
    DashboardData.onlineSites d' = DashboardData.onlineSites d + 1 /\
    DashboardData.offlineSites d' = DashboardData.offlineSites d /\
    DashboardData.todayWorkers d' = DashboardData.todayWorkers d /\
    DashboardData.todayMaterials d' = DashboardData.todayMaterials d /\
    DashboardData.todayExpense d' = DashboardData.todayExpense d /\
    DashboardData.monthExpense d' = DashboardData.monthExpense d /\
    ((forall s, In s (sites w) -> Site.SiteID s <> randomUUID (uuidCount w)) ->
     exists details,
       getSiteDetails (randomUUID (uuidCount w)) w1 = (Ok details, w1) /\
       SiteDetailsData.site details = site).
Proof.
  intros site.
  set (w1 := set_sites (push site (sites w)) (set_uuidCount (S (uuidCount w)) w)).
  destruct (dashboard_of w now) as (d & Hd & Hon & Hoff).
  destruct (dashboard_of w1 now) as (d' & Hd' & Hon' & Hoff').
  exists w1, d, d'. split; [reflexivity|]. split; [reflexivity|].
  repeat (split; [assumption|]).
  assert (Hfilter : filter isOnline (sites w1) = filter isOnline (sites w) ++ [site]).
  { subst w1. cbn [sites set_sites set_uuidCount]. unfold push.
    now rewrite filter_app. }
  assert (Hlen : List.length (sites w1) = S (List.length (sites w))).
  { subst w1. cbn [sites set_sites set_uuidCount]. unfold push.
    rewrite length_app. cbn. lia. }
  split; [|split].
  - rewrite Hon, Hon', Hfilter, length_app. cbn [List.length]. lia.
  - rewrite Hoff, Hoff', Hfilter, Hlen, length_app. cbn [List.length]. lia.
  - destruct (@dashboard_same_logs w w1 now d d' Hd Hd' eq_refl eq_refl)
      as (? & ? & ? & ?).
    repeat (split; [assumption|]).
    intros Hfresh.
    apply getSiteDetails_found.
    subst w1. cbn [sites set_sites set_uuidCount]. unfold push.
    rewrite find_app_none.
    + cbn. unfold siteHasId. cbn. now rewrite String.eqb_refl.
    + intros s Hs. apply String.eqb_neq. now apply Hfresh.
Qed.

(** X14. Setting the status of a site moves one site between the two counts
    of the dashboard, or none: with [b x] being 1 for Online and 0 for
    Offline, the number of Online sites grows by [b status] minus [b] of the
    status that the site had, the number of Offline sites shrinks by as
    much, and the other figures stay. *)
Theorem updateSiteStatus_dashboard (w : World) (siteId : string)
        (status : SiteStatus) (now : Z) (s : Site.t) :
  In s (sites w) -> Site.SiteID s = siteId ->
  let b := fun x : SiteStatus => if SiteStatus_eqb x Online then 1 else 0 in
  exists s0 w1 d d',
    find (siteHasId siteId) (sites w) = Some s0 /\
    updateSiteStatus siteId status w = (Ok (mkSuccess true), w1) /\
    getProfileDashboardData now w = (Ok d, w) /\
    getProfileDashboardData now w1 = (Ok d', w1) /\
    DashboardData.onlineSites d'
    = DashboardData.onlineSites d + b status - b (Site.Status s0) /\
    DashboardData.offlineSites d'
    = DashboardData.offlineSites d - b status + b (Site.Status s0) /\
    DashboardData.todayWorkers d' = DashboardData.todayWorkers d /\
    DashboardData.todayMaterials d' = DashboardData.todayMaterials d /\
    DashboardData.todayExpense d' = DashboardData.todayExpense d /\
    DashboardData.monthExpense d' = DashboardData.monthExpense d.
Proof.
  intros Hin Hid b.
  destruct (site_split w s Hin Hid)
    as (pre & s0 & post & Hfind & Hsplit & _ & _ & _ & Hupd).
  set (w1 := set_sites (pre ++ Site.set_Status status s0 :: post) w).
  destruct (dashboard_of w now) as (d & Hd & Hon & Hoff).
  destruct (dashboard_of w1 now) as (d' & Hd' & Hon' & Hoff').
  exists s0, w1, d, d'. split; [exact Hfind|]. split.
  { unfold updateSiteStatus, bind, gets, modify, ret. rewrite Hfind, Hupd.
    reflexivity. }
  repeat (split; [assumption|]).
  assert (Hcount :
            Z.of_nat (List.length (filter isOnline (sites w1)))
            = Z.of_nat (List.length (filter isOnline (sites w)))
              + b status - b (Site.Status s0)).
  { subst w1 b. cbn [sites set_sites]. rewrite Hsplit, !filter_app.
    cbn [filter].
    change (isOnline (Site.set_Status status s0))
      with (SiteStatus_eqb status Online).
    change (isOnline s0) with (SiteStatus_eqb (Site.Status s0) Online).
    rewrite !length_app.
    destruct status, (Site.Status s0); cbn [SiteStatus_eqb List.length];
      rewrite ?Nat2Z.inj_add, ?Nat2Z.inj_succ; lia. }
  assert (Hlen : List.length (sites w1) = List.length (sites w)).
  { subst w1. cbn [sites set_sites]. rewrite Hsplit, !length_app. reflexivity. }
  split; [|split].
  - rewrite Hon, Hon'. exact Hcount.
  - rewrite Hoff, Hoff', Hlen, Hcount. lia.
  - exact (@dashboard_same_logs w w1 now d d' Hd Hd' eq_refl eq_refl).
Qed.

(** ** Status and today's list *)

Lemma find_app_swap {A} (q : A -> bool) (pre post : list A) (x y : A) :
  q x = false -> q y = false ->
  find q (pre ++ x :: post) = find q (pre ++ y :: post).
Proof.
  intros Hx Hy. induction pre as [|a r IH]; simpl.
  - now rewrite Hx, Hy.
  - now rewrite IH.
Qed.

Lemma map_filter_pointwise {A B} (f g : A -> B) (p p' : A -> bool)
      (q : B -> bool) (l : list A) :
  (forall x, p' x = p x && q (f x)) ->
  (forall x, p' x = true -> g x = f x) ->
  map g (filter p' l) = filter q (map f (filter p l)).
Proof.
  intros Hp Hg. induction l as [|x r IH]; simpl; [reflexivity|].
  destruct (p' x) eqn:E'; rewrite Hp in E'.
  - apply andb_true_iff in E'. destruct E' as (Ep & Eq).
    rewrite Ep. simpl. rewrite Eq, IH, Hg; [reflexivity|].
    rewrite Hp, Ep, Eq. reflexivity.
  - destruct (p x); simpl in *; [rewrite E'|]; exact IH.
Qed.

(** X15. Taking a site Offline takes its workers off today's list and
    leaves the rest of the list as it is: with unique site IDs, what
    [getTodayWorkers] returns after [updateSiteStatus siteId Offline] is
    what it returned before without the entries of that site. *)
Theorem updateSiteStatus_offline_today (w : World) (siteId : string) (now : Z)
        (s : Site.t) :
  NoDup (map Site.SiteID (sites w)) ->
  In s (sites w) -> Site.SiteID s = siteId ->
  exists w1 before after,
    updateSiteStatus siteId Offline w = (Ok (mkSuccess true), w1) /\
    getTodayWorkers now w = (Ok before, w) /\
    getTodayWorkers now w1 = (Ok after, w1) /\
    after = filter (fun e => negb (String.eqb (TodayWorker.SiteID e) siteId)) before /\
    forall e, In e after -> TodayWorker.SiteID e <> siteId.
Proof.
  intros Hnd Hin Hid.
  destruct (site_split w s Hin Hid)
    as (pre & s0 & post & Hfind & Hsplit & Hpre & Hid0 & _ & Hupd).
  set (w1 := set_sites (pre ++ Site.set_Status Offline s0 :: post) w).
  destruct (getTodayWorkers_logs w now) as (before & Hb & Hbdef & _).
  destruct (getTodayWorkers_logs w1 now) as (after & Ha & Hadef & _).
  exists w1, before, after. split.
  { unfold updateSiteStatus, bind, gets, modify, ret. rewrite Hfind, Hupd.
    reflexivity. }
  repeat (split; [assumption|]).
  assert (Hpost : forall x, In x post -> Site.SiteID x <> siteId).
  { intros x Hx E. rewrite Hsplit, map_app in Hnd. cbn [map] in Hnd.
    apply NoDup_remove_2 in Hnd. apply Hnd. apply in_or_app. right.
    rewrite Hid0, <- E. now apply in_map. }
  assert (Hex : forall (l : list Site.t) (id : string),
            (forall x, In x l -> Site.SiteID x <> siteId) -> id = siteId ->
            existsb (fun x => String.eqb (Site.SiteID x) id
                              && SiteStatus_eqb (Site.Status x) Online) l = false).
  { intros l id Hl ->. induction l as [|x r IH]; [reflexivity|]. simpl.
    rewrite IH by (intros y Hy; apply Hl; now right).
    assert (E : String.eqb (Site.SiteID x) siteId = false).
    { apply String.eqb_neq. apply Hl. now left. }
    now rewrite E. }
  assert (Hactive : forall l,
            activeToday w1 (getTodayDateString now) l
            = activeToday w (getTodayDateString now) l
              && negb (String.eqb (TodayWorker.SiteID (todayWorkerOf w l)) siteId)).
  { intros l. unfold activeToday. subst w1. cbn [sites set_sites].
    rewrite Hsplit, !existsb_app. cbn [existsb todayWorkerOf TodayWorker.SiteID].
    cbn [Site.set_Status Site.SiteID Site.Status SiteStatus_eqb].
    rewrite Hid0.
    destruct (String.eqb (SiteWorkerLog.SiteID l) siteId) eqn:E.
    - apply String.eqb_eq in E.
      rewrite (Hex pre _ Hpre E), (Hex post _ Hpost E).
      rewrite !andb_false_r. reflexivity.
    - rewrite (String.eqb_sym siteId), E. cbn [andb negb orb].
      now rewrite andb_true_r. }
  assert (Hsame : forall l,
            activeToday w1 (getTodayDateString now) l = true ->
            todayWorkerOf w1 l = todayWorkerOf w l).
  { intros l Hl. rewrite Hactive in Hl. apply andb_true_iff in Hl.
    destruct Hl as (_ & Hl). apply negb_true_iff in Hl.
    cbn [todayWorkerOf TodayWorker.SiteID] in Hl.
    unfold todayWorkerOf. subst w1. cbn [sites set_sites workers].
    rewrite Hsplit.
    rewrite (find_app_swap (siteHasId (SiteWorkerLog.SiteID l)) pre post
               (Site.set_Status Offline s0) s0); [reflexivity| |];
      unfold siteHasId; cbn [Site.set_Status Site.SiteID];
      rewrite Hid0, String.eqb_sym; exact Hl. }
  assert (Hafter : after = filter
            (fun e => negb (String.eqb (TodayWorker.SiteID e) siteId)) before).
  { rewrite Hadef, Hbdef.
    change (siteWorkerLogs w1) with (siteWorkerLogs w).
    now apply map_filter_pointwise. }
  split; [exact Hafter|].
  intros e He. rewrite Hafter in He. apply filter_In in He.
  destruct He as (_ & He). apply negb_true_iff in He. now apply String.eqb_neq.
Qed.

Lemma set_Status_back (a : SiteStatus) (s : Site.t) :
  Site.set_Status (Site.Status s) (Site.set_Status a s) = s.
Proof. now destruct s. Qed.

(** X16. The status switch of the home page, [handleToggleStatus], never
    throws.  For a site ID that no site has it shows the error toast
    "Failed to update status" and leaves the world as it was.  For a site
    that shows the status it has, it sets the other status and says so; a
    second use of the switch, now showing that other status, brings the
    world back to what it was. *)
Theorem handleToggleStatus_spec (w : World) (siteId : string) :
  (forall currentStatus,
     (forall s, In s (sites w) -> Site.SiteID s <> siteId) ->
     handleToggleStatus siteId currentStatus w
     = (Ok (Toast.mk "Failed to update status" "error"), w)) /\
  (forall currentStatus, exists toast w',
     handleToggleStatus siteId currentStatus w = (Ok toast, w')) /\
  (forall s0,
     find (siteHasId siteId) (sites w) = Some s0 ->
     let newStatus := match Site.Status s0 with
                      | Online => Offline
                      | Offline => Online
                      end in
     exists w1,
       handleToggleStatus siteId (Site.Status s0) w
       = (Ok (Toast.mk ("Site set to " ++ statusName newStatus)%string "success"),
          w1) /\
       find (siteHasId siteId) (sites w1) = Some (Site.set_Status newStatus s0) /\
       handleToggleStatus siteId newStatus w1
       = (Ok (Toast.mk ("Site set to " ++ statusName (Site.Status s0))%string
                       "success"),
          w)).
Proof.
  split; [|split].
  - intros cur H. unfold handleToggleStatus, tryCatch, updateSiteStatus, bind, gets.
    now rewrite find_no_site.
  - intros cur. unfold handleToggleStatus, tryCatch, updateSiteStatus, bind, gets,
      modify, ret, throw.
    destruct (find (siteHasId siteId) (sites w)); do 2 eexists; reflexivity.
  - intros s0 Hfind newStatus.
    destruct (find_some _ _ Hfind) as (Hin & Hp).
    destruct (updateFirst_split (siteHasId siteId) (fun x => x) (sites w) Hfind)
      as (pre & post & Hsplit & Hpre & _).
    assert (Hupd : forall (f g : Site.t -> Site.t),
              Site.SiteID (g s0) = Site.SiteID s0 ->
              find (siteHasId siteId) (pre ++ g s0 :: post) = Some (g s0) /\
              updateFirst (siteHasId siteId) f (pre ++ g s0 :: post)
              = pre ++ f (g s0) :: post).
    { intros f g Hg.
      assert (Hp' : siteHasId siteId (g s0) = true).
      { unfold siteHasId in *. now rewrite Hg. }
      split; [now apply find_app_skip | now apply updateFirst_app_skip]. }
    exists (set_sites (pre ++ Site.set_Status newStatus s0 :: post) w).
    destruct (Hupd (Site.set_Status newStatus) (fun x => x) eq_refl) as (_ & Hu1).
    destruct (Hupd (Site.set_Status (Site.Status s0)) (Site.set_Status newStatus)
                eq_refl) as (Hf2 & Hu2).
    rewrite <- Hsplit in Hu1.
    split; [|split].
    + unfold handleToggleStatus, tryCatch, updateSiteStatus, bind, gets,
        modify, ret. fold newStatus. rewrite Hfind, Hu1. reflexivity.
    + exact Hf2.
    + unfold handleToggleStatus, tryCatch, updateSiteStatus, bind, gets,
        modify, ret. cbn [sites set_sites].
      replace (match newStatus with Online => Offline | Offline => Online end)
        with (Site.Status s0) by (subst newStatus; now destruct (Site.Status s0)).
      rewrite Hf2. cbv beta iota. cbn [sites set_sites].
      rewrite Hu2, set_Status_back, <- Hsplit.
      now destruct w.
Qed.

(** ** What the views add to a log *)

(** X17. Every entry of today's list finds its site: the [SiteName] shown
    is the name of the first site that has the log's [SiteID], and
    "Unknown Site" only if that name is empty.  The wage shown is 0 when
    no worker of the master list has the log's [WorkerID]. *)
Theorem getTodayWorkers_lookups (w : World) (now : Z) :
  exists r,
    getTodayWorkers now w = (Ok r, w) /\
    forall e, In e r ->
      TodayWorker.Date e = getTodayDateString now /\
      (exists s,
         find (siteHasId (TodayWorker.SiteID e)) (sites w) = Some s /\
         TodayWorker.SiteName e
         = if String.eqb (Site.SiteName s) "" then "Unknown Site"
           else Site.SiteName s) /\
      ((forall wk, In wk (workers w) ->
                   Worker.WorkerID wk <> TodayWorker.WorkerID e) ->
       TodayWorker.DefaultDailyWage e = 0).
Proof.
  destruct (getTodayWorkers_logs w now) as (r & Hr & Hdef & _).
  exists r. split; [exact Hr|].
  intros e He. subst r. apply in_map_iff in He.
  destruct He as (l & <- & Hl). apply filter_In in Hl.
  destruct Hl as (_ & Hact). apply activeToday_iff in Hact.
  destruct Hact as (Hdate & s & Hs & Hid & _).
  split; [exact Hdate|]. split.
  - destruct (find_site w s Hs Hid) as (s0 & Hfind & _).
    exists s0. cbn [todayWorkerOf TodayWorker.SiteID TodayWorker.SiteName].
    rewrite Hfind. split; reflexivity.
  - intros Hunknown. cbn [todayWorkerOf TodayWorker.DefaultDailyWage].
    rewrite find_absent; [reflexivity|].
    intros wk Hwk. apply String.eqb_neq. now apply Hunknown.
Qed.

Lemma toLog_overallMaterialLogOf (w : World) (l : SiteMaterialLog.t) :
  OverallMaterialLog.toLog (overallMaterialLogOf w l) = l.
Proof. now destruct l. Qed.

(** X18. [getOverallMaterialsLog] shows every material log of the store
    once for each time the store holds it, and nothing else; when every
    date can be read the list is in date order, newest first, with the logs
    of one date in the order of the store.  The [SiteName] of an entry is
    the name of the first site with the log's [SiteID] when there is one and
    its name is not empty. *)
Theorem getOverallMaterialsLog_complete (w : World) :
  exists r,
    getOverallMaterialsLog w = (Ok r, w) /\
    Permutation (map OverallMaterialLog.toLog r) (siteMaterialLogs w) /\
    (allDated SiteMaterialLog.Date (siteMaterialLogs w) ->
     newestFirst SiteMaterialLog.Date (map OverallMaterialLog.toLog r) /\
     forall t,
       datedAt SiteMaterialLog.Date t (map OverallMaterialLog.toLog r)
       = datedAt SiteMaterialLog.Date t (siteMaterialLogs w)) /\
    (forall e s,
       In e r ->
       find (siteHasId (OverallMaterialLog.SiteID e)) (sites w) = Some s ->
       OverallMaterialLog.SiteName e
       = if String.eqb (Site.SiteName s) "" then "Unknown Site"
         else Site.SiteName s).
Proof.
  eexists. split; [reflexivity|].
  rewrite map_map, (map_ext _ (fun l => l)) by apply toLog_overallMaterialLogOf.
  rewrite map_id. split; [apply Array_sort_perm|]. split.
  - intros Hd. split; [now apply sort_newestFirst|].
    intros t. now apply sort_datedAt.
  - intros e s He Hfind. apply in_map_iff in He. destruct He as (l & <- & _).
    cbn [overallMaterialLogOf OverallMaterialLog.SiteID
         OverallMaterialLog.SiteName] in *.
    now rewrite Hfind.
Qed.

(** X19. The dashboard counts the workers of Offline sites, today's list
    does not: the length of what [getTodayWorkers] returns is at most the
    [todayWorkers] of [getProfileDashboardData], and equal to it when every
    worker log dated today has an Online site. *)
Theorem todayWorkers_count (w : World) (now : Z) :
  exists r d,
    getTodayWorkers now w = (Ok r, w) /\
    getProfileDashboardData now w = (Ok d, w) /\
    Z.of_nat (List.length r) <= DashboardData.todayWorkers d /\
    ((forall l, In l (siteWorkerLogs w) ->
                SiteWorkerLog.Date l = getTodayDateString now ->
                exists s, In s (sites w) /\
                          Site.SiteID s = SiteWorkerLog.SiteID l /\
                          Site.Status s = Online) ->
     Z.of_nat (List.length r) = DashboardData.todayWorkers d).
Proof.
  destruct (getTodayWorkers_logs w now) as (r & Hr & Hdef & _).
  exists r. eexists. split; [exact Hr|]. split; [reflexivity|].
  cbn [DashboardData.todayWorkers]. subst r. clear Hr. rewrite length_map.
  split.
  - apply inj_le. induction (siteWorkerLogs w) as [|l ls IH]; [apply le_n|].
    cbn [filter]. unfold activeToday at 1.
    destruct (String.eqb (SiteWorkerLog.Date l) (getTodayDateString now));
      cbn [andb].
    + destruct (existsb _ (sites w)); cbn [List.length]; lia.
    + exact IH.
  - intros Hall. f_equal. f_equal. apply filter_ext_in.
    intros l Hl. unfold activeToday.
    destruct (String.eqb (SiteWorkerLog.Date l) (getTodayDateString now)) eqn:E;
      [|reflexivity].
    apply String.eqb_eq in E. cbn [andb].
    destruct (Hall l Hl E) as (s & Hs & Hid & Hon).
    apply existsb_exists. exists s. split; [exact Hs|].
    apply andb_true_iff. now rewrite String.eqb_eq, SiteStatus_eqb_eq.
Qed.

(** ** What no call does *)

Lemma exec_grows (c : Call) (w : World) : grows w (exec c w).
Proof.
  destruct c; cbn [exec]; run_call; unfold grows; repeat split;
    cbn [sites workers materials dailyLogs siteWorkerLogs siteMaterialLogs
         galleryImages set_sites set_workers set_materials set_dailyLogs
         set_siteWorkerLogs set_siteMaterialLogs set_galleryImages
         set_uuidCount];
    first [ apply extends_refl
          | eexists; reflexivity
          | rewrite updateFirst_map by (intros []; reflexivity);
            apply extends_refl
          | rewrite map_app; eexists; reflexivity ].
Qed.

Lemma grows_trans (w1 w2 w3 : World) : grows w1 w2 -> grows w2 w3 -> grows w1 w3.
Proof.
  unfold grows.
  intros (A1 & A2 & A3 & A4 & A5 & A6 & A7) (B1 & B2 & B3 & B4 & B5 & B6 & B7).
  repeat split; eapply extends_trans; eassumption.
Qed.

(** X20. No call deletes, moves or rewrites a record.  After any history of
    calls each collection is the one before followed by new records, except
    that a site may have another status and other file references and a
    worker log another payment: so a record that was at an index is still
    there, whole for workers, materials, daily logs, material logs and
    gallery images, and with its other fields for sites and worker logs. *)
Theorem run_grows (cs : list Call) (w : World) :
  grows w (run cs w) /\
  (forall i x, nth_error (workers w) i = Some x ->
               nth_error (workers (run cs w)) i = Some x) /\
  (forall i x, nth_error (materials w) i = Some x ->
               nth_error (materials (run cs w)) i = Some x) /\
  (forall i x, nth_error (dailyLogs w) i = Some x ->
               nth_error (dailyLogs (run cs w)) i = Some x) /\
  (forall i x, nth_error (galleryImages w) i = Some x ->
               nth_error (galleryImages (run cs w)) i = Some x) /\
  (forall i s, nth_error (sites w) i = Some s ->
               exists s', nth_error (sites (run cs w)) i = Some s' /\
                          siteCore s' = siteCore s) /\
  (forall i l, nth_error (siteWorkerLogs w) i = Some l ->
               exists l', nth_error (siteWorkerLogs (run cs w)) i = Some l' /\
                          workerLogCore l' = workerLogCore l).
Proof.
  assert (G : grows w (run cs w)).
  { unfold run. revert w. induction cs as [|c cs IH]; intros w; simpl.
    - unfold grows. repeat split; apply extends_refl.
    - eapply grows_trans; [apply exec_grows | apply IH]. }
  split; [exact G|].
  destruct G as (G1 & G2 & G3 & G4 & G5 & G6 & G7).
  repeat split; intros i x Hx;
    try (eapply extends_nth_error; eassumption).
  - apply (map_nth_error siteCore) in Hx.
    apply (extends_nth_error i G1) in Hx.
    rewrite nth_error_map in Hx.
    destruct (nth_error (sites (run cs w)) i) as [s'|]; [|discriminate].
    exists s'. split; [reflexivity|]. cbn [option_map] in Hx. congruence.
  - apply (map_nth_error workerLogCore) in Hx.
    apply (extends_nth_error i G5) in Hx.
    rewrite nth_error_map in Hx.
    destruct (nth_error (siteWorkerLogs (run cs w)) i) as [l'|]; [|discriminate].
    exists l'. split; [reflexivity|]. cbn [option_map] in Hx. congruence.
Qed.

(** X21. A call that throws has written nothing: the world after it is the
    world before it (for a generator that, as [crypto.randomUUID], returns
    no empty string).  Only [updateSiteStatus], [addDailyWorker],
    [updateWorkerSalary] and [uploadFile] can throw. *)
Theorem throws_unchanged (c : Call) (w : World) :
  (randomUUID (uuidCount w) <> "" -> throws c w = true -> exec c w = w) /\
  (throws c w = true ->
   match c with
   | CallUpdateSiteStatus _ _ | CallAddDailyWorker _
   | CallUpdateWorkerSalary _ | CallUploadFile _ _ _ _ _ => True
   | _ => False
   end).
Proof.
  split.
  - intros Huuid. apply String.eqb_neq in Huuid.
    destruct c; cbn [exec throws]; try discriminate.
    + unfold updateSiteStatus, bind, gets.
      destruct (find _ _); cbn; [discriminate | reflexivity].
    + unfold addDailyWorker, addNewWorker, generateUUID, bind, ret, modify, throw.
      destruct (DailyWorkerData.newWorker logData); cbn.
      * rewrite Huuid. discriminate.
      * destruct (falsyId _); cbn; [reflexivity | discriminate].
    + unfold updateWorkerSalary, bind, gets.
      destruct (find _ _); cbn; [discriminate | reflexivity].
    + unfold uploadFile, generateUUID, bind, gets, modify, ret.
      destruct (find _ _); cbn; [|reflexivity].
      repeat (destruct (String.eqb fileType _); cbn; [discriminate|]).
      discriminate.
  - destruct c; cbn [throws]; try discriminate; auto.
Qed.

(** ** Unique IDs *)

Lemma exec_idLists (c : Call) (w : World) :
  (uuidCount w <= uuidCount (exec c w))%nat /\
  Forall2 (fun old new =>
             new = old \/
             exists k, (uuidCount w <= k < uuidCount (exec c w))%nat /\
                       new = old ++ [randomUUID k])
          (idLists w) (idLists (exec c w)).
Proof.
  destruct c; cbn [exec]; run_call; (split; [lia|]); unfold idLists;
    cbn [sites workers materials dailyLogs siteWorkerLogs siteMaterialLogs
         galleryImages uuidCount set_sites set_workers set_materials
         set_dailyLogs set_siteWorkerLogs set_siteMaterialLogs
         set_galleryImages set_uuidCount];
    repeat (apply Forall2_cons); try apply Forall2_nil;
    first [ left; reflexivity
          | left; apply updateFirst_map; intros []; reflexivity
          | right; eexists; split; [|rewrite map_app; reflexivity]; lia ].
Qed.

Lemma Forall2_Forall {A} (P Q : A -> Prop) (R : A -> A -> Prop) (l l' : list A) :
  Forall P l -> Forall2 R l l' -> (forall a b, P a -> R a b -> Q b) ->
  Forall Q l'.
Proof.
  intros HP HR H. induction HR; inversion HP; subst; constructor; eauto.
Qed.

Lemma NoDup_snoc {A} (l : list A) (x : A) :
  NoDup l -> ~ In x l -> NoDup (l ++ [x]).
Proof.
  intros Hl Hx. apply (Permutation_NoDup (Permutation_cons_append l x)).
  now constructor.
Qed.

Lemma exec_UniqueIds (bound : nat) (c : Call) (w : World) :
  (uuidCount (exec c w) <= bound)%nat ->
  (forall m n, (m < n < bound)%nat -> randomUUID m <> randomUUID n) ->
  UniqueIds bound w -> UniqueIds bound (exec c w).
Proof.
  intros Hb Hinj Hw. destruct (exec_idLists c w) as (Hle & Hstep).
  unfold UniqueIds in *. apply (Forall2_Forall _ Hw Hstep). cbn beta.
  intros old new (Hnd & Hfresh) [-> | (k & Hk & ->)].
  - split; [exact Hnd|]. intros n Hn. apply Hfresh. lia.
  - split.
    + apply NoDup_snoc; [exact Hnd|]. apply Hfresh. lia.
    + intros n Hn Hin. apply in_app_or in Hin. destruct Hin as [Hin | [E | []]].
      * revert Hin. apply Hfresh. lia.
      * revert E. apply Hinj. lia.
Qed.

Lemma run_uuidCount (cs : list Call) (w : World) :
  (uuidCount w <= uuidCount (run cs w))%nat.
Proof.
  unfold run. revert w. induction cs as [|c cs IH]; intros w; simpl; [lia|].
  specialize (IH (exec c w)). destruct (exec_idLists c w) as (Hle & _). lia.
Qed.

(** X22. IDs stay unique.  If the UUIDs drawn in the course of a history of
    calls differ from one another and from the IDs stored before, and no
    collection held an ID twice, then after the history no collection holds
    an ID twice: not sites, workers, materials, daily logs, worker logs,
    material logs nor gallery images. *)
Theorem run_unique_ids (cs : list Call) (w : World) :
  let bound := uuidCount (run cs w) in
  (forall m n, (m < n < bound)%nat -> randomUUID m <> randomUUID n) ->
  UniqueIds bound w ->
  UniqueIds bound (run cs w) /\
  NoDup (map Site.SiteID (sites (run cs w))) /\
  NoDup (map Worker.WorkerID (workers (run cs w))) /\
  NoDup (map Material.MaterialID (materials (run cs w))) /\
  NoDup (map DailyLog.LogID (dailyLogs (run cs w))) /\
  NoDup (map SiteWorkerLog.LogID (siteWorkerLogs (run cs w))) /\
  NoDup (map SiteMaterialLog.LogID (siteMaterialLogs (run cs w))) /\
  NoDup (map GalleryImage.ImageID (galleryImages (run cs w))).
Proof.
  intros bound Hinj Hw.
  assert (H : UniqueIds bound (run cs w)).
  { assert (Hb : (uuidCount (run cs w) <= bound)%nat) by (subst bound; lia).
    clearbody bound. revert w Hw Hb. unfold run.
    induction cs as [|c cs IH]; intros w Hw Hb; simpl in *; [exact Hw|].
    apply IH; [|exact Hb]. apply exec_UniqueIds; auto.
    pose proof (run_uuidCount cs (exec c w)) as Hle. unfold run in Hle. lia. }
  split; [exact H|].
  unfold UniqueIds, idLists in H.
  repeat match goal with
         | H : Forall _ (_ :: _) |- _ => inversion H; clear H; subst
         end.
  repeat split; tauto.
Qed.

End MoreProperties.

(** ** The further properties on the sample worlds *)

Lemma sample_no_site9 :
  forall s, In s (sites Sample.world0) -> Site.SiteID s <> "s-9".
Proof. intros s [<- | [<- | [<- | []]]]; discriminate. Qed.

Lemma getSiteDetails_outcome_witness :
  (forall s, In s (sites Sample.world0) -> Site.SiteID s <> "s-9") /\
  getSiteDetails (rt := Sample.rt) "s-9" Sample.world0
  = (Throw (mkError "Site not found"), Sample.world0) /\
  exists d,
    getSiteDetails (rt := Sample.rt) "s-1" Sample.world0 = (Ok d, Sample.world0) /\
    SiteDetailsData.site d = Sample.site1 /\
    In (SiteDetailsData.site d) (sites Sample.world0).
Proof.
  destruct (@getSiteDetails_outcome Sample.rt Sample.world0 "s-9")
    as (_ & _ & Hthrow).
  destruct (@getSiteDetails_outcome Sample.rt Sample.world0 "s-1")
    as (Hok & _ & _).
  split; [exact sample_no_site9|]. split; [exact (Hthrow sample_no_site9)|].
  eexists. split; [reflexivity|]. split; [reflexivity|].
  match goal with |- In (SiteDetailsData.site ?d) _ =>
    destruct (Hok d Sample.world0 eq_refl) as (_ & Hin & _); exact Hin end.
Defined.

Lemma getSiteDetails_lists_witness :
  exists d,
    getSiteDetails (rt := Sample.rt) "s-1" Cases.worldLogs = (Ok d, Cases.worldLogs) /\
    List.length (SiteDetailsData.logs d) = 4%nat /\
    Permutation (SiteDetailsData.workerLogs d) [Cases.log1] /\
    forall l, In l (SiteDetailsData.logs d) -> DailyLog.SiteID l = "s-1".
Proof.
  eexists. split; [reflexivity|].
  match goal with |- List.length (SiteDetailsData.logs ?d) = _ /\ _ =>
    destruct (@getSiteDetails_lists Sample.rt Cases.worldLogs Cases.worldLogs
                "s-1" d eq_refl) as (Hlogs & Hworkers & _ & _ & Hin & _) end.
  split; [reflexivity|]. split; [exact Hworkers|].
  intros l Hl. exact (proj2 (proj1 (Hin l) Hl)).
Defined.

Lemma getSiteDetails_newest_first_witness :
  exists d,
    getSiteDetails (rt := Sample.rt) "s-1" Cases.worldLogs = (Ok d, Cases.worldLogs) /\
    allDated (rt := Sample.rt) DailyLog.Date (SiteDetailsData.logs d) /\
    newestFirst (rt := Sample.rt) DailyLog.Date (SiteDetailsData.logs d) /\
    map DailyLog.Date (SiteDetailsData.logs d)
    = ["2024-01-15"; "2023-11-02"; "2023-10-26"; "2023-10-26"] /\
    map DailyLog.LogEntry
        (datedAt (rt := Sample.rt) DailyLog.Date Sample.loadTime
                 (SiteDetailsData.logs d))
    = ["Foundation work started. Excavation complete.";
       "Second entry of the day."].
Proof.
  eexists. split; [reflexivity|].
  match goal with |- allDated _ (SiteDetailsData.logs ?d) /\ _ =>
    destruct (@getSiteDetails_newest_first Sample.rt Cases.worldLogs
                Cases.worldLogs "s-1" d eq_refl) as (Hlogs & _) end.
  assert (Hd : forall x, In x
            (SiteDetailsData.logs
               (match fst (getSiteDetails (rt := Sample.rt) "s-1" Cases.worldLogs)
                with Ok d => d | Throw _ => SiteDetailsData.mk Sample.site1 [] [] [] []
                                              (Expenses.mk 0 0 0) end)) ->
            Date_parse (JsRuntime := Sample.rt) (DailyLog.Date x) <> None).
  { intros x Hx. vm_compute in Hx.
    destruct Hx as [<- | [<- | [<- | [<- | []]]]]; vm_compute; discriminate. }
  destruct (Hlogs Hd) as (Hsorted & Hstable).
  split; [exact Hd|]. split; [exact Hsorted|]. split; [reflexivity|].
  rewrite (Hstable Sample.loadTime). reflexivity.
Defined.

Lemma updateWorkerSalary_spec_witness :
  (forall l, In l (siteWorkerLogs Sample.world0) ->
             SiteWorkerLog.LogID l <> SalaryUpdate.logId Cases.payNothing) /\
  In Cases.log2 (siteWorkerLogs Sample.world0) /\
  updateWorkerSalary Cases.payNothing Sample.world0
  = (Throw (mkError "Worker log not found"), Sample.world0) /\
  exists w',
    updateWorkerSalary Cases.payLog2 Sample.world0 = (Ok (mkSuccess true), w') /\
    map SiteWorkerLog.SalaryPaid (siteWorkerLogs w') = [800; 950] /\
    map SiteWorkerLog.PaidStatus (siteWorkerLogs w') = [true; true].
Proof.
  assert (Hno : forall l, In l (siteWorkerLogs Sample.world0) ->
                  SiteWorkerLog.LogID l <> SalaryUpdate.logId Cases.payNothing).
  { intros l [<- | [<- | []]]; discriminate. }
  assert (Hin : In Cases.log2 (siteWorkerLogs Sample.world0))
    by (right; left; reflexivity).
  destruct (updateWorkerSalary_spec Sample.world0 Cases.payNothing) as (Hunknown & _).
  destruct (updateWorkerSalary_spec Sample.world0 Cases.payLog2) as (_ & Hknown).
  destruct (Hknown Cases.log2 Hin eq_refl)
    as (pre & l0 & post & _ & _ & _ & _ & Hupd).
  split; [exact Hno|]. split; [exact Hin|]. split; [exact (Hunknown Hno)|].
  eexists. split; [exact Hupd|].
  match goal with |- context [siteWorkerLogs ?v] =>
    replace v with (snd (updateWorkerSalary Cases.payLog2 Sample.world0))
      by (rewrite Hupd; reflexivity) end.
  split; reflexivity.
Defined.

Lemma updateWorkerSalary_expenses_witness :
  In Cases.site2 (sites Sample.world0) /\
  find (workerLogHasId (SalaryUpdate.logId Cases.payLog2))
       (siteWorkerLogs Sample.world0) = Some Cases.log2 /\
  exists d d' w',
    getSiteDetails (rt := Sample.rt) "s-2" Sample.world0 = (Ok d, Sample.world0) /\
    updateWorkerSalary Cases.payLog2 Sample.world0 = (Ok (mkSuccess true), w') /\
    getSiteDetails (rt := Sample.rt) "s-2" w' = (Ok d', w') /\
    Expenses.workerExpense (SiteDetailsData.expenses d) = 0 /\
    Expenses.workerExpense (SiteDetailsData.expenses d') = 950.
Proof.
  assert (Hin : In Cases.site2 (sites Sample.world0))
    by (right; left; reflexivity).
  split; [exact Hin|]. split; [reflexivity|].
  destruct (@updateWorkerSalary_expenses Sample.rt Sample.world0 Cases.payLog2
              "s-2" Cases.site2 Cases.log2 Hin eq_refl eq_refl)
    as (d & d' & w' & Hd & Hupd & Hd' & _ & _ & Hworker).
  exists d, d', w'. repeat (split; [assumption|]).
  assert (E : Expenses.workerExpense (SiteDetailsData.expenses d) = 0).
  { vm_compute in Hd. injection Hd as <-. reflexivity. }
  split; [exact E|].
  pose proof Hupd as Hw'. vm_compute in Hw'. injection Hw' as <-.
  destruct Hworker as [Hw _]; [reflexivity | safe_range | safe_range |].
  rewrite Hw, E. reflexivity.
Defined.

Lemma addDailyMaterial_expenses_witness :
  In Sample.site1 (sites Sample.world0) /\
  exists log w1 d d',
    addDailyMaterial (rt := Sample.rt) Cases.bricks Sample.world0 = (Ok log, w1) /\
    getSiteDetails (rt := Sample.rt) "s-1" Sample.world0 = (Ok d, Sample.world0) /\
    getSiteDetails (rt := Sample.rt) "s-1" w1 = (Ok d', w1) /\
    Expenses.materialExpense (SiteDetailsData.expenses d') = 22500 + 1000 /\
    In log (SiteDetailsData.materialLogs d').
Proof.
  assert (Hin : In Sample.site1 (sites Sample.world0)) by (left; reflexivity).
  split; [exact Hin|].
  destruct (@addDailyMaterial_expenses Sample.rt Sample.world0 Cases.bricks
              "s-1" Sample.site1 Hin eq_refl)
    as (log & w1 & d & d' & Hadd & Hd & Hd' & _ & _ & Hlog & Hmat).
  exists log, w1, d, d'. repeat (split; [assumption|]).
  split; [|exact (Hlog eq_refl)].
  destruct Hmat as [Hmat _]; [reflexivity | safe_range |].
  rewrite Hmat. vm_compute in Hd. injection Hd as <-. reflexivity.
Defined.

Lemma addDailyWorker_expenses_witness :
  In Sample.site1 (sites Sample.world0) /\
  exists r w' d d',
    addDailyWorker (rt := Sample.rt) Sample.entryNewWorker Sample.world0 = (Ok r, w') /\
    getSiteDetails (rt := Sample.rt) "s-1" Sample.world0 = (Ok d, Sample.world0) /\
    getSiteDetails (rt := Sample.rt) "s-1" w' = (Ok d', w') /\
    SiteDetailsData.expenses d' = SiteDetailsData.expenses d /\
    In (newLog r) (SiteDetailsData.workerLogs d').
Proof.
  assert (Hin : In Sample.site1 (sites Sample.world0)) by (left; reflexivity).
  split; [exact Hin|].
  assert (Hadd : exists r w',
            addDailyWorker (rt := Sample.rt) Sample.entryNewWorker Sample.world0
            = (Ok r, w')).
  { do 2 eexists. vm_compute. reflexivity. }
  destruct Hadd as (r & w' & Hadd).
  destruct (@addDailyWorker_expenses Sample.rt Sample.world0 w'
              Sample.entryNewWorker r "s-1" Sample.site1 Hadd Hin eq_refl)
    as (d & d' & Hd & Hd' & _ & Hlog & _ & He).
  exists r, w', d, d'. repeat (split; [assumption|]).
  split; [|exact (Hlog eq_refl)].
  apply He. right.
  pose proof Hd as Hd0. vm_compute in Hd0. injection Hd0 as <-. safe_range.
Defined.

(** Where neither condition holds the breakdown can change with a new
    entry.  On the second runtime, with a date that cannot be read among the
    worker logs of site s-1 and salaries of 2^53, 1 and 1, the worker
    expense is 2^53 + 2 before a fourth worker is entered and 2^53 after:
    the entry has changed the order of the logs that were there. *)
Example addDailyWorker_expenses_engine :
  exists r w' d d',
    addDailyWorker (rt := OddRuntime.runtime) Cases.helperToday Cases.worldUndated
    = (Ok r, w') /\
    getSiteDetails (rt := OddRuntime.runtime) "s-1" Cases.worldUndated
    = (Ok d, Cases.worldUndated) /\
    getSiteDetails (rt := OddRuntime.runtime) "s-1" w' = (Ok d', w') /\
    map SiteWorkerLog.SalaryPaid (SiteDetailsData.workerLogs d)
    = [1; 1; 9007199254740992] /\
    map SiteWorkerLog.SalaryPaid (SiteDetailsData.workerLogs d')
    = [9007199254740992; 1; 1; 0] /\
    Expenses.workerExpense (SiteDetailsData.expenses d) = 9007199254740994 /\
    Expenses.workerExpense (SiteDetailsData.expenses d') = 9007199254740992.
Proof.
  do 4 eexists. split; [vm_compute; reflexivity|].
  split; [vm_compute; reflexivity|]. split; [vm_compute; reflexivity|].
  repeat split.
Qed.

Lemma addDailyWorker_as_two_calls_witness :
  DailyWorkerData.newWorker Sample.entryNewWorker
  = Some (WorkerData.mk "Anil Rao" None 700) /\
  exists worker w1,
    addNewWorker (rt := Sample.rt) (WorkerData.mk "Anil Rao" None 700) Sample.world0
    = (Ok worker, w1) /\
    snd (addDailyWorker (rt := Sample.rt) Sample.entryNewWorker Sample.world0)
    = snd (addDailyWorker (rt := Sample.rt)
             (DailyWorkerData.mk "s-1" "2023-10-27" (Some (Worker.WorkerID worker))
                                 "Anil Rao" None) w1).
Proof.
  split; [reflexivity|].
  destruct (@addDailyWorker_as_two_calls Sample.rt Sample.world0
              Sample.entryNewWorker _ eq_refl) as (worker & w1 & Hnew & Hsame & _).
  exists worker, w1. split; [exact Hnew|]. exact Hsame.
Defined.

Lemma addDailyWorker_shows_today_witness :
  DailyWorkerData.Date Cases.newWorkerToday
  = getTodayDateString (rt := Sample.rt) Sample.loadTime /\
  In Sample.site1 (sites Sample.world0) /\
  Site.Status Sample.site1 = Online /\
  (forall wk, In wk (workers Sample.world0) ->
              Worker.WorkerID wk
              <> randomUUID (JsRuntime := Sample.rt) (uuidCount Sample.world0)) /\
  exists r w' after,
    addDailyWorker (rt := Sample.rt) Cases.newWorkerToday Sample.world0 = (Ok r, w') /\
    getTodayWorkers (rt := Sample.rt) Sample.loadTime w' = (Ok after, w') /\
    List.length after = 3%nat /\
    forall e, In e after -> TodayWorker.toLog e = newLog r ->
              TodayWorker.DefaultDailyWage e = 700.
Proof.
  assert (Hin : In Sample.site1 (sites Sample.world0)) by (left; reflexivity).
  assert (Hfresh : forall wk, In wk (workers Sample.world0) ->
            Worker.WorkerID wk
            <> randomUUID (JsRuntime := Sample.rt) (uuidCount Sample.world0)).
  { intros wk [<- | [<- | [<- | []]]]; discriminate. }
  split; [reflexivity|]. split; [exact Hin|]. split; [reflexivity|].
  split; [exact Hfresh|].
  assert (Hadd : exists r w',
            addDailyWorker (rt := Sample.rt) Cases.newWorkerToday Sample.world0
            = (Ok r, w')).
  { do 2 eexists. vm_compute. reflexivity. }
  destruct Hadd as (r & w' & Hadd).
  destruct (@addDailyWorker_shows_today Sample.rt Sample.world0 w'
              Cases.newWorkerToday r Sample.loadTime Sample.site1
              Hadd eq_refl Hin eq_refl eq_refl)
    as (before & after & Hb & Ha & Hlogs & Hwage).
  exists r, w', after. repeat (split; [assumption|]).
  split.
  - apply (f_equal (@List.length _)) in Hlogs.
    rewrite length_app, !length_map in Hlogs. rewrite Hlogs.
    vm_compute in Hb. injection Hb as <-. reflexivity.
  - intros e He Hlog.
    destruct (Hwage e He Hlog) as (_ & Hpayload).
    exact (Hpayload _ eq_refl Hfresh).
Defined.

Lemma uploadFile_unknown_site_witness :
  (forall s, In s (sites Sample.world0) -> Site.SiteID s <> "s-9") /\
  uploadFile (rt := Sample.rt) Sample.loadTime (FileData.mk "plan.pdf")
             "s-9" "plan" "" Sample.world0
  = (Throw (mkError "Site not found"), Sample.world0).
Proof.
  split; [exact sample_no_site9|].
  exact (@uploadFile_unknown_site Sample.rt Sample.world0 Sample.loadTime
           (FileData.mk "plan.pdf") "s-9" "plan" "" sample_no_site9).
Defined.

Lemma uploadFile_document_witness :
  In Sample.site1 (sites Sample.world0) /\
  exists w1 w2,
    uploadFile (rt := Sample.rt) Sample.loadTime (FileData.mk "a.pdf")
               "s-1" "agreement" "" Sample.world0
    = (Ok (mkSuccess true), w1) /\
    uploadFile (rt := Sample.rt) Sample.loadTime (FileData.mk "b.pdf")
               "s-1" "agreement" "" w1
    = (Ok (mkSuccess true), w2) /\
    map Site.AgreementFileID (sites w1)
    = [Some ("file-" ++ IsoRuntime.uuid 0)%string; None; None] /\
    map Site.AgreementFileID (sites w2)
    = [Some ("file-" ++ IsoRuntime.uuid 1)%string; None; None] /\
    map Site.SitePlanFileID (sites w2) = [None; None; None].
Proof.
  assert (Hin : In Sample.site1 (sites Sample.world0)) by (left; reflexivity).
  split; [exact Hin|].
  destruct (@uploadFile_document Sample.rt Sample.world0 Sample.loadTime
              Sample.loadTime (FileData.mk "a.pdf") (FileData.mk "b.pdf")
              "s-1" "" "" Sample.site1 Hin eq_refl)
    as (pre & s0 & post & _ & _ & _ & H1 & _ & _ & _ & _ & _ & H2 & _).
  do 2 eexists. split; [exact H1|]. split; [exact H2|].
  match type of H1 with _ = (_, ?v) =>
    replace v with (snd (uploadFile (rt := Sample.rt) Sample.loadTime
                           (FileData.mk "a.pdf") "s-1" "agreement" ""
                           Sample.world0))
      by (rewrite H1; reflexivity) end.
  split; [reflexivity|].
  match type of H2 with _ = (_, ?v) => set (w2 := v) in * end.
  assert (E : w2 = snd (uploadFile (rt := Sample.rt) Sample.loadTime
                          (FileData.mk "b.pdf") "s-1" "agreement" ""
                          (snd (uploadFile (rt := Sample.rt) Sample.loadTime
                                  (FileData.mk "a.pdf") "s-1" "agreement" ""
                                  Sample.world0)))).
  { rewrite H1. cbn [snd]. rewrite H2. reflexivity. }
  rewrite E. split; reflexivity.
Defined.

Lemma uploadFile_gallery_witness :
  In Sample.site1 (sites Sample.world0) /\
  exists w1 d',
    uploadFile (rt := Sample.rt) Sample.loadTime (FileData.mk "mock.jpg")
               "s-1" "gallery" "Mock Description" Sample.world0
    = (Ok (mkSuccess true), w1) /\
    getSiteDetails (rt := Sample.rt) "s-1" w1 = (Ok d', w1) /\
    List.length (SiteDetailsData.gallery d') = 1%nat /\
    In (GalleryImage.mk (IsoRuntime.uuid 1) "s-1" "2023-10-26"
          ("file-" ++ IsoRuntime.uuid 0)%string
          ("https://picsum.photos/seed/file-" ++ IsoRuntime.uuid 0 ++ "/400/400")%string
          "Mock Description")
       (SiteDetailsData.gallery d').
Proof.
  assert (Hin : In Sample.site1 (sites Sample.world0)) by (left; reflexivity).
  split; [exact Hin|].
  destruct (@uploadFile_gallery Sample.rt Sample.world0 Sample.loadTime
              (FileData.mk "mock.jpg") "s-1" "Mock Description" Sample.site1
              Hin eq_refl)
    as (w1 & d & d' & Hup & _ & _ & _ & Hd & Hd' & Himg & Hlen & _).
  exists w1, d'. repeat (split; [assumption|]).
  split.
  - rewrite Hlen. vm_compute in Hd. injection Hd as <-. reflexivity.
  - exact Himg.
Defined.

Lemma addNewSite_dashboard_witness :
  (forall s, In s (sites Sample.world0) ->
             Site.SiteID s
             <> randomUUID (JsRuntime := Sample.rt) (uuidCount Sample.world0)) /\
  exists site w1 d' details,
    addNewSite (rt := Sample.rt) Cases.siteA Sample.world0 = (Ok site, w1) /\
    getProfileDashboardData (rt := Sample.rt) Sample.loadTime w1 = (Ok d', w1) /\
    DashboardData.onlineSites d' = 3 /\
    DashboardData.offlineSites d' = 1 /\
    getSiteDetails (rt := Sample.rt) (IsoRuntime.uuid 0) w1 = (Ok details, w1) /\
    SiteDetailsData.site details = site /\
    Site.Status site = Online.
Proof.
  assert (Hfresh : forall s, In s (sites Sample.world0) ->
            Site.SiteID s
            <> randomUUID (JsRuntime := Sample.rt) (uuidCount Sample.world0)).
  { intros s [<- | [<- | [<- | []]]]; discriminate. }
  split; [exact Hfresh|].
  destruct (@addNewSite_dashboard Sample.rt Sample.world0 Cases.siteA
              Sample.loadTime)
    as (w1 & d & d' & Hadd & _ & Hd & Hd' & Hon & Hoff & _ & _ & _ & _ & Hdetails).
  destruct (Hdetails Hfresh) as (details & Hget & Hsite).
  eexists. exists w1, d', details. split; [exact Hadd|].
  split; [exact Hd'|].
  vm_compute in Hd. injection Hd as <-.
  split; [rewrite Hon; reflexivity|]. split; [rewrite Hoff; reflexivity|].
  split; [exact Hget|]. split; [exact Hsite|]. reflexivity.
Defined.

Lemma updateSiteStatus_dashboard_witness :
  In Sample.site3 (sites Sample.world0) /\
  exists w1 d',
    updateSiteStatus "s-3" Online Sample.world0 = (Ok (mkSuccess true), w1) /\
    getProfileDashboardData (rt := Sample.rt) Sample.loadTime w1 = (Ok d', w1) /\
    DashboardData.onlineSites d' = 3 /\
    DashboardData.offlineSites d' = 0.
Proof.
  assert (Hin : In Sample.site3 (sites Sample.world0))
    by (right; right; left; reflexivity).
  split; [exact Hin|].
  destruct (@updateSiteStatus_dashboard Sample.rt Sample.world0 "s-3" Online
              Sample.loadTime Sample.site3 Hin eq_refl)
    as (s0 & w1 & d & d' & Hfind & Hupd & Hd & Hd' & Hon & Hoff & _).
  exists w1, d'. repeat (split; [assumption|]).
  vm_compute in Hfind. injection Hfind as <-.
  vm_compute in Hd. injection Hd as <-.
  split; [rewrite Hon | rewrite Hoff]; reflexivity.
Defined.

Lemma updateSiteStatus_offline_today_witness :
  NoDup (map Site.SiteID (sites Sample.world0)) /\
  In Cases.site2 (sites Sample.world0) /\
  exists w1 after,
    updateSiteStatus "s-2" Offline Sample.world0 = (Ok (mkSuccess true), w1) /\
    getTodayWorkers (rt := Sample.rt) Sample.loadTime w1 = (Ok after, w1) /\
    map TodayWorker.toLog after = [Cases.log1].
Proof.
  assert (Hin : In Cases.site2 (sites Sample.world0))
    by (right; left; reflexivity).
  split; [exact sample_site_ids|]. split; [exact Hin|].
  destruct (@updateSiteStatus_offline_today Sample.rt Sample.world0 "s-2"
              Sample.loadTime Cases.site2 sample_site_ids Hin eq_refl)
    as (w1 & before & after & Hupd & Hb & Ha & Hafter & _).
  exists w1, after. repeat (split; [assumption|]).
  rewrite Hafter. vm_compute in Hb. injection Hb as <-. reflexivity.
Defined.

Lemma handleToggleStatus_spec_witness :
  (forall s, In s (sites Sample.world0) -> Site.SiteID s <> "s-9") /\
  find (siteHasId "s-3") (sites Sample.world0) = Some Sample.site3 /\
  handleToggleStatus "s-9" Online Sample.world0
  = (Ok (Toast.mk "Failed to update status" "error"), Sample.world0) /\
  exists w1,
    handleToggleStatus "s-3" Offline Sample.world0
    = (Ok (Toast.mk "Site set to Online" "success"), w1) /\
    handleToggleStatus "s-3" Online w1
    = (Ok (Toast.mk "Site set to Offline" "success"), Sample.world0).
Proof.
  destruct (handleToggleStatus_spec Sample.world0 "s-9") as (Hfail & _).
  destruct (handleToggleStatus_spec Sample.world0 "s-3") as (_ & _ & Hflip).
  destruct (Hflip Sample.site3 eq_refl) as (w1 & H1 & _ & H2).
  split; [exact sample_no_site9|]. split; [reflexivity|].
  split; [exact (Hfail Online sample_no_site9)|].
  exists w1. split; [exact H1 | exact H2].
Defined.

Lemma getTodayWorkers_lookups_witness :
  (forall wk, In wk (workers Cases.worldGhost) -> Worker.WorkerID wk <> "w-404") /\
  exists r,
    getTodayWorkers (rt := Sample.rt) Sample.loadTime Cases.worldGhost
    = (Ok r, Cases.worldGhost) /\
    map TodayWorker.WorkerName r = ["Ramesh Kumar"; "Suresh Singh"; "Ghost"] /\
    forall e, In e r -> TodayWorker.WorkerID e = "w-404" ->
              TodayWorker.DefaultDailyWage e = 0 /\
              TodayWorker.SiteName e = "Greenwood Villa".
Proof.
  assert (Hno : forall wk, In wk (workers Cases.worldGhost) ->
                  Worker.WorkerID wk <> "w-404").
  { intros wk [<- | [<- | [<- | []]]]; discriminate. }
  split; [exact Hno|].
  destruct (@getTodayWorkers_lookups Sample.rt Cases.worldGhost Sample.loadTime)
    as (r & Hr & Hall).
  exists r. split; [exact Hr|]. split.
  - vm_compute in Hr. injection Hr as <-. reflexivity.
  - intros e He Hid. destruct (Hall e He) as (_ & (s & Hfind & Hname) & Hwage).
    split.
    + apply Hwage. intros wk Hwk. rewrite Hid. now apply Hno.
    + rewrite Hname. clear Hname Hwage Hall.
      vm_compute in Hr. injection Hr as <-.
      destruct He as [<- | [<- | [<- | []]]]; try discriminate Hid.
      vm_compute in Hfind. injection Hfind as <-. reflexivity.
Defined.

Lemma getOverallMaterialsLog_complete_witness :
  allDated (rt := Sample.rt) SiteMaterialLog.Date
           (siteMaterialLogs Sample.worldNoSite) /\
  find (siteHasId "s-1") (sites Sample.worldNoSite) = Some Sample.site1 /\
  exists r,
    getOverallMaterialsLog (rt := Sample.rt) Sample.worldNoSite
    = (Ok r, Sample.worldNoSite) /\
    Permutation (map OverallMaterialLog.toLog r)
                (siteMaterialLogs Sample.worldNoSite) /\
    newestFirst (rt := Sample.rt) SiteMaterialLog.Date
                (map OverallMaterialLog.toLog r) /\
    map OverallMaterialLog.Date r = ["2023-10-27"; "2023-10-26"] /\
    forall e, In e r -> OverallMaterialLog.SiteID e = "s-1" ->
              OverallMaterialLog.SiteName e = "Greenwood Villa".
Proof.
  assert (Hd : allDated (rt := Sample.rt) SiteMaterialLog.Date
                        (siteMaterialLogs Sample.worldNoSite)).
  { intros x Hx. vm_compute in Hx.
    destruct Hx as [<- | [<- | []]]; vm_compute; discriminate. }
  split; [exact Hd|]. split; [reflexivity|].
  destruct (@getOverallMaterialsLog_complete Sample.rt Sample.worldNoSite)
    as (r & Hr & Hperm & Hsorted & Hname).
  exists r. repeat (split; [assumption|]).
  split; [exact (proj1 (Hsorted Hd))|].
  split; [vm_compute in Hr; injection Hr as <-; reflexivity|].
  intros e He Hid.
  assert (Hfind : find (siteHasId (OverallMaterialLog.SiteID e))
                       (sites Sample.worldNoSite) = Some Sample.site1)
    by (rewrite Hid; reflexivity).
  rewrite (Hname e Sample.site1 He Hfind). reflexivity.
Defined.

Lemma todayWorkers_count_witness :
  (forall l, In l (siteWorkerLogs Sample.world0) ->
             SiteWorkerLog.Date l
             = getTodayDateString (rt := Sample.rt) Sample.loadTime ->
             exists s, In s (sites Sample.world0) /\
                       Site.SiteID s = SiteWorkerLog.SiteID l /\
                       Site.Status s = Online) /\
  (exists r d,
     getTodayWorkers (rt := Sample.rt) Sample.loadTime Sample.world0
     = (Ok r, Sample.world0) /\
     getProfileDashboardData (rt := Sample.rt) Sample.loadTime Sample.world0
     = (Ok d, Sample.world0) /\
     Z.of_nat (List.length r) = DashboardData.todayWorkers d) /\
  (exists r d,
     getTodayWorkers (rt := Sample.rt) Sample.loadTime Sample.worldOffline
     = (Ok r, Sample.worldOffline) /\
     getProfileDashboardData (rt := Sample.rt) Sample.loadTime Sample.worldOffline
     = (Ok d, Sample.worldOffline) /\
     Z.of_nat (List.length r) <= DashboardData.todayWorkers d /\
     DashboardData.todayWorkers d = 3).
Proof.
  assert (Hall : forall l, In l (siteWorkerLogs Sample.world0) ->
            SiteWorkerLog.Date l
            = getTodayDateString (rt := Sample.rt) Sample.loadTime ->
            exists s, In s (sites Sample.world0) /\
                      Site.SiteID s = SiteWorkerLog.SiteID l /\
                      Site.Status s = Online).
  { intros l [<- | [<- | []]] _.
    - exists Sample.site1. split; [left; reflexivity | split; reflexivity].
    - exists Cases.site2. split; [right; left; reflexivity | split; reflexivity]. }
  split; [exact Hall|]. split.
  - destruct (@todayWorkers_count Sample.rt Sample.world0 Sample.loadTime)
      as (r & d & Hr & Hd & _ & Heq).
    exists r, d. repeat (split; [assumption|]). exact (Heq Hall).
  - destruct (@todayWorkers_count Sample.rt Sample.worldOffline Sample.loadTime)
      as (r & d & Hr & Hd & Hle & _).
    exists r, d. repeat (split; [assumption|]).
    vm_compute in Hd. injection Hd as <-. reflexivity.
Defined.

Lemma run_grows_witness :
  nth_error (siteWorkerLogs Sample.world0) 1 = Some Cases.log2 /\
  nth_error (dailyLogs Sample.world0) 0
  = nth_error (dailyLogs (run (rt := Sample.rt)
                              (CallUpdateWorkerSalary Cases.payLog2 :: Cases.moreLogs)
                              Sample.world0)) 0 /\
  exists l',
    nth_error (siteWorkerLogs (run (rt := Sample.rt)
                                   (CallUpdateWorkerSalary Cases.payLog2
                                    :: Cases.moreLogs)
                                   Sample.world0)) 1 = Some l' /\
    SiteWorkerLog.WorkerName l' = "Suresh Singh" /\
    SiteWorkerLog.SalaryPaid l' = 950.
Proof.
  destruct (@run_grows Sample.rt
              (CallUpdateWorkerSalary Cases.payLog2 :: Cases.moreLogs)
              Sample.world0) as (_ & _ & _ & Hdaily & _ & _ & Hlogs).
  split; [reflexivity|]. split.
  - symmetry. apply Hdaily. reflexivity.
  - destruct (Hlogs 1%nat Cases.log2 eq_refl) as (l' & Hl' & Hcore).
    exists l'. split; [exact Hl'|]. split.
    + unfold workerLogCore in Hcore. now injection Hcore.
    + vm_compute in Hl'. injection Hl' as <-. reflexivity.
Defined.

Lemma throws_unchanged_witness :
  randomUUID (JsRuntime := Sample.rt) (uuidCount Sample.world0) <> "" /\
  throws (rt := Sample.rt) (CallUpdateWorkerSalary Cases.payNothing) Sample.world0
  = true /\
  exec (rt := Sample.rt) (CallUpdateWorkerSalary Cases.payNothing) Sample.world0
  = Sample.world0.
Proof.
  assert (Huuid : randomUUID (JsRuntime := Sample.rt) (uuidCount Sample.world0) <> "")
    by discriminate.
  destruct (@throws_unchanged Sample.rt (CallUpdateWorkerSalary Cases.payNothing)
              Sample.world0) as (Hsame & _).
  split; [exact Huuid|]. split; [reflexivity|]. exact (Hsame Huuid eq_refl).
Defined.

Lemma run_unique_ids_witness :
  uuidCount (run (rt := Sample.rt) Sample.scenario Sample.world0) = 3%nat /\
  (forall m n, (m < n < 3)%nat ->
               randomUUID (JsRuntime := Sample.rt) m
               <> randomUUID (JsRuntime := Sample.rt) n) /\
  UniqueIds (rt := Sample.rt) 3 Sample.world0 /\
  NoDup (map Site.SiteID
             (sites (run (rt := Sample.rt) Sample.scenario Sample.world0))) /\
  NoDup (map SiteWorkerLog.LogID
             (siteWorkerLogs (run (rt := Sample.rt) Sample.scenario Sample.world0))).
Proof.
  assert (Hinj : forall m n, (m < n < 3)%nat ->
            randomUUID (JsRuntime := Sample.rt) m
            <> randomUUID (JsRuntime := Sample.rt) n).
  { intros m n Hmn.
    assert (Hc : (m = 0%nat /\ n = 1%nat) \/ (m = 0%nat /\ n = 2%nat)
                 \/ (m = 1%nat /\ n = 2%nat)) by lia.
    destruct Hc as [(-> & ->) | [(-> & ->) | (-> & ->)]]; discriminate. }
  assert (Hfresh : forall (ids : list string) n,
            (0 <= n < 3)%nat ->
            forallb (fun k => negb (existsb (String.eqb (IsoRuntime.uuid k)) ids))
                    [0; 1; 2]%nat = true ->
            ~ In (randomUUID (JsRuntime := Sample.rt) n) ids).
  { intros ids n Hn Hb Hin.
    assert (Hk : In n [0; 1; 2]%nat) by (simpl; lia).
    rewrite forallb_forall in Hb. specialize (Hb n Hk).
    apply negb_true_iff in Hb.
    assert (Ht : existsb (String.eqb (IsoRuntime.uuid n)) ids = true).
    { apply existsb_exists. exists (IsoRuntime.uuid n). split; [exact Hin|].
      apply String.eqb_refl. }
    congruence. }
  assert (Hu : UniqueIds (rt := Sample.rt) 3 Sample.world0).
  { unfold UniqueIds, idLists.
    repeat (apply Forall_cons; [split;
      [ repeat constructor; simpl; intuition discriminate
      | intros n Hn; apply Hfresh; [exact Hn | reflexivity] ] |]).
    apply Forall_nil. }
  destruct (@run_unique_ids Sample.rt Sample.scenario Sample.world0 Hinj Hu)
    as (_ & Hsites & _ & _ & _ & Hlogs & _).
  split; [reflexivity|]. split; [exact Hinj|]. split; [exact Hu|].
  split; [exact Hsites | exact Hlogs].
Defined.
